(** * FigmaMCP: node search, style extraction, classification, code generation

    A shallow embedding of the decision logic of the repository:
    - the demo server ([findNodeByName], [extractComponentStyle],
      [findTextNode], [extractText], [rgbaToHex] and the
      [/api/fetch-component] route), in [Module Demo];
    - the MCP server class [FigmaServer] ([getFigmaFile],
      [extractComponents], [generateReactComponent], [findNodeByName],
      [generateReactCode], [extractText], [rgbaToHex], [toPascalCase],
      [createButton] and the tool-call handler), in [Module Server], with
      [hexToRgba] in [Module Hex];
    - [traverse] of the listing script, in [Module Lister].

    JavaScript numbers are IEEE 754 binary64 values; they are modelled with
    the Standard Library's executable specification [spec_float] at
    precision 53 and maximal exponent 1024.  Strings are modelled as Rocq
    strings and case mapping is the ASCII one. *)

From Stdlib Require Import Bool List ZArith Lia Ascii String SpecFloat.
From Stdlib Require Import QArith Qabs.
Import ListNotations.

#[local] Set Warnings "-register-all".

Open Scope string_scope.
Open Scope Z_scope.

(* ================================================================== *)
(** * The JavaScript built-ins the sources use *)
(* ================================================================== *)

Module JS.

(** ** Numbers *)

Definition number := spec_float.

Definition prec : Z := 53.
Definition emax : Z := 1024.

(** An integer literal of the source, as the binary64 value it denotes. *)
Definition lit (z : Z) : number := binary_normalize prec emax z 0 false.

Definition mul (x y : number) : number := SFmul prec emax x y.

(** [x > y] and [x >= y]; both are false when either side is NaN. *)
Definition gt (x y : number) : bool := SFltb y x.
Definition ge (x y : number) : bool := SFleb y x.

(** ToBoolean on a number: [+0], [-0] and [NaN] are falsy. *)
Definition truthy_number (x : number) : bool :=
  match x with
  | S754_zero _ | S754_nan => false
  | _ => true
  end.

(** ToBoolean on a string: only the empty string is falsy. *)
Definition truthy_string (s : string) : bool :=
  match s with
  | EmptyString => false
  | String _ _ => true
  end.

(** [v || d] where [v] is a possibly absent number. *)
Definition or_number (v : option number) (d : number) : number :=
  match v with
  | Some x => if truthy_number x then x else d
  | None => d
  end.

(** [v || d] where [v] is a possibly absent string. *)
Definition or_string (v : option string) (d : string) : string :=
  match v with
  | Some s => if truthy_string s then s else d
  | None => d
  end.

(** *** [Math.round]

    The result of [Math.round] is NaN, an infinity, or an integral number,
    with [-0] apart from [+0]; the type of the result records that. *)
Inductive rounded : Type :=
  | RNaN
  | RInf (negative : bool)
  | RNegZero
  | RInt (z : Z).

(** [floor (m * 2^e + 1/2)] for an integer [m]: the nearest integer, a tie
    going up. *)
Definition round_half_up (m e : Z) : Z :=
  if 0 <=? e then m * 2 ^ e
  else (2 * m + 2 ^ (- e)) / 2 ^ (- e + 1).

Definition round (x : number) : rounded :=
  match x with
  | S754_nan => RNaN
  | S754_infinity s => RInf s
  | S754_zero s => if s then RNegZero else RInt 0
  | S754_finite s m e =>
      let z := round_half_up (if s then Zneg m else Zpos m) e in
      if s && (z =? 0) then RNegZero else RInt z
  end.

(** *** Digits *)

Definition digit_char (d : Z) : ascii :=
  if d <? 10 then ascii_of_nat (Z.to_nat (48 + d))
  else ascii_of_nat (Z.to_nat (87 + d)).

Fixpoint digits_fuel (fuel : nat) (radix z : Z) (acc : string) : string :=
  match fuel with
  | O => acc
  | S k =>
      let acc' := String (digit_char (z mod radix)) acc in
      if z <? radix then acc' else digits_fuel k radix (z / radix) acc'
  end.

(** The digits of [z >= 0] in a radix from 2 to 36, lowercase, no leading
    zero. *)
Definition digits (radix z : Z) : string :=
  digits_fuel (S (Z.to_nat (Z.log2 z))) radix z EmptyString.

(** [r.toString(16)] for a result of [Math.round]. *)
Definition toString16 (x : rounded) : string :=
  match x with
  | RNaN => "NaN"
  | RInf s => if s then "-Infinity" else "Infinity"
  | RNegZero => "0"
  | RInt z => if z <? 0 then "-" ++ digits 16 (- z) else digits 16 z
  end.

Fixpoint repeat_char (c : ascii) (n : nat) : string :=
  match n with
  | O => EmptyString
  | S k => String c (repeat_char c k)
  end.

(** *** Number::toString, radix 10 (what a template literal applies) *)

(** The real number [m * 2^e]. *)
Definition dyadic (m e : Z) : Q :=
  if 0 <=? e then inject_Z (m * 2 ^ e) else Qmake m (Z.to_pos (2 ^ (- e))).

(** The real number [s * 10^p]. *)
Definition decimal (s p : Z) : Q :=
  if 0 <=? p then inject_Z (s * 10 ^ p) else Qmake s (Z.to_pos (10 ^ (- p))).

Definition Qltb (a b : Q) : bool :=
  match Qcompare a b with
  | Lt => true
  | _ => false
  end.

(** Does the real [c] round (to nearest, ties to even) to the positive
    binary64 value [m * 2^e]?  The neighbours are one unit in the last place
    away, except below a power of two, where the gap halves. *)
Definition rounds_to (m : positive) (e : Z) (c : Q) : bool :=
  let below :=
    if (Zpos m =? 2 ^ (prec - 1)) && (3 - emax - prec <? e)
    then dyadic (4 * Zpos m - 1) (e - 2)
    else dyadic (2 * Zpos m - 1) (e - 1) in
  let above := dyadic (2 * Zpos m + 1) (e - 1) in
  if Z.even (Zpos m)
  then Qle_bool below c && Qle_bool c above
  else Qltb below c && Qltb c above.

(** The [n] with [10^(n-1) <= x < 10^n] for [x = m * 2^e]. *)
Definition decimal_exponent (m : positive) (e : Z) : Z :=
  let x := dyadic (Zpos m) e in
  let g := Z.log2 (Zpos m) + e in
  let n0 := (g * 30103) / 100000 in
  if Qltb x (decimal 1 n0) then n0
  else if Qltb x (decimal 1 (n0 + 1)) then n0 + 1
  else n0 + 2.

(** The [k]-digit candidates [(s, n)] around [x]: [s * 10^(n-k)] just below
    or just above [x], kept when it rounds to [x]. *)
Definition candidates (m : positive) (e : Z) (k : Z) : list (Z * Z) :=
  let x := dyadic (Zpos m) e in
  let n := decimal_exponent m e in
  let q := Qmult x (decimal 1 (k - n)) in
  let s0 := Qnum q / Zpos (Qden q) in
  filter (fun sn : Z * Z =>
            let (s, n') := sn in
            (10 ^ (k - 1) <=? s) && (s <? 10 ^ k)
            && rounds_to m e (decimal s (n' - k)))
         [(s0, n); (s0 + 1, n); (10 ^ (k - 1), n + 1)].

(** The better of two candidates: the closer to [x], the even one on a
    tie. *)
Definition closer (x : Q) (k : Z) (a b : Z * Z) : Z * Z :=
  let da := Qabs (Qminus (decimal (fst a) (snd a - k)) x) in
  let db := Qabs (Qminus (decimal (fst b) (snd b - k)) x) in
  match Qcompare da db with
  | Lt => a
  | Gt => b
  | Eq => if Z.even (fst a) then a else b
  end.

Definition best (x : Q) (k : Z) (cs : list (Z * Z)) : option (Z * Z) :=
  match cs with
  | [] => None
  | c :: rest => Some (fold_left (closer x k) rest c)
  end.

(** The integers [n], [k], [s] of Number::toString: the least [k >= 1] that
    has a [k]-digit [s] with [s * 10^(n-k)] rounding to [x]; seventeen
    digits always suffice. *)
Fixpoint shortest (fuel : nat) (m : positive) (e : Z) (k : Z) : Z * Z * Z :=
  match best (dyadic (Zpos m) e) k (candidates m e k) with
  | Some (s, n) => (n, k, s)
  | None =>
      match fuel with
      | O => (decimal_exponent m e, k, 0)
      | S f => shortest f m e (k + 1)
      end
  end.

Definition format_decimal (n k s : Z) : string :=
  let ds := digits 10 s in
  if (-5 <=? n) && (n <=? 21) then
    if k <=? n then ds ++ repeat_char "0" (Z.to_nat (n - k))
    else if 0 <? n then
      substring 0 (Z.to_nat n) ds ++ "."
      ++ substring (Z.to_nat n) (Z.to_nat (k - n)) ds
    else "0." ++ repeat_char "0" (Z.to_nat (- n)) ++ ds
  else
    let ex := (if 0 <=? n - 1 then "+" else "-") ++ digits 10 (Z.abs (n - 1)) in
    if k =? 1 then ds ++ "e" ++ ex
    else substring 0 1 ds ++ "." ++ substring 1 (Z.to_nat (k - 1)) ds
         ++ "e" ++ ex.

(** [`${x}`] for a number [x]. *)
Definition numberToString (x : number) : string :=
  match x with
  | S754_nan => "NaN"
  | S754_zero _ => "0"
  | S754_infinity s => if s then "-Infinity" else "Infinity"
  | S754_finite s m e =>
      let '(n, k, d) := shortest 20 m e 1 in
      (if s then "-" else "") ++ format_decimal n k d
  end.

(** ** Strings *)

Definition is_upper (c : ascii) : bool :=
  let n := nat_of_ascii c in (65 <=? n)%nat && (n <=? 90)%nat.
Definition is_lower (c : ascii) : bool :=
  let n := nat_of_ascii c in (97 <=? n)%nat && (n <=? 122)%nat.
Definition is_digit (c : ascii) : bool :=
  let n := nat_of_ascii c in (48 <=? n)%nat && (n <=? 57)%nat.

(** The character class [[a-zA-Z0-9]]. *)
Definition is_alnum (c : ascii) : bool := is_lower c || is_upper c || is_digit c.

Definition lower_char (c : ascii) : ascii :=
  if is_upper c then ascii_of_nat (nat_of_ascii c + 32) else c.
Definition upper_char (c : ascii) : ascii :=
  if is_lower c then ascii_of_nat (nat_of_ascii c - 32) else c.

Fixpoint map_string (f : ascii -> ascii) (s : string) : string :=
  match s with
  | EmptyString => EmptyString
  | String c r => String (f c) (map_string f r)
  end.

(** [toLowerCase] and [toUpperCase] on strings of ASCII characters: the
    letters [A] to [Z], or [a] to [z], are mapped and every other character
    is kept.  The built-ins also map letters beyond ASCII, which are out of
    this model. *)
Definition toLowerCase : string -> string := map_string lower_char.
Definition toUpperCase : string -> string := map_string upper_char.

(** [s.includes(pat)]: [pat] occurs in [s] as a contiguous block. *)
Fixpoint includes (s pat : string) : bool :=
  String.prefix pat s ||
  match s with
  | EmptyString => false
  | String _ r => includes r pat
  end.

(** [s.charAt(0)]: the first character as a string, or the empty string. *)
Definition charAt0 (s : string) : string :=
  match s with
  | EmptyString => EmptyString
  | String c _ => String c EmptyString
  end.

(** [s.slice(1)]: everything after the first character. *)
Definition slice1 (s : string) : string :=
  match s with
  | EmptyString => EmptyString
  | String _ r => r
  end.

(** [s.split(sep)] for a one-character separator: the pieces between the
    separators, empty pieces included; never the empty list. *)
Fixpoint split (sep : ascii) (s : string) : list string :=
  match s with
  | EmptyString => [EmptyString]
  | String c r =>
      if Ascii.eqb c sep then EmptyString :: split sep r
      else match split sep r with
           | w :: ws => String c w :: ws
           | [] => [String c EmptyString]
           end
  end.

(** [words.join('')]. *)
Definition join (ws : list string) : string := String.concat EmptyString ws.

(** [s.padStart(n, c)] for a one-character filler. *)
Definition padStart (n : nat) (c : ascii) (s : string) : string :=
  repeat_char c (n - String.length s) ++ s.

End JS.

(* ================================================================== *)
(** * The document tree *)
(* ================================================================== *)

Module Figma.

Import JS.

Record Color := mkColor { r : number; g : number; b : number }.

(** A paint; [ptype] is the source's [type], [visible] and [opacity] may be
    absent and so may [color]. *)
Record Paint := mkPaint {
  ptype : string;
  visible : option bool;
  opacity : option number;
  color : option Color
}.

Record Rect := mkRect { width : option number; height : option number }.

(** A document node: [name] and [type] are always there, everything else
    is optional. *)
Inductive Node : Type := mkNode {
  id : string;
  name : string;
  type : string;
  children : option (list Node);
  absoluteBoundingBox : option Rect;
  cornerRadius : option number;
  fills : option (list Paint);
  strokes : option (list Paint);
  characters : option string;
  fontSize : option number;
  fontWeight : option number;
  textAlignHorizontal : option string
}.

(** The children of a node, an absent [children] read as no children. *)
Definition kids (n : Node) : list Node :=
  match children n with
  | Some cs => cs
  | None => []
  end.

(** Structural induction over the tree, through the child lists. *)
Section NodeInduction.
Variable P : Node -> Prop.
Hypothesis step : forall n, Forall P (kids n) -> P n.

Fixpoint Node_tree_ind (n : Node) : P n :=
  step n
    (match n as n0 return Forall P (kids n0) with
     | mkNode _ _ _ ch _ _ _ _ _ _ _ _ =>
         match ch as c return Forall P (match c with Some cs => cs | None => [] end) with
         | Some cs =>
             (fix go (l : list Node) : Forall P l :=
                match l with
                | [] => Forall_nil P
                | x :: t => Forall_cons x (Node_tree_ind x) (go t)
                end) cs
         | None => Forall_nil P
         end
     end).
End NodeInduction.

(** The nodes of a tree in document order: a node before its children,
    the children from first to last. *)
Fixpoint preorder (n : Node) : list Node :=
  n :: match children n with
       | Some cs => flat_map preorder cs
       | None => []
       end.

(** The loop [for (const x of xs) { const r = f(x); if (r) return r; }]
    for an [f] whose results are objects or [null]. *)
Section FirstResult.
Context {A B : Type}.
Variable f : A -> option B.

Fixpoint first_result (xs : list A) : option B :=
  match xs with
  | [] => None
  | x :: t =>
      match f x with
      | Some r => Some r
      | None => first_result t
      end
  end.
End FirstResult.

(** ** The upstream API, as the two servers see it

    [axios.get] either resolves with the file ([response.data]) or rejects
    with an error, of which the servers read [error.message] and
    [error.response?.data?.err]. *)
Record FileData := mkFileData {
  fileName : string;
  lastModified : string;
  document : Node
}.

Inductive Fetched : Type :=
  | Resolved (data : FileData)
  | Rejected (message : string) (err : option string).

(** One outbound request: the URL and the [X-Figma-Token] header. *)
Record Call := mkCall { url : string; token : string }.

Definition filesUrl (fileKey : string) : string :=
  "https://api.figma.com/v1/files/" ++ fileKey.

(** The double quote character, as a string. *)
Definition dq : string := String (ascii_of_nat 34) EmptyString.

End Figma.

(* ================================================================== *)
(** * Hexadecimal colours *)
(* ================================================================== *)

(** ** [parseInt(s, 16)] and [hexToRgba] of class [FigmaServer] *)

Module Hex.

Import JS.

(** The white space [parseInt] skips, among the ASCII characters: TAB, LF,
    VT, FF, CR and the space. *)
Definition is_space (c : ascii) : bool :=
  let n := nat_of_ascii c in
  ((9 <=? n)%nat && (n <=? 13)%nat) || (n =? 32)%nat.

Fixpoint trimStart (s : string) : string :=
  match s with
  | EmptyString => EmptyString
  | String c rest => if is_space c then trimStart rest else s
  end.

(** The value of a hexadecimal digit, of either case. *)
Definition hex_value (c : ascii) : option Z :=
  let n := nat_of_ascii c in
  if (48 <=? n)%nat && (n <=? 57)%nat then Some (Z.of_nat n - 48)
  else if (97 <=? n)%nat && (n <=? 102)%nat then Some (Z.of_nat n - 87)
  else if (65 <=? n)%nat && (n <=? 70)%nat then Some (Z.of_nat n - 55)
  else None.

(** The integer written by the longest prefix of hexadecimal digits; [acc]
    is what has been read so far, [None] before the first digit. *)
Fixpoint hex_prefix (s : string) (acc : option Z) : option Z :=
  match s with
  | EmptyString => acc
  | String c rest =>
      match hex_value c with
      | Some d =>
          hex_prefix rest
            (Some (16 * match acc with Some a => a | None => 0 end + d))
      | None => acc
      end
  end.

(** [parseInt(s, 16)]: leading white space, then a sign, then an optional
    [0x] or [0X], then the digits; NaN without a digit, [-0] for a negative
    zero. *)
Definition parseInt16 (s : string) : number :=
  let s1 := trimStart s in
  let '(negative, s2) :=
    match s1 with
    | String "-" rest => (true, rest)
    | String "+" rest => (false, rest)
    | _ => (false, s1)
    end in
  let s3 :=
    match s2 with
    | String "0" (String "x" rest) => rest
    | String "0" (String "X" rest) => rest
    | _ => s2
    end in
  match hex_prefix s3 None with
  | None => S754_nan
  | Some 0 => S754_zero negative
  | Some z => lit (if negative then - z else z)
  end.

Definition div (x y : number) : number := SFdiv prec emax x y.

(** [hex.slice(i, i + 2)] *)
Definition slice2 (i : nat) (hex : string) : string := substring i 2 hex.

(** The object [{ r, g, b, a }]. *)
Record Rgba := mkRgba { r : number; g : number; b : number; a : number }.

Definition hexToRgba (hex : string) : Rgba :=
  let r := div (parseInt16 (slice2 1 hex)) (lit 255) in
  let g := div (parseInt16 (slice2 3 hex)) (lit 255) in
  let b := div (parseInt16 (slice2 5 hex)) (lit 255) in
  mkRgba r g b (lit 1).

(** The same object where only [r], [g] and [b] are read, as [rgbaToHex]
    does. *)
Definition asColor (c : Rgba) : Figma.Color := Figma.mkColor (r c) (g c) (b c).

End Hex.

(* ================================================================== *)
(** * The process and the upstream API *)
(* ================================================================== *)

Module Process.

Import JS Figma.

(** The body [createButton] posts, in the parts that vary: the page the
    button goes to, and the text, the size and the fill colour of the frame
    and of its label.  The other entries of the body are constants. *)
Record Payload := mkPayload {
  node_id : string;
  node_text : string;
  node_width : number;
  node_height : number;
  fill_color : Hex.Rgba
}.

(** [axios.post] either resolves, with an answer that is not read, or
    rejects with an error, read as that of [axios.get] is. *)
Inductive Posted : Type :=
  | Accepted
  | Refused (message : string) (err : option string).

(** An outbound request of the MCP server. *)
Inductive Request : Type :=
  | Get (call : Call)
  | Post (call : Call) (payload : Payload).

(** What one incoming request finds: the credential read at start-up, what
    the upstream API answers while the request is handled, and the message
    the engine gives the TypeError for reading an index of [undefined].
    Another incoming request is another value: nothing says that the
    upstream API answers it alike. *)
Record Env := mkEnv {
  FIGMA_TOKEN : option string;
  upstream : Call -> Fetched;
  posting : Call -> Payload -> Posted;
  typeErrorMessage : string
}.

End Process.

(* ================================================================== *)
(** * The demo server *)
(* ================================================================== *)

Module Demo.

Import JS Figma Process.

Fixpoint findNodeByName (node : Node) (nm : string) : option Node :=
  if String.eqb (name node) nm then Some node
  else match children node with
       | Some cs => first_result (fun child => findNodeByName child nm) cs
       | None => None
       end.

Fixpoint findTextNode (node : Node) : option Node :=
  if String.eqb (type node) "TEXT" then Some node
  else match children node with
       | Some cs => first_result findTextNode cs
       | None => None
       end.

(** A string result that passes [if (text)]. *)
Definition if_truthy (t : option string) : option string :=
  match t with
  | Some s => if truthy_string s then Some s else None
  | None => None
  end.

Fixpoint extractText (node : Node) : option string :=
  match if_truthy (characters node) with
  | Some s => Some s
  | None =>
      match children node with
      | Some cs => first_result (fun child => if_truthy (extractText child)) cs
      | None => None
      end
  end.

(** One channel of [rgbaToHex]:
    [Math.round(c * 255).toString(16).padStart(2, '0')]. *)
Definition hex2 (c : number) : string :=
  padStart 2 "0" (toString16 (round (mul c (lit 255)))).

Definition rgbaToHex (color : Color) : string :=
  "#" ++ hex2 (r color) ++ hex2 (g color) ++ hex2 (b color).

(** [n.fills && n.fills.length > 0 && n.fills[0].color] *)
Definition firstFillColor (n : Node) : option Color :=
  match fills n with
  | Some (fill :: _) => color fill
  | _ => None
  end.

(** The background block of [extractComponentStyle]: the pair
    [(backgroundColor, hasBackground)]. *)
Definition background (node : Node) : string * bool :=
  match fills node with
  | Some (fill :: _) =>
      let isVisible :=
        match visible fill with
        | None => true
        | Some v => v
        end in
      match color fill with
      | Some c =>
          if isVisible && String.eqb (ptype fill) "SOLID" then
            let backgroundColor := rgbaToHex c in
            let opacity :=
              match opacity fill with
              | Some o => o
              | None => lit 1
              end in
            (backgroundColor,
             gt opacity (lit 0) && negb (String.eqb backgroundColor "transparent"))
          else ("transparent", false)
      | None => ("transparent", false)
      end
  | _ => ("transparent", false)
  end.

(** The text-colour block. *)
Definition textColor (node : Node) : string :=
  let own := if String.eqb (type node) "TEXT" then firstFillColor node else None in
  match own with
  | Some c => rgbaToHex c
  | None =>
      match children node with
      | Some _ =>
          match findTextNode node with
          | Some textNode =>
              match firstFillColor textNode with
              | Some c => rgbaToHex c
              | None => "#000000"
              end
          | None => "#000000"
          end
      | None => "#000000"
      end
  end.

(** The font block: [(fontSize, fontWeight, textAlign)], read from the
    node itself when it is a TEXT node, else from the first TEXT node
    below it. *)
Definition fontMetrics (node : Node) : number * number * string :=
  let textNode :=
    if String.eqb (type node) "TEXT" then Some node else findTextNode node in
  match textNode with
  | Some t =>
      (or_number (fontSize t) (lit 16),
       or_number (fontWeight t) (lit 400),
       toLowerCase (or_string (textAlignHorizontal t) "LEFT"))
  | None => (lit 16, lit 400, "left")
  end.

(** The classification block, from the node and the three values computed
    before it. *)
Definition classify (node : Node) (cornerRadius : number)
    (hasBackground : bool) (fontWeight : number) : string :=
  let nameLower := toLowerCase (name node) in
  if includes nameLower "button" || includes nameLower "btn" then "button"
  else if includes nameLower "text" || includes nameLower "label"
          || includes nameLower "title" || includes nameLower "heading"
  then "text"
  else if includes nameLower "input" || includes nameLower "textbox"
          || includes nameLower "field"
  then "input"
  else
    let isFrame :=
      String.eqb (type node) "FRAME" || String.eqb (type node) "COMPONENT"
      || String.eqb (type node) "INSTANCE" in
    let hasRoundedCorners := ge cornerRadius (lit 4) in
    let hasBorder :=
      match strokes node with
      | Some (_ :: _) => true
      | _ => false
      end in
    let isButtonLike :=
      isFrame && (hasBackground || hasBorder)
      && (hasRoundedCorners || ge fontWeight (lit 600)) in
    if String.eqb (type node) "TEXT" then "text"
    else if isButtonLike then "button"
    else "text".

(** [node.absoluteBoundingBox?.width] and [?.height]. *)
Definition boxWidth (node : Node) : option number :=
  match absoluteBoundingBox node with
  | Some box => width box
  | None => None
  end.

Definition boxHeight (node : Node) : option number :=
  match absoluteBoundingBox node with
  | Some box => height box
  | None => None
  end.

(** The record [extractComponentStyle] returns.  Its debug entry
    [fillDebug], the JSON text of the first fill, is left out: the record
    model of a paint does not keep the raw JSON. *)
Module Style.
Record t := mk {
  type : string;
  text : string;
  width : number;
  height : number;
  backgroundColor : string;
  borderRadius : number;
  color : string;
  fontSize : number;
  fontWeight : number;
  textAlign : string
}.
End Style.

Definition extractComponentStyle (node : Node) : Style.t :=
  let width := or_number (boxWidth node) (lit 200) in
  let height := or_number (boxHeight node) (lit 50) in
  let cornerRadius := or_number (cornerRadius node) (lit 0) in
  let '(backgroundColor, hasBackground) := background node in
  let textColor := textColor node in
  let text := or_string (extractText node) "Text" in
  let '(fontSize, fontWeight, textAlign) := fontMetrics node in
  let type := classify node cornerRadius hasBackground fontWeight in
  Style.mk type text width height backgroundColor cornerRadius textColor
           fontSize fontWeight textAlign.

(** ** The route [POST /api/fetch-component] *)

Inductive Body : Type :=
  | ErrorBody (error : string) (details : option string)
  | ComponentBody (component : Style.t) (message : string).

Record Response := mkResponse { status : Z; body : Body }.

(** The handler, from the environment and the two entries of the request
    body (absent or strings).  It returns the outbound requests it made and
    the response it sent; [res.json] without [res.status] answers 200. *)
Definition fetchComponent (env : Env) (fileKey componentName : option string)
  : list Call * Response :=
  match FIGMA_TOKEN env with
  | None | Some EmptyString =>
      ([], mkResponse 500 (ErrorBody "FIGMA_TOKEN not configured" None))
  | Some tok =>
      match if_truthy fileKey, if_truthy componentName with
      | Some fileKey, Some componentName =>
          let call := mkCall (filesUrl fileKey) tok in
          match upstream env call with
          | Resolved data =>
              match findNodeByName (document data) componentName with
              | None =>
                  ([call],
                   mkResponse 404
                     (ErrorBody ("Component " ++ dq ++ componentName ++ dq
                                 ++ " not found") None))
              | Some component =>
                  ([call],
                   mkResponse 200
                     (ComponentBody (extractComponentStyle component)
                        ("Found " ++ dq ++ componentName ++ dq ++ " in Figma!")))
              end
          | Rejected message err =>
              ([call],
               mkResponse 500
                 (ErrorBody "Failed to fetch from Figma"
                    (Some (or_string err message))))
          end
      | _, _ =>
          ([], mkResponse 400
                 (ErrorBody "fileKey and componentName are required" None))
      end
  end.

End Demo.

(* ================================================================== *)
(** * The MCP server, class [FigmaServer] *)
(* ================================================================== *)

Module Server.

Import JS Figma Process.

(** The entries [extractComponents] collects. *)
Module Descriptor.
Record t := mk {
  id : string;
  name : string;
  type : string;
  width : option number;
  height : option number;
  fills : option (list Paint);
  strokes : option (list Paint);
  cornerRadius : option number;
  characters : option string
}.
End Descriptor.

Definition boxWidth (node : Node) : option number :=
  match absoluteBoundingBox node with
  | Some box => width box
  | None => None
  end.

Definition boxHeight (node : Node) : option number :=
  match absoluteBoundingBox node with
  | Some box => height box
  | None => None
  end.

(** The object literal pushed for a node. *)
Definition describe (node : Node) : Descriptor.t :=
  Descriptor.mk (id node) (name node) (type node) (boxWidth node)
    (boxHeight node) (fills node) (strokes node) (cornerRadius node)
    (characters node).

Definition collected (node : Node) : bool :=
  String.eqb (type node) "COMPONENT" || String.eqb (type node) "FRAME"
  || String.eqb (type node) "RECTANGLE".

(** [components] is the one array every call pushes to and returns; it is
    threaded through the calls. *)
Fixpoint extractComponents (node : Node) (components : list Descriptor.t)
  : list Descriptor.t :=
  let components :=
    if collected node then (components ++ [describe node])%list else components in
  match children node with
  | Some cs =>
      fold_left (fun components child => extractComponents child components)
                cs components
  | None => components
  end.

Fixpoint findNodeByName (node : Node) (nm : string) : option Node :=
  if String.eqb (name node) nm then Some node
  else match children node with
       | Some cs => first_result (fun child => findNodeByName child nm) cs
       | None => None
       end.

Definition if_truthy (t : option string) : option string :=
  match t with
  | Some s => if truthy_string s then Some s else None
  | None => None
  end.

Fixpoint extractText (node : Node) : option string :=
  match if_truthy (characters node) with
  | Some s => Some s
  | None =>
      match children node with
      | Some cs => first_result (fun child => if_truthy (extractText child)) cs
      | None => None
      end
  end.

Definition hex2 (c : number) : string :=
  padStart 2 "0" (toString16 (round (mul c (lit 255)))).

Definition rgbaToHex (color : Color) : string :=
  "#" ++ hex2 (r color) ++ hex2 (g color) ++ hex2 (b color).

(** [str.replace(/[^a-zA-Z0-9]/g, ' ')] *)
Definition replaceNonAlnum (str : string) : string :=
  map_string (fun c => if is_alnum c then c else " "%char) str.

(** [word.charAt(0).toUpperCase() + word.slice(1).toLowerCase()] *)
Definition capitalize (word : string) : string :=
  toUpperCase (charAt0 word) ++ toLowerCase (slice1 word).

Definition toPascalCase (str : string) : string :=
  join (map capitalize (split " " (replaceNonAlnum str))).

(** [node.fills && node.fills.length > 0 && node.fills[0].color] *)
Definition firstFillColor (n : Node) : option Color :=
  match fills n with
  | Some (fill :: _) => color fill
  | _ => None
  end.

Definition nl : string := String (ascii_of_nat 10) EmptyString.

(** The template literal of [generateReactCode]: its fixed pieces and, in
    between, its six holes, filled with strings. *)
Definition reactTemplate
    (ident width height backgroundColor cornerRadius text : string) : string :=
  "import React from 'react';" ++ nl ++
  nl ++
  "export function " ++ ident ++ "({ onClick, children }) {" ++ nl ++
  "  return (" ++ nl ++
  "    <button" ++ nl ++
  "      onClick={onClick}" ++ nl ++
  "      style={{" ++ nl ++
  "        width: '" ++ width ++ "px'," ++ nl ++
  "        height: '" ++ height ++ "px'," ++ nl ++
  "        backgroundColor: '" ++ backgroundColor ++ "'," ++ nl ++
  "        color: '#FFFFFF'," ++ nl ++
  "        border: 'none'," ++ nl ++
  "        borderRadius: '" ++ cornerRadius ++ "px'," ++ nl ++
  "        fontSize: '16px'," ++ nl ++
  "        fontWeight: '600'," ++ nl ++
  "        cursor: 'pointer'," ++ nl ++
  "        transition: 'all 0.2s ease'," ++ nl ++
  "      }}" ++ nl ++
  "      onMouseEnter={(e) => {" ++ nl ++
  "        e.target.style.opacity = '0.8';" ++ nl ++
  "        e.target.style.transform = 'scale(1.02)';" ++ nl ++
  "      }}" ++ nl ++
  "      onMouseLeave={(e) => {" ++ nl ++
  "        e.target.style.opacity = '1';" ++ nl ++
  "        e.target.style.transform = 'scale(1)';" ++ nl ++
  "      }}" ++ nl ++
  "    >" ++ nl ++
  "      {children || '" ++ text ++ "'}" ++ nl ++
  "    </button>" ++ nl ++
  "  );" ++ nl ++
  "}".

Definition generateReactCode (node : Node) : string :=
  let width := or_number (boxWidth node) (lit 200) in
  let height := or_number (boxHeight node) (lit 50) in
  let cornerRadius := or_number (cornerRadius node) (lit 8) in
  let backgroundColor :=
    match firstFillColor node with
    | Some color => rgbaToHex color
    | None => "#007AFF"
    end in
  let text := or_string (extractText node) "Button" in
  reactTemplate (toPascalCase (name node)) (numberToString width)
    (numberToString height) backgroundColor (numberToString cornerRadius) text.

(** ** The methods behind the tools *)

(** A call ends by returning a value or by throwing an [Error] with a
    message. *)
Inductive Outcome (A : Type) : Type :=
  | Returned (a : A)
  | Thrown (message : string).
Arguments Returned {A} a.
Arguments Thrown {A} message.

(** [try { body } catch (error) { throw new Error(prefix + error.message) }] *)
Definition rethrow {A : Type} (prefix : string) (body : Outcome A) : Outcome A :=
  match body with
  | Returned a => Returned a
  | Thrown message => Thrown (prefix ++ message)
  end.

(** What [getFigmaFile] serialises into its answer. *)
Record FileListing := mkFileListing {
  listedName : string;
  listedLastModified : string;
  components : list Descriptor.t
}.

Definition getFigmaFile (env : Env) (tok fileKey : string)
  : list Request * Outcome FileListing :=
  let call := mkCall (filesUrl fileKey) tok in
  ([Get call],
   rethrow "Failed to fetch Figma file: "
     match upstream env call with
     | Resolved data =>
         Returned (mkFileListing (fileName data) (lastModified data)
                     (extractComponents (document data) []))
     | Rejected message _ => Thrown message
     end).

Definition generateReactComponent (env : Env) (tok fileKey nodeName : string)
  : list Request * Outcome string :=
  let call := mkCall (filesUrl fileKey) tok in
  ([Get call],
   rethrow "Failed to generate component: "
     match upstream env call with
     | Resolved data =>
         match findNodeByName (document data) nodeName with
         | None =>
             Thrown ("Component " ++ dq ++ nodeName ++ dq
                     ++ " not found in Figma file")
         | Some component => Returned (generateReactCode component)
         end
     | Rejected message _ => Thrown message
     end).

(** ** [createButton] *)

(** The arguments of the tool [create_button], of the types its schema
    gives them; an entry the caller leaves out is [None]. *)
Module Button.
Record Args := mk {
  fileKey : string;
  text : option string;
  backgroundColor : option string;
  width : option number;
  height : option number
}.
End Button.

(** [x = d] in a parameter list: the default stands in for an absent entry
    only, not for an empty string or a zero. *)
Definition or_default {A : Type} (v : option A) (d : A) : A :=
  match v with
  | Some x => x
  | None => d
  end.

(** The end of every message [createButton] throws. *)
Definition note : string :=
  nl ++ nl ++
  "Note: Creating nodes in Figma requires using the Figma Plugin API, " ++
  "which needs to run inside Figma. The REST API only supports reading data.".

(** The error thrown by the [catch] of [createButton], where [reason] is
    [error.response?.data?.err || error.message]. *)
Definition failed {A : Type} (reason : string) : Outcome A :=
  Thrown ("Failed to create button: " ++ reason ++ note).

Definition created (text fileName pageName backgroundColor : string)
    (width height : number) : string :=
  "Button " ++ dq ++ text ++ dq ++ " created successfully in Figma!" ++ nl ++ nl ++
  "File: " ++ fileName ++ nl ++
  "Page: " ++ pageName ++ nl ++
  "Color: " ++ backgroundColor ++ nl ++
  "Size: " ++ numberToString width ++ "x" ++ numberToString height ++ "px".

(** The file is fetched, then the button is posted to its first page.
    Without [children] on the document the read of [children[0]] throws the
    engine's TypeError; with no page the method throws its own error; both,
    and the rejections of the two requests, end in the [catch]. *)
Definition createButton (env : Env) (tok : string) (args : Button.Args)
  : list Request * Outcome string :=
  let fileKey := Button.fileKey args in
  let text := or_default (Button.text args) "Button" in
  let backgroundColor := or_default (Button.backgroundColor args) "#007AFF" in
  let width := or_default (Button.width args) (lit 200) in
  let height := or_default (Button.height args) (lit 50) in
  let get := mkCall (filesUrl fileKey) tok in
  match upstream env get with
  | Rejected message err => ([Get get], failed (or_string err message))
  | Resolved data =>
      match children (document data) with
      | None => ([Get get], failed (typeErrorMessage env))
      | Some [] => ([Get get], failed "No page found in Figma file")
      | Some (firstPage :: _) =>
          let color := Hex.hexToRgba backgroundColor in
          let post := mkCall (filesUrl fileKey ++ "/nodes") tok in
          let payload := mkPayload (id firstPage) text width height color in
          ([Get get; Post post payload],
           match posting env post payload with
           | Accepted =>
               Returned (created text (fileName data) (name firstPage)
                           backgroundColor width height)
           | Refused message err => failed (or_string err message)
           end)
      end
  end.

(** ** The request handler *)

(** A request of the [CallToolRequestSchema] handler: one of the three
    tools with its arguments, or any other name. *)
Inductive ToolCall : Type :=
  | get_figma_file (fileKey : string)
  | generate_react_component (fileKey nodeName : string)
  | create_button (args : Button.Args)
  | unknown_tool (name : string).

(** The text of the one entry of [content] a tool returns. *)
Inductive ToolResult : Type :=
  | Listing (l : FileListing)
  | Code (text : string)
  | Created (text : string).

Definition mapOutcome {A B : Type} (f : A -> B) (o : Outcome A) : Outcome B :=
  match o with
  | Returned a => Returned (f a)
  | Thrown m => Thrown m
  end.

(** The [CallToolRequestSchema] handler. *)
Definition callTool (env : Env) (request : ToolCall)
  : list Request * Outcome ToolResult :=
  match FIGMA_TOKEN env with
  | None | Some EmptyString =>
      ([], Thrown "FIGMA_TOKEN environment variable is required")
  | Some tok =>
      match request with
      | get_figma_file fileKey =>
          let (calls, o) := getFigmaFile env tok fileKey in
          (calls, mapOutcome Listing o)
      | generate_react_component fileKey nodeName =>
          let (calls, o) := generateReactComponent env tok fileKey nodeName in
          (calls, mapOutcome Code o)
      | create_button args =>
          let (calls, o) := createButton env tok args in
          (calls, mapOutcome Created o)
      | unknown_tool name => ([], Thrown ("Unknown tool: " ++ name))
      end
  end.

End Server.

(* ================================================================== *)
(** * Vocabulary of the properties *)
(* ================================================================== *)

Module Spec.

Import JS Figma Process.

(** ** Tree search *)

(** The test [x.name === nm] on a node. *)
Definition named (nm : string) (x : Node) : bool := String.eqb (name x) nm.

(** [r] is the first element of [l] that passes [p]: it passes, and nothing
    before it does. *)
Definition FirstIn {A : Type} (p : A -> bool) (l : list A) (r : A) : Prop :=
  exists before after,
    l = (before ++ r :: after)%list /\ p r = true
    /\ Forall (fun x => p x = false) before.

(** A node with a name, a type and children, every other attribute
    absent. *)
Definition bare (nm ty : string) (ch : option (list Node)) : Node :=
  mkNode "" nm ty ch None None None None None None None None.

(** A document with the name [Card] three times: on the second page's
    frame, on a rectangle inside it, and on a later sibling. *)
Definition cards : Node :=
  bare "Document" "DOCUMENT"
    (Some [ bare "Page 1" "CANVAS" (Some [ bare "Title" "TEXT" None ]);
            bare "Page 2" "CANVAS"
              (Some [ bare "Card" "FRAME" (Some [ bare "Card" "RECTANGLE" None ]);
                      bare "Card" "COMPONENT" None ]) ]).

(** ** Classification *)

(** [pat] occurs in [s] as a block of consecutive characters. *)
Definition Substring (pat s : string) : Prop :=
  exists before after, s = before ++ pat ++ after.

(** [nm] contains [pat] up to the case of its letters: some block of [nm]
    becomes [pat] when lowercased. *)
Definition ContainsCI (nm pat : string) : Prop :=
  exists before block after,
    nm = before ++ block ++ after /\ toLowerCase block = pat.

(** The three groups of the name tier. *)
Definition ButtonName (nm : string) : Prop :=
  ContainsCI nm "button" \/ ContainsCI nm "btn".
Definition TextName (nm : string) : Prop :=
  ContainsCI nm "text" \/ ContainsCI nm "label" \/ ContainsCI nm "title"
  \/ ContainsCI nm "heading".
Definition InputName (nm : string) : Prop :=
  ContainsCI nm "input" \/ ContainsCI nm "textbox" \/ ContainsCI nm "field".

(** The same three tests, decided. *)
Definition buttonName (nm : string) : bool :=
  includes (toLowerCase nm) "button" || includes (toLowerCase nm) "btn".
Definition textName (nm : string) : bool :=
  includes (toLowerCase nm) "text" || includes (toLowerCase nm) "label"
  || includes (toLowerCase nm) "title" || includes (toLowerCase nm) "heading".
Definition inputName (nm : string) : bool :=
  includes (toLowerCase nm) "input" || includes (toLowerCase nm) "textbox"
  || includes (toLowerCase nm) "field".

(** No test of the name tier hits. *)
Definition NoNameHit (nm : string) : Prop :=
  ~ ButtonName nm /\ ~ TextName nm /\ ~ InputName nm.

(** The predicates of the visual tier. *)
Definition IsFrame (node : Node) : Prop :=
  type node = "FRAME" \/ type node = "COMPONENT" \/ type node = "INSTANCE".
Definition HasBorder (node : Node) : Prop :=
  exists stroke rest, strokes node = Some (stroke :: rest).

(** A paint that is visible, solid and coloured, with an opacity that is
    absent or above zero. *)
Definition VisibleSolid (fill : Paint) : Prop :=
  visible fill <> Some false /\ ptype fill = "SOLID"
  /\ (exists c, color fill = Some c)
  /\ (opacity fill = None \/ exists o, opacity fill = Some o /\ gt o (lit 0) = true).

(** [fills] is absent or empty; [strokes] likewise. *)
Definition NoFills (node : Node) : Prop :=
  fills node = None \/ fills node = Some [].
Definition NoStrokes (node : Node) : Prop :=
  strokes node = None \/ strokes node = Some [].

(** Pure red, fully opaque. *)
Definition red : Color := mkColor (lit 1) (lit 0) (lit 0).

(** A frame named [Card] with a visible solid fill and corner radius 8. *)
Definition cardFilled : Node :=
  mkNode "1:2" "Card" "FRAME" None None (Some (lit 8))
    (Some [ mkPaint "SOLID" None None (Some red) ]) None None None None None.

(** A frame named [Card] with no fills, no strokes and corner radius 0. *)
Definition cardPlain : Node :=
  mkNode "1:3" "Card" "FRAME" None None (Some (lit 0))
    (Some []) (Some []) None None None None.

(** ** Background colour *)

(** [fill.opacity], 1 when absent. *)
Definition effectiveOpacity (fill : Paint) : number :=
  match opacity fill with
  | Some o => o
  | None => lit 1
  end.

(** The three checks a first fill has to pass to give a colour. *)
Definition Contributes (fill : Paint) (c : Color) : Prop :=
  (visible fill = Some true \/ visible fill = None)
  /\ ptype fill = "SOLID" /\ color fill = Some c.

Definition FailsCheck (fill : Paint) : Prop :=
  visible fill = Some false \/ ptype fill <> "SOLID" \/ color fill = None.

(** The first entry of [fills], if there is one. *)
Definition firstFill (node : Node) : option Paint :=
  match fills node with
  | Some (fill :: _) => Some fill
  | _ => None
  end.

(** ** Text content *)

(** The node has a non-empty [characters]. *)
Definition hasText (x : Node) : bool :=
  match characters x with
  | Some (String _ _) => true
  | _ => false
  end.

(** The [characters] of the first node of [l] that has a non-empty one. *)
Definition firstText (l : list Node) : option string :=
  match find hasText l with
  | Some x => characters x
  | None => None
  end.

(** The descendants of a node in document order. *)
Definition descendants (node : Node) : list Node :=
  flat_map preorder (kids node).

(** An empty text layer: a TEXT node whose [characters] is the empty
    string. *)
Definition emptyCaption : Node :=
  mkNode "4:1" "Caption" "TEXT" None None None None None (Some "") None None None.

(** A frame with an empty [characters] of its own, above a text layer. *)
Definition framedHello : Node :=
  mkNode "4:2" "Banner" "FRAME"
    (Some [ bare "Spacer" "RECTANGLE" None;
            mkNode "4:3" "Greeting" "TEXT" None None None None None
              (Some "Hello") None None None;
            mkNode "4:4" "Farewell" "TEXT" None None None None None
              (Some "Bye") None None None ])
    None None None None (Some "") None None None.

(** ** Enumeration *)

(** The types the enumerator collects. *)
Definition Collectable (node : Node) : Prop :=
  type node = "COMPONENT" \/ type node = "FRAME" \/ type node = "RECTANGLE".

(** A component with one text layer in it. *)
Definition labelledComponent : Node :=
  mkNode "7:1" "Badge" "COMPONENT"
    (Some [ mkNode "7:2" "Caption" "TEXT" None None None None None
              (Some "New") None None None ])
    None None None None None None None None.

(** A page (not collected) holding a group (not collected) that holds a
    rectangle, followed by a frame. *)
Definition nestedPage : Node :=
  bare "Page" "CANVAS"
    (Some [ bare "Group" "GROUP" (Some [ bare "Box" "RECTANGLE" None ]);
            bare "Panel" "FRAME" (Some [ bare "Note" "TEXT" None ]) ]).

(** ** Identifiers *)

(** The identifier, read off the name in one pass: characters other than
    letters and digits are dropped; a letter or digit that opens a run (the
    first character, or one after a dropped character) is uppercased, the
    others are lowercased. *)
Fixpoint pascal (opening : bool) (s : string) : string :=
  match s with
  | EmptyString => EmptyString
  | String c rest =>
      if is_alnum c
      then String (if opening then upper_char c else lower_char c)
                  (pascal false rest)
      else pascal true rest
  end.

(** ** Defaults of the numeric attributes *)

(** A zero, of either sign. *)
Definition IsZero (x : number) : Prop := exists s, x = S754_zero s.

(** The node with its [cornerRadius] replaced. *)
Definition withCornerRadius (v : option number) (node : Node) : Node :=
  mkNode (id node) (name node) (type node) (children node)
    (absoluteBoundingBox node) v (fills node) (strokes node)
    (characters node) (fontSize node) (fontWeight node)
    (textAlignHorizontal node).

(** The node the font block reads: the node itself when it is a TEXT node,
    else the first TEXT node below it. *)
Definition resolvedTextNode (node : Node) : option Node :=
  if String.eqb (type node) "TEXT" then Some node else Demo.findTextNode node.

(** A button frame whose box is 0 by 0 and whose corner radius is 0, with
    a label of size 0 and weight 0. *)
Definition flatButton : Node :=
  mkNode "9:1" "cta" "FRAME"
    (Some [ mkNode "9:2" "caption" "TEXT" None None None None None
              (Some "Go") (Some (lit 0)) (Some (lit 0)) None ])
    (Some (mkRect (Some (lit 0)) (Some (lit 0)))) (Some (lit 0))
    None None None None None None.

(** ** Outcomes at the boundary *)

(** What can happen to a request. *)
Inductive Situation : Type :=
  | NoCredential
  | InvalidRequest
  | FetchFailed
  | NotFound
  | Found.

Definition credential (env : Env) : option string :=
  match FIGMA_TOKEN env with
  | Some (String c r) => Some (String c r)
  | _ => None
  end.

(** What happens to a request of the route, told from the environment and
    the request alone. *)
Definition routeSituation (env : Env) (fileKey componentName : option string)
  : Situation :=
  match credential env with
  | None => NoCredential
  | Some tok =>
      match Demo.if_truthy fileKey, Demo.if_truthy componentName with
      | Some fileKey, Some componentName =>
          match upstream env (mkCall (filesUrl fileKey) tok) with
          | Rejected _ _ => FetchFailed
          | Resolved data =>
              if existsb (named componentName) (preorder (document data))
              then Found else NotFound
          end
      | _, _ => InvalidRequest
      end
  end.

(** What the caller of the route reads off a response: the status, and
    for status 500 the [error] entry. *)
Definition readResponse (r : Demo.Response) : option Situation :=
  match Demo.status r, Demo.body r with
  | 200, Demo.ComponentBody _ _ => Some Found
  | 400, Demo.ErrorBody _ _ => Some InvalidRequest
  | 404, Demo.ErrorBody _ _ => Some NotFound
  | 500, Demo.ErrorBody e _ =>
      if String.eqb e "FIGMA_TOKEN not configured" then Some NoCredential
      else if String.eqb e "Failed to fetch from Figma" then Some FetchFailed
      else None
  | _, _ => None
  end.

(** The message of the error thrown for a name that is not in the file. *)
Definition notFoundMessage (nodeName : string) : string :=
  "Component " ++ dq ++ nodeName ++ dq ++ " not found in Figma file".

Definition emptyDocument : Node := bare "Document" "DOCUMENT" None.

(** The upstream API takes no posted node: it answers 404. *)
Definition refusesPosts (call : Call) (payload : Payload) : Posted :=
  Refused "Request failed with status code 404" None.

(** The message V8 gives the TypeError of [undefined[0]]. *)
Definition v8TypeError : string :=
  "Cannot read properties of undefined (reading '0')".

(** An environment whose upstream answers with an empty document. *)
Definition envResolves : Env :=
  mkEnv (Some "figd_secret")
    (fun _ => Resolved (mkFileData "Design" "2024-01-01T00:00:00Z" emptyDocument))
    refusesPosts v8TypeError.

(** An environment whose upstream fails, with the given message. *)
Definition envRejects (message : string) : Env :=
  mkEnv (Some "figd_secret") (fun _ => Rejected message None)
    refusesPosts v8TypeError.

(** What happens to a request of the tool [generate_react_component], told
    from the environment and the request alone. *)
Definition toolSituation (env : Env) (fileKey nodeName : string) : Situation :=
  match credential env with
  | None => NoCredential
  | Some tok =>
      match upstream env (mkCall (filesUrl fileKey) tok) with
      | Rejected _ _ => FetchFailed
      | Resolved data =>
          if existsb (named nodeName) (preorder (document data))
          then Found else NotFound
      end
  end.

(** What the caller of the tool, who knows the name it asked for, reads off
    the outcome: code, or the message of the error thrown. *)
Definition readOutcome (nodeName : string)
    (o : Server.Outcome Server.ToolResult) : option Situation :=
  match o with
  | Server.Returned (Server.Code _) => Some Found
  | Server.Returned _ => None
  | Server.Thrown m =>
      if String.eqb m "FIGMA_TOKEN environment variable is required"
      then Some NoCredential
      else if String.eqb m ("Failed to generate component: "
                            ++ notFoundMessage nodeName)
      then Some NotFound
      else if prefix "Failed to generate component: " m then Some FetchFailed
      else None
  end.

(** The errors of the upstream requests are the HTTP client's: none has this
    server's own not-found text as its message. *)
Definition ClientErrors (env : Env) : Prop :=
  forall call message err nodeName,
    upstream env call = Rejected message err ->
    message <> notFoundMessage nodeName.

(** The message of the HTTP client for an answer of status 403. *)
Definition forbidden : string := "Request failed with status code 403".

(** ** Colour channels *)

(** The integer a result of [Math.round] stands for, [-0] read as 0. *)
Definition intOf (x : rounded) : option Z :=
  match x with
  | RInt z => Some z
  | RNegZero => Some 0
  | _ => None
  end.

(** The real number a finite binary64 value stands for. *)
Definition realValue (x : number) : option Q :=
  match x with
  | S754_zero _ => Some 0%Q
  | S754_finite s m e => Some (dyadic (if s then Zneg m else Zpos m) e)
  | _ => None
  end.

(** [z] is the integer nearest to the finite number [x], the upper one when
    [x] lies halfway between two integers. *)
Definition Nearest (x : number) (z : Z) : Prop :=
  exists v, realValue x = Some v
            /\ (inject_Z z - (1 # 2) <= v)%Q /\ (v < inject_Z z + (1 # 2))%Q.

(** A binary64 value in [[0, 1]]. *)
Definition InUnit (c : number) : Prop :=
  valid_binary prec emax c = true
  /\ SFleb (lit 0) c = true /\ SFleb c (lit 1) = true.

Definition clamp (lo hi z : Z) : Z := Z.max lo (Z.min hi z).

(** The channel value of a component [c]: [c * 255], the product in
    binary64 as the code computes it, rounded to the nearest integer, and
    no different when clamped to [[0, 255]]. *)
Definition Channel (c : number) (z : Z) : Prop :=
  intOf (round (mul c (lit 255))) = Some z
  /\ Nearest (mul c (lit 255)) z
  /\ 0 <= z <= 255 /\ clamp 0 255 z = z.

(** The lowercase hexadecimal digit of a value below 16, and the two
    digits of a value below 256. *)
Definition hexDigit (d : Z) : ascii :=
  nth (Z.to_nat d) (list_ascii_of_string "0123456789abcdef") "0"%char.

Definition hexByte (n : Z) : string :=
  String (hexDigit (n / 16)) (String (hexDigit (n mod 16)) EmptyString).

Definition isHexLower (c : ascii) : bool :=
  let n := nat_of_ascii c in
  ((48 <=? n)%nat && (n <=? 57)%nat) || ((97 <=? n)%nat && (n <=? 102)%nat).

(** Every character of a string is a lowercase hexadecimal digit. *)
Definition allHexLower (s : string) : bool :=
  forallb isHexLower (list_ascii_of_string s).

(** One half, and the colour with every component at one half. *)
Definition half : number := S754_finite false 4503599627370496 (-53).
Definition grey : Color := mkColor half half half.
Definition black : Color := mkColor (lit 0) (lit 0) (lit 0).

(** A component just below [0.5 / 255]: its exact product with 255 is
    [1/2 - 2^-57], which is not a binary64 value. *)
Definition underHalf : number := S754_finite false 4521260802379792 (-61).

End Spec.

(* ================================================================== *)
(** * Vocabulary of the binary64 facts *)
(* ================================================================== *)

Module Float.

(** After [k] single shifts of [m0]: the quotient by [2^k], and no lost
    bit when [2^k] divides [m0]. *)
Definition shifted (m0 : Z) (k : Z) (x : shr_record) : Prop :=
  shr_m x = m0 / 2 ^ k
  /\ (m0 mod 2 ^ k = 0 -> shr_r x = false /\ shr_s x = false).

(** A non-negative number of value at most [B]: [+0], or a positive finite
    number with a negative exponent [e] and a mantissa of at most
    [B * 2^(-e)]. *)
Definition Below (B : Z) (x : spec_float) : Prop :=
  match x with
  | S754_zero false => True
  | S754_finite false m e => e < 0 /\ Zpos m <= B * 2 ^ (- e)
  | _ => False
  end.

End Float.

(* ================================================================== *)
(** * The listing script: [traverse] of [listComponents] *)
(* ================================================================== *)

Module Lister.

Import JS Figma.

(** [s.repeat(n)] *)
Fixpoint repeat (s : string) (n : nat) : string :=
  match n with
  | O => EmptyString
  | S k => s ++ repeat s k
  end.

(** The line logged for a node at a depth. *)
Definition line (node : Node) (depth : nat) : string :=
  repeat "  " depth ++ "- " ++ name node ++ " (" ++ type node ++ ")".

(** [traverse(node, depth)]; the console is the list of the lines logged so
    far, threaded through the calls. *)
Fixpoint traverse (node : Node) (depth : nat) (console : list string)
  : list string :=
  let console :=
    if truthy_string (name node) && truthy_string (type node)
    then (console ++ [line node depth])%list else console in
  match children node with
  | Some cs =>
      fold_left (fun console child => traverse child (S depth) console)
                cs console
  | None => console
  end.

End Lister.

(* ================================================================== *)
(** * Vocabulary of the further properties *)
(* ================================================================== *)

Module Props.

Import JS Figma Process.

(** ** Text nodes *)

(** The test [x.type === 'TEXT']. *)
Definition isText (x : Node) : bool := String.eqb (type x) "TEXT".

(** The first TEXT node of the document order, the node itself included. *)
Definition firstTextNode (node : Node) : option Node :=
  find isText (preorder node).

(** [t.fills[0].color] of an optional node. *)
Definition fillColorOf (t : option Node) : option Color :=
  match t with
  | Some x => Demo.firstFillColor x
  | None => None
  end.

(** ** Strings *)

Definition noUpper (s : string) : bool :=
  forallb (fun c => negb (is_upper c)) (list_ascii_of_string s).

Definition allAlnum (s : string) : bool :=
  forallb is_alnum (list_ascii_of_string s).

Definition countAlnum (s : string) : nat :=
  List.length (filter is_alnum (list_ascii_of_string s)).

(** The name with each of its letters [A] to [Z] replaced by the letter
    [a] to [z], every other character kept; and the other way round. *)
Definition lowerAZ (s : string) : string :=
  map_string (fun c => if is_upper c
                       then ascii_of_nat (nat_of_ascii c + 32) else c) s.
Definition upperAZ (s : string) : string :=
  map_string (fun c => if is_lower c
                       then ascii_of_nat (nat_of_ascii c - 32) else c) s.

(** The string begins with the character [c]. *)
Definition startsWith (c : ascii) (s : string) : Prop :=
  exists rest, s = String c rest.

(** ** Colours *)

(** Two lowercase hexadecimal digits. *)
Definition TwoHex (s : string) : Prop :=
  String.length s = 2%nat /\ Spec.allHexLower s = true.

(** A colour in the form [#rrggbb], lowercase. *)
Definition SixHex (s : string) : Prop :=
  exists digits, s = String "#" digits
                 /\ String.length digits = 6%nat
                 /\ Spec.allHexLower digits = true.

(** The channel of a component rounds to an integer from 0 to 255. *)
Definition ByteChannel (c : number) : Prop :=
  exists z, Spec.intOf (round (mul c (lit 255))) = Some z /\ 0 <= z <= 255.

(** The six digits of three bytes, and the same in uppercase. *)
Definition hexColour (R G B : Z) : string :=
  "#" ++ Spec.hexByte R ++ Spec.hexByte G ++ Spec.hexByte B.

(** The two numbers are the same binary64 value, sign of zero included. *)
Definition same_number (x y : number) : bool :=
  match x, y with
  | S754_zero s, S754_zero s' => Bool.eqb s s'
  | S754_infinity s, S754_infinity s' => Bool.eqb s s'
  | S754_nan, S754_nan => true
  | S754_finite s m e, S754_finite s' m' e' =>
      Bool.eqb s s' && Pos.eqb m m' && Z.eqb e e'
  | _, _ => false
  end.

(** What [parseInt(s, 16)] gives for two characters at most: NaN, a zero
    of either sign, or an integer from -15 to 255. *)
Definition parsedByte (x : number) : bool :=
  match x with
  | S754_nan | S754_zero _ => true
  | S754_infinity _ => false
  | S754_finite s m e =>
      let k := if s then - Z.shiftl (Z.pos m) e else Z.shiftl (Z.pos m) e in
      (-15 <=? k) && (k <=? 255) && same_number x (lit k)
  end.

Definition ParsedByte (x : number) : Prop :=
  x = S754_nan \/ (exists s, x = S754_zero s)
  \/ exists k, -15 <= k <= 255 /\ x = lit k.

(** A component of [hexToRgba]: what was parsed, divided by 255. *)
Definition ParsedChannel (c : number) : Prop :=
  exists x, ParsedByte x /\ c = Hex.div x (lit 255).

(** The default colour of [createButton], [#007AFF]. *)
Definition defaultBlue : string := "#007AFF".

(** ** The listing *)

(** The nodes of a tree in document order, each with its depth. *)
Fixpoint levels (node : Node) (depth : nat) : list (Node * nat) :=
  (node, depth) :: match children node with
                   | Some cs => flat_map (fun c => levels c (S depth)) cs
                   | None => []
                   end.

(** The node is logged: its name and its type are not empty. *)
Definition logged (x : Node * nat) : bool :=
  truthy_string (name (fst x)) && truthy_string (type (fst x)).

(** The line of a node with its depth. *)
Definition lineOf (x : Node * nat) : string := Lister.line (fst x) (snd x).

(** ** Environments *)

(** A document with one page holding a frame and a text layer. *)
Definition smallDocument : Node :=
  Spec.bare "Document" "DOCUMENT"
    (Some [ Spec.bare "Page 1" "CANVAS"
              (Some [ Spec.bare "Hero" "FRAME"
                        (Some [ Spec.bare "Title" "TEXT" None ]) ]) ]).

Definition smallEnv : Env :=
  mkEnv (Some "figd_secret")
    (fun _ => Resolved (mkFileData "Design" "2024-01-01T00:00:00Z" smallDocument))
    Spec.refusesPosts Spec.v8TypeError.

(** The frame [Hero] of [smallDocument]. *)
Definition hero : Node :=
  Spec.bare "Hero" "FRAME" (Some [ Spec.bare "Title" "TEXT" None ]).

(** Two incoming requests, the second under [later]: the credential is the
    one read at start-up, and where the fetch of the file resolved for the
    first, it resolves with the same document for the second. *)
Definition SameDocument (env later : Env) (fileKey : string) : Prop :=
  FIGMA_TOKEN later = FIGMA_TOKEN env
  /\ forall tok data,
       upstream env (mkCall (filesUrl fileKey) tok) = Resolved data ->
       exists data',
         upstream later (mkCall (filesUrl fileKey) tok) = Resolved data'
         /\ document data' = document data.

(** Two fetches were answered alike: both resolved, with the same document,
    or both were rejected. *)
Definition AnsweredAlike (a b : Fetched) : Prop :=
  match a, b with
  | Resolved d, Resolved d' => document d = document d'
  | Rejected _ _, Rejected _ _ => True
  | _, _ => False
  end.


(** The two requests [createButton] can make for a file key. *)
Definition getFile (fileKey tok : string) : Request :=
  Get (mkCall (filesUrl fileKey) tok).
Definition postNodes (fileKey tok : string) (payload : Payload) : Request :=
  Post (mkCall (filesUrl fileKey ++ "/nodes") tok) payload.


(** A frame whose first fill is red and hidden. *)
Definition hiddenRed : Node :=
  mkNode "4:1" "Panel" "FRAME" None None None
    (Some [ mkPaint "SOLID" (Some false) None (Some Spec.red) ])
    None None None None None.

(** A request for a blue button named [Go], of the default size. *)
Definition goButton : Server.Button.Args :=
  Server.Button.mk "abc" (Some "Go") None None None.

(** The request of the tool [generate_react_component] returned the code
    generated for the node [component]. *)
Definition ReturnsCodeOf (env : Env) (fileKey nodeName : string)
    (component : Node) : Prop :=
  snd (Server.callTool env (Server.generate_react_component fileKey nodeName))
  = Server.Returned (Server.Code (Server.generateReactCode component)).

(** The route answered 200 with the style of the node [component]. *)
Definition AnswersStyleOf (env : Env) (fileKey componentName : string)
    (component : Node) : Prop :=
  exists message,
    snd (Demo.fetchComponent env (Some fileKey) (Some componentName))
    = Demo.mkResponse 200
        (Demo.ComponentBody (Demo.extractComponentStyle component) message).

(** A colour whose red component is 2. *)
Definition overRed : Color := mkColor (lit 2) (lit 0) (lit 0).

End Props.

(* ================================================================== *)
(** * Tree search *)
(* ================================================================== *)

(** Splits a conjunction into its conjuncts, leaving equivalences whole. *)
Ltac conjuncts := repeat match goal with |- _ /\ _ => split end.

Lemma find_app {A : Type} (p : A -> bool) (l1 l2 : list A) :
  find p (l1 ++ l2) =
  match find p l1 with
  | Some x => Some x
  | None => find p l2
  end.
Proof.
  induction l1 as [|a l1 IH]; simpl; [reflexivity|].
  destruct (p a); [reflexivity | exact IH].
Qed.

Section ListFacts.
Context {A B : Type}.

(** The early-return loop over the children is a search through the
    concatenation of what each child contributes. *)
Lemma first_result_flat_map (p : B -> bool) (f : A -> option B)
    (g : A -> list B) (l : list A) :
  Forall (fun x => f x = find p (g x)) l ->
  Figma.first_result f l = find p (flat_map g l).
Proof.
  induction 1 as [|x l Hx _ IH]; [reflexivity|].
  cbn [Figma.first_result flat_map]. rewrite find_app, Hx.
  destruct (find p (g x)); [reflexivity | exact IH].
Qed.

Lemma find_first_in (p : A -> bool) (l : list A) (r : A) :
  find p l = Some r <-> Spec.FirstIn p l r.
Proof.
  split.
  - revert r. induction l as [|a l IH]; simpl; intros r H; [discriminate|].
    destruct (p a) eqn:Hp.
    + injection H as <-. exists [], l. repeat split; auto.
    + destruct (IH r H) as (bf & af & -> & Hr & Hbf).
      exists (a :: bf), af. repeat split; auto.
  - intros (bf & af & -> & Hr & Hbf).
    induction Hbf as [|a bf Ha _ IH]; simpl.
    + now rewrite Hr.
    + now rewrite Ha.
Qed.

Lemma find_none_iff (p : A -> bool) (l : list A) :
  find p l = None <-> forall x, In x l -> p x = false.
Proof.
  split.
  - intros H x Hx. exact (find_none p l H x Hx).
  - induction l as [|a l IH]; simpl; intros H; [reflexivity|].
    rewrite (H a (or_introl eq_refl)). apply IH. intros x Hx. apply H. now right.
Qed.
End ListFacts.

Section Search.
Import JS Figma.

Lemma demo_find_preorder (T : Node) (n : string) :
  Demo.findNodeByName T n = find (Spec.named n) (preorder T).
Proof.
  induction T as [T IH] using Node_tree_ind.
  destruct T as [i nm ty ch bb cr fl st chs fs fw ta]; unfold kids in IH.
  cbn [Demo.findNodeByName preorder find]. unfold Spec.named at 1.
  cbn [name children].
  destruct (String.eqb nm n); [reflexivity|].
  destruct ch as [cs|]; [|reflexivity].
  now apply first_result_flat_map.
Qed.

Lemma server_find_preorder (T : Node) (n : string) :
  Server.findNodeByName T n = find (Spec.named n) (preorder T).
Proof.
  induction T as [T IH] using Node_tree_ind.
  destruct T as [i nm ty ch bb cr fl st chs fs fw ta]; unfold kids in IH.
  cbn [Server.findNodeByName preorder find]. unfold Spec.named at 1.
  cbn [name children].
  destruct (String.eqb nm n); [reflexivity|].
  destruct ch as [cs|]; [|reflexivity].
  now apply first_result_flat_map.
Qed.
End Search.

(** C1.  [findNodeByName] (both copies) searches the tree depth-first in
    pre-order: its result is the first node of the document order whose name
    is exactly the one asked for.  So the root is returned when it matches;
    otherwise the children are searched from first to last and the first
    hit is returned; a node without [children] has no descendants; of
    several nodes with the name, the first in pre-order is the result; and
    when no node has the name the result is [null] ([None]), never an
    error. *)
Theorem findNodeByName_preorder_first (T : Figma.Node) (n : string) :
  Server.findNodeByName T n = Demo.findNodeByName T n
  /\ Demo.findNodeByName T n = find (Spec.named n) (Figma.preorder T)
  /\ (Figma.name T = n -> Demo.findNodeByName T n = Some T)
  /\ (Figma.name T <> n ->
      Demo.findNodeByName T n =
      Figma.first_result (fun child => Demo.findNodeByName child n) (Figma.kids T))
  /\ (Figma.children T = None -> Figma.name T <> n ->
      Demo.findNodeByName T n = None)
  /\ (forall found, Demo.findNodeByName T n = Some found <->
                    Spec.FirstIn (Spec.named n) (Figma.preorder T) found)
  /\ (Demo.findNodeByName T n = None <->
      forall x, In x (Figma.preorder T) -> Figma.name x <> n).
Proof.
  pose proof (demo_find_preorder T n) as HD.
  repeat apply conj.
  - now rewrite server_find_preorder.
  - exact HD.
  - intros <-. destruct T; cbn. now rewrite String.eqb_refl.
  - intros Hne. apply String.eqb_neq in Hne.
    destruct T as [i nm ty [cs|] bb cr fl st chs fs fw ta]; cbn in *;
      now rewrite Hne.
  - intros Hch Hne. apply String.eqb_neq in Hne.
    destruct T; cbn in *. now rewrite Hne, Hch.
  - intros found. rewrite HD. apply find_first_in.
  - rewrite HD, find_none_iff. intros H x Hx. apply String.eqb_neq, H, Hx.
  - rewrite HD, find_none_iff. intros H x Hx. apply String.eqb_neq, H, Hx.
Qed.

(** With the name [Card] on three nodes, the frame, which comes first in
    document order, is found; an unused name finds nothing. *)
Example findNodeByName_cards :
  Demo.findNodeByName Spec.cards "Card"
  = Some (Spec.bare "Card" "FRAME" (Some [ Spec.bare "Card" "RECTANGLE" None ]))
  /\ Demo.findNodeByName Spec.cards "card" = None.
Proof. split; reflexivity. Qed.

(* ================================================================== *)
(** * Strings *)
(* ================================================================== *)

Section StringFacts.
Import JS.

Lemma append_assoc (a b c : string) : (a ++ b) ++ c = a ++ b ++ c.
Proof. induction a as [|x a IH]; cbn; [reflexivity | now rewrite IH]. Qed.

Lemma append_nil_r (a : string) : a ++ "" = a.
Proof. induction a as [|x a IH]; cbn; [reflexivity | now rewrite IH]. Qed.

Lemma Substring_skip (p a s : string) :
  Spec.Substring p s -> Spec.Substring p (a ++ s).
Proof.
  intros (bf & af & ->). exists (a ++ bf), af. now rewrite append_assoc.
Qed.

Lemma Prefix_Substring (p s : string) :
  (exists rest, s = p ++ rest) -> Spec.Substring p s.
Proof. intros (rest & ->). now exists "", rest. Qed.

Lemma Prefix_same (a p s : string) :
  (exists rest, s = p ++ rest) -> exists rest, a ++ s = (a ++ p) ++ rest.
Proof. intros (rest & ->). exists rest. now rewrite append_assoc. Qed.

Lemma prefix_iff (p s : string) :
  String.prefix p s = true <-> exists rest, s = p ++ rest.
Proof.
  revert s. induction p as [|c p IH]; intros s.
  - destruct s; cbn; (split; [intros _; eexists; reflexivity | reflexivity]).
  - destruct s as [|d s]; cbn.
    + split; [discriminate | intros [rest H]; discriminate].
    + destruct (ascii_dec c d) as [<-|Hne].
      * rewrite IH. split; intros [rest H]; exists rest.
        -- now rewrite H.
        -- now injection H.
      * split; [discriminate|]. intros [rest H]. injection H as H1 H2.
        now elim Hne.
Qed.

Lemma includes_iff (s pat : string) :
  includes s pat = true <-> Spec.Substring pat s.
Proof.
  unfold Spec.Substring. induction s as [|c s IH].
  - cbn [includes]. rewrite orb_false_r, prefix_iff. split.
    + intros [rest H]. now exists "", rest.
    + intros (bf & af & H). destruct bf; [now exists af | discriminate].
  - cbn [includes]. rewrite orb_true_iff, prefix_iff, IH. split.
    + intros [[rest H] | (bf & af & H)].
      * now exists "", rest.
      * exists (String c bf), af. cbn. now rewrite H.
    + intros (bf & af & H). destruct bf as [|d bf].
      * left. now exists af.
      * right. cbn in H. injection H as _ H. now exists bf, af.
Qed.

Lemma map_string_app (f : ascii -> ascii) (a b : string) :
  map_string f (a ++ b) = map_string f a ++ map_string f b.
Proof. induction a as [|x a IH]; cbn; [reflexivity | now rewrite IH]. Qed.

(** A block of the image of a string is the image of a block. *)
Lemma map_string_split (f : ascii -> ascii) (s a b : string) :
  map_string f s = a ++ b ->
  exists a' b', s = a' ++ b' /\ map_string f a' = a /\ map_string f b' = b.
Proof.
  revert s. induction a as [|x a IH]; intros s H.
  - exists "", s. auto.
  - destruct s as [|c s]; [discriminate|]. cbn in H. injection H as Hx H.
    destruct (IH s H) as (a' & b' & -> & Ha & Hb).
    exists (String c a'), b'. cbn. now rewrite Hx, Ha, Hb.
Qed.

(** The test the classifier runs is the case-insensitive containment. *)
Lemma includes_lower_iff (nm pat : string) :
  includes (toLowerCase nm) pat = true <-> Spec.ContainsCI nm pat.
Proof.
  rewrite includes_iff. unfold Spec.Substring, Spec.ContainsCI, toLowerCase.
  split.
  - intros (bf & af & H).
    destruct (map_string_split _ _ _ _ H) as (bf' & r & -> & _ & Hr).
    destruct (map_string_split _ _ _ _ Hr) as (bl & af' & -> & Hbl & _).
    now exists bf', bl, af'.
  - intros (bf & bl & af & -> & <-).
    exists (map_string lower_char bf), (map_string lower_char af).
    now rewrite !map_string_app.
Qed.

Lemma buttonName_iff nm : Spec.buttonName nm = true <-> Spec.ButtonName nm.
Proof.
  unfold Spec.buttonName, Spec.ButtonName.
  now rewrite !orb_true_iff, !includes_lower_iff.
Qed.

Lemma textName_iff nm : Spec.textName nm = true <-> Spec.TextName nm.
Proof.
  unfold Spec.textName, Spec.TextName.
  rewrite !orb_true_iff, !includes_lower_iff. tauto.
Qed.

Lemma inputName_iff nm : Spec.inputName nm = true <-> Spec.InputName nm.
Proof.
  unfold Spec.inputName, Spec.InputName.
  rewrite !orb_true_iff, !includes_lower_iff. tauto.
Qed.
End StringFacts.

(* ================================================================== *)
(** * Classification *)
(* ================================================================== *)

Section Classification.
Import JS Figma.

(** What the record holds, block by block. *)
Lemma style_type (node : Node) :
  Demo.Style.type (Demo.extractComponentStyle node) =
  Demo.classify node (or_number (cornerRadius node) (lit 0))
    (snd (Demo.background node)) (snd (fst (Demo.fontMetrics node))).
Proof.
  unfold Demo.extractComponentStyle.
  destruct (Demo.background node), (Demo.fontMetrics node) as [[? ?] ?].
  reflexivity.
Qed.

Lemma style_fields (node : Node) :
  let s := Demo.extractComponentStyle node in
  Demo.Style.width s = or_number (Demo.boxWidth node) (lit 200)
  /\ Demo.Style.height s = or_number (Demo.boxHeight node) (lit 50)
  /\ Demo.Style.borderRadius s = or_number (cornerRadius node) (lit 0)
  /\ Demo.Style.backgroundColor s = fst (Demo.background node)
  /\ Demo.Style.text s = or_string (Demo.extractText node) "Text"
  /\ Demo.Style.fontSize s = fst (fst (Demo.fontMetrics node))
  /\ Demo.Style.fontWeight s = snd (fst (Demo.fontMetrics node)).
Proof.
  unfold Demo.extractComponentStyle.
  destruct (Demo.background node), (Demo.fontMetrics node) as [[? ?] ?].
  cbn. repeat apply conj; reflexivity.
Qed.

(** The cascade of [classify], its name tests folded into the three
    groups. *)
Lemma classify_cascade (node : Node) cr hb fw :
  Demo.classify node cr hb fw =
  if Spec.buttonName (name node) then "button"
  else if Spec.textName (name node) then "text"
  else if Spec.inputName (name node) then "input"
  else if String.eqb (type node) "TEXT" then "text"
  else if (String.eqb (type node) "FRAME" || String.eqb (type node) "COMPONENT"
           || String.eqb (type node) "INSTANCE")
          && (hb || match strokes node with Some (_ :: _) => true | _ => false end)
          && (ge cr (lit 4) || ge fw (lit 600))
  then "button" else "text".
Proof. reflexivity. Qed.

Lemma not_true_false (b : bool) (P : Prop) :
  (b = true <-> P) -> ~ P -> b = false.
Proof. intros H HP. destruct b; [now elim HP; apply H | reflexivity]. Qed.

Lemma noNameHit_iff (nm : string) :
  Spec.NoNameHit nm <->
  Spec.buttonName nm = false /\ Spec.textName nm = false
  /\ Spec.inputName nm = false.
Proof.
  unfold Spec.NoNameHit.
  rewrite <- buttonName_iff, <- textName_iff, <- inputName_iff.
  rewrite !not_true_iff_false. tauto.
Qed.
End Classification.

(** C2.  The name tier of the classifier.  The tests are case-insensitive
    containments of the node's name, tried in this order, the first hit
    deciding: "button" or "btn" gives "button"; else "text", "label",
    "title" or "heading" gives "text"; else "input", "textbox" or "field"
    gives "input".  A hit decides alone: whatever values the visual tier
    would read, and for any other node of the same name, the type is the
    same; so a node named "Submit Button" is a "button". *)
Theorem classify_name_tier (node : Figma.Node) :
  let ty := Demo.Style.type (Demo.extractComponentStyle node) in
  let nm := Figma.name node in
  (Spec.ButtonName nm -> ty = "button")
  /\ (~ Spec.ButtonName nm -> Spec.TextName nm -> ty = "text")
  /\ (~ Spec.ButtonName nm -> ~ Spec.TextName nm -> Spec.InputName nm ->
      ty = "input")
  /\ (Spec.ButtonName nm \/ Spec.TextName nm \/ Spec.InputName nm ->
      (forall cr hb fw, Demo.classify node cr hb fw = ty)
      /\ (forall other, Figma.name other = nm ->
            Demo.Style.type (Demo.extractComponentStyle other) = ty))
  /\ (nm = "Submit Button" -> ty = "button").
Proof.
  cbv zeta. rewrite style_type.
  assert (Hdec : forall n cr hb fw,
             (Spec.ButtonName (Figma.name n) -> Demo.classify n cr hb fw = "button")
             /\ (~ Spec.ButtonName (Figma.name n) -> Spec.TextName (Figma.name n) ->
                 Demo.classify n cr hb fw = "text")
             /\ (~ Spec.ButtonName (Figma.name n) -> ~ Spec.TextName (Figma.name n) ->
                 Spec.InputName (Figma.name n) -> Demo.classify n cr hb fw = "input")).
  { intros n cr hb fw. rewrite classify_cascade. repeat apply conj.
    - intros H. apply buttonName_iff in H. now rewrite H.
    - intros H1 H2. apply (not_true_false _ _ (buttonName_iff _)) in H1.
      apply textName_iff in H2. now rewrite H1, H2.
    - intros H1 H2 H3. apply (not_true_false _ _ (buttonName_iff _)) in H1.
      apply (not_true_false _ _ (textName_iff _)) in H2.
      apply inputName_iff in H3. now rewrite H1, H2, H3. }
  assert (Hname : forall n n' cr hb fw cr' hb' fw',
             Figma.name n' = Figma.name n ->
             Spec.ButtonName (Figma.name n) \/ Spec.TextName (Figma.name n)
             \/ Spec.InputName (Figma.name n) ->
             Demo.classify n' cr' hb' fw' = Demo.classify n cr hb fw).
  { intros n n' cr hb fw cr' hb' fw' Hnm Hhit.
    rewrite !classify_cascade, Hnm.
    destruct (Spec.buttonName (Figma.name n)) eqn:Hb; [reflexivity|].
    destruct (Spec.textName (Figma.name n)) eqn:Ht; [reflexivity|].
    destruct (Spec.inputName (Figma.name n)) eqn:Hi; [reflexivity|].
    exfalso. rewrite <- buttonName_iff, <- textName_iff, <- inputName_iff in Hhit.
    rewrite Hb, Ht, Hi in Hhit. intuition discriminate. }
  repeat apply conj; try apply Hdec.
  - intros Hhit. split.
    + intros cr hb fw. now apply Hname.
    + intros other Hother. rewrite style_type. now apply Hname.
  - intros Hnm. apply Hdec. apply buttonName_iff. now rewrite Hnm.
Qed.

(** The name tier on sample names: the order of the tests decides names
    that hit two groups, and "textbox" is caught by "text". *)
Example classify_name_samples :
  map (fun nm => Demo.Style.type (Demo.extractComponentStyle (Spec.bare nm "FRAME" None)))
      ["Submit Button"; "BTN-ok"; "Button label"; "Input title"; "Email Field";
       "TextBox"; "INPUT"]
  = ["button"; "button"; "button"; "text"; "input"; "text"; "input"].
Proof. vm_compute. reflexivity. Qed.

Section VisualTier.
Import JS Figma.

Lemma rgbaToHex_not_transparent (c : Color) :
  String.eqb (Demo.rgbaToHex c) "transparent" = false.
Proof. reflexivity. Qed.

(** A visible solid paint at the head of [fills] is a background. *)
Lemma background_visible_solid (node : Node) fill rest :
  fills node = Some (fill :: rest) -> Spec.VisibleSolid fill ->
  snd (Demo.background node) = true.
Proof.
  intros Hf (Hv & Ht & (c & Hc) & Ho). unfold Demo.background.
  rewrite Hf, Hc, Ht. cbn [String.eqb Ascii.eqb Bool.eqb andb].
  assert (Hvis : match visible fill with None => true | Some v => v end = true).
  { destruct (visible fill) as [[|]|]; congruence. }
  rewrite Hvis. cbn [andb snd]. rewrite rgbaToHex_not_transparent.
  destruct Ho as [-> | (o & -> & Ho)]; [reflexivity | now rewrite Ho].
Qed.

Lemma background_no_fills (node : Node) :
  Spec.NoFills node -> Demo.background node = ("transparent", false).
Proof. unfold Demo.background. now intros [-> | ->]. Qed.

Lemma hasBorder_iff (node : Node) :
  match strokes node with Some (_ :: _) => true | _ => false end = true
  <-> Spec.HasBorder node.
Proof.
  unfold Spec.HasBorder. destruct (strokes node) as [[|st rest]|]; split;
    try discriminate; try (intros (? & ? & ?); discriminate).
  - intros _. now exists st, rest.
  - reflexivity.
Qed.

Lemma isFrame_iff (node : Node) :
  String.eqb (type node) "FRAME" || String.eqb (type node) "COMPONENT"
  || String.eqb (type node) "INSTANCE" = true
  <-> Spec.IsFrame node.
Proof.
  unfold Spec.IsFrame. rewrite !orb_true_iff, !String.eqb_eq. tauto.
Qed.
End VisualTier.

(** C3.  The visual tier of the classifier.  For a node whose name hits
    none of the nine name tests: a TEXT node is "text"; any other node is
    "button" exactly when it is a FRAME, COMPONENT or INSTANCE, has a
    background or a non-empty [strokes], and has a corner radius of at
    least 4 or a font weight of at least 600; it is "text" otherwise, and
    never "input".  So such a FRAME with a visible solid first fill and
    corner radius 8 is a "button", one with no fills, no strokes and corner
    radius 0 is "text", and the name "Card" is such a name. *)
Theorem classify_visual_tier (node : Figma.Node)
    (Hname : Spec.NoNameHit (Figma.name node)) :
  let s := Demo.extractComponentStyle node in
  let hasBackground := snd (Demo.background node) in
  let hasRoundedCorners := JS.ge (Demo.Style.borderRadius s) (JS.lit 4) in
  let bold := JS.ge (Demo.Style.fontWeight s) (JS.lit 600) in
  (Figma.type node = "TEXT" -> Demo.Style.type s = "text")
  /\ (Figma.type node <> "TEXT" ->
      (Demo.Style.type s = "button" <->
       Spec.IsFrame node
       /\ (hasBackground = true \/ Spec.HasBorder node)
       /\ (hasRoundedCorners = true \/ bold = true)))
  /\ (Demo.Style.type s = "button" \/ Demo.Style.type s = "text")
  /\ Demo.Style.type s <> "input"
  /\ (Figma.type node = "FRAME" -> Figma.cornerRadius node = Some (JS.lit 8) ->
      (exists fill rest, Figma.fills node = Some (fill :: rest)
                         /\ Spec.VisibleSolid fill) ->
      Demo.Style.type s = "button")
  /\ (Figma.type node = "FRAME" -> Figma.cornerRadius node = Some (JS.lit 0) ->
      Spec.NoFills node -> Spec.NoStrokes node ->
      Demo.Style.type s = "text")
  /\ Spec.NoNameHit "Card".
Proof.
  cbv zeta. destruct (style_fields node) as (_ & _ & Hcr & _ & _ & _ & Hfw).
  rewrite Hcr, Hfw, style_type, classify_cascade.
  apply noNameHit_iff in Hname. destruct Hname as (-> & -> & ->).
  assert (Hgen :
    Figma.type node <> "TEXT" ->
    ((if (String.eqb (Figma.type node) "FRAME"
          || String.eqb (Figma.type node) "COMPONENT"
          || String.eqb (Figma.type node) "INSTANCE")
         && (snd (Demo.background node)
             || match Figma.strokes node with Some (_ :: _) => true | _ => false end)
         && (JS.ge (JS.or_number (Figma.cornerRadius node) (JS.lit 0)) (JS.lit 4)
             || JS.ge (snd (fst (Demo.fontMetrics node))) (JS.lit 600))
      then "button" else "text") = "button"
     <-> Spec.IsFrame node
         /\ (snd (Demo.background node) = true \/ Spec.HasBorder node)
         /\ (JS.ge (JS.or_number (Figma.cornerRadius node) (JS.lit 0)) (JS.lit 4) = true
             \/ JS.ge (snd (fst (Demo.fontMetrics node))) (JS.lit 600) = true))).
  { intros _. rewrite <- isFrame_iff, <- hasBorder_iff, <- !orb_true_iff,
      <- !andb_true_iff, andb_assoc.
    match goal with |- context [if ?b then _ else _] => destruct b end;
      split; congruence. }
  conjuncts.
  - intros ->. reflexivity.
  - intros Hne. rewrite (proj2 (String.eqb_neq _ _) Hne). now apply Hgen.
  - repeat match goal with |- context [if ?b then _ else _] => destruct b end; auto.
  - repeat match goal with |- context [if ?b then _ else _] => destruct b end;
      discriminate.
  - intros Hty Hc (fill & rest & Hf & Hvs).
    rewrite Hty, Hc, (background_visible_solid node fill rest Hf Hvs). reflexivity.
  - intros Hty Hc Hnf Hns. rewrite Hty, Hc, (background_no_fills node Hnf).
    destruct Hns as [-> | ->]; reflexivity.
  - apply noNameHit_iff. repeat split; reflexivity.
Qed.

(** The frame [Card] with a red fill and corner radius 8. *)
Lemma classify_visual_tier_witness :
  Spec.NoNameHit (Figma.name Spec.cardFilled)
  /\ Demo.Style.type (Demo.extractComponentStyle Spec.cardFilled) = "button".
Proof.
  assert (H : Spec.NoNameHit (Figma.name Spec.cardFilled)).
  { apply noNameHit_iff. repeat split; reflexivity. }
  split; [exact H|].
  destruct (classify_visual_tier Spec.cardFilled H) as (_ & _ & _ & _ & Hb & _).
  apply Hb; [reflexivity | reflexivity |].
  eexists _, _. split; [reflexivity|].
  repeat split; cbn; try discriminate; eauto.
Defined.

Example classify_cards :
  Demo.Style.type (Demo.extractComponentStyle Spec.cardFilled) = "button"
  /\ Demo.Style.type (Demo.extractComponentStyle Spec.cardPlain) = "text".
Proof. split; vm_compute; reflexivity. Qed.

(* ================================================================== *)
(** * Background colour *)
(* ================================================================== *)

(** C4.  The background block looks at the first entry of [fills] only.
    With [fills] absent or empty, or a first fill that is hidden
    ([visible] false), not SOLID, or without a colour, the background colour
    is "transparent" and [hasBackground] is false.  With a first fill that
    passes the three checks the background colour is the hex form of its
    colour, and [hasBackground] holds exactly when the opacity (1 when
    absent) is above 0 and the hex string is not "transparent"; the latter
    always holds, so it is the opacity that decides.  The fills after the
    first play no part. *)
Theorem background_first_fill (node : Figma.Node) :
  let backgroundColor := fst (Demo.background node) in
  let hasBackground := snd (Demo.background node) in
  Demo.Style.backgroundColor (Demo.extractComponentStyle node) = backgroundColor
  /\ (Spec.NoFills node ->
      backgroundColor = "transparent" /\ hasBackground = false)
  /\ (forall fill rest, Figma.fills node = Some (fill :: rest) ->
      (Spec.FailsCheck fill ->
       backgroundColor = "transparent" /\ hasBackground = false)
      /\ (forall c, Spec.Contributes fill c ->
          backgroundColor = Demo.rgbaToHex c
          /\ (hasBackground = true <->
              JS.gt (Spec.effectiveOpacity fill) (JS.lit 0) = true
              /\ Demo.rgbaToHex c <> "transparent")
          /\ (hasBackground = true <->
              JS.gt (Spec.effectiveOpacity fill) (JS.lit 0) = true)))
  /\ (forall other, Spec.firstFill other = Spec.firstFill node ->
      Demo.background other = Demo.background node).
Proof.
  cbv zeta. conjuncts.
  - apply style_fields.
  - intros H. now rewrite (background_no_fills node H).
  - intros fill rest H.
    assert (Hfail : Spec.FailsCheck fill ->
                    Demo.background node = ("transparent", false)).
    { intros [Hv | [Ht | Hc]]; unfold Demo.background; rewrite H.
      - rewrite Hv. now destruct (Figma.color fill).
      - apply String.eqb_neq in Ht. rewrite Ht, andb_false_r.
        now destruct (Figma.color fill).
      - now rewrite Hc. }
    split; [intros Hf; now rewrite (Hfail Hf)|].
    intros c (Hv & Ht & Hc).
    assert (Hpass : Demo.background node =
                    (Demo.rgbaToHex c,
                     JS.gt (Spec.effectiveOpacity fill) (JS.lit 0)
                     && negb (String.eqb (Demo.rgbaToHex c) "transparent"))).
    { unfold Demo.background, Spec.effectiveOpacity. rewrite H, Hc, Ht.
      now destruct Hv as [-> | ->]. }
    rewrite Hpass. cbn [fst snd]. conjuncts.
    + reflexivity.
    + now rewrite andb_true_iff, negb_true_iff, String.eqb_neq.
    + now rewrite rgbaToHex_not_transparent, andb_true_r.
  - intros other H. unfold Demo.background. unfold Spec.firstFill in H.
    destruct (Figma.fills other) as [[|f1 r1]|], (Figma.fills node) as [[|f2 r2]|];
      try discriminate; try reflexivity.
    now injection H as ->.
Qed.

(* ================================================================== *)
(** * Text content *)
(* ================================================================== *)

Section TextContent.
Import JS Figma.

Lemma firstText_app (l1 l2 : list Node) :
  Spec.firstText (l1 ++ l2) =
  match Spec.firstText l1 with
  | Some s => Some s
  | None => Spec.firstText l2
  end.
Proof.
  unfold Spec.firstText. rewrite find_app.
  destruct (find Spec.hasText l1) as [x|] eqn:Hx; [|reflexivity].
  apply find_some in Hx. destruct Hx as [_ Hx]. unfold Spec.hasText in Hx.
  now destruct (characters x) as [[|c r]|].
Qed.

Lemma firstText_truthy (l : list Node) :
  Demo.if_truthy (Spec.firstText l) = Spec.firstText l.
Proof.
  unfold Spec.firstText. destruct (find Spec.hasText l) as [x|] eqn:Hx;
    [|reflexivity].
  apply find_some in Hx. destruct Hx as [_ Hx]. unfold Spec.hasText in Hx.
  now destruct (characters x) as [[|c r]|].
Qed.

Lemma first_result_firstText (f : Node -> option string) (l : list Node) :
  Forall (fun x => f x = Spec.firstText (preorder x)) l ->
  first_result f l = Spec.firstText (flat_map preorder l).
Proof.
  induction 1 as [|x l Hx _ IH]; [reflexivity|].
  cbn [first_result flat_map]. rewrite firstText_app, Hx.
  destruct (Spec.firstText (preorder x)); [reflexivity | exact IH].
Qed.

(** [extractText] returns the first non-empty [characters] of the
    document order, the node itself included. *)
Lemma extractText_firstText (node : Node) :
  Demo.extractText node = Spec.firstText (preorder node).
Proof.
  induction node as [node IH] using Node_tree_ind.
  destruct node as [i nm ty ch bb cr fl st chs fs fw ta]; unfold kids in IH.
  cbn [Demo.extractText preorder characters children] in *.
  unfold Spec.firstText at 1. cbn [find]. unfold Spec.hasText at 1.
  cbn [characters].
  destruct chs as [[|c r]|]; cbn [Demo.if_truthy truthy_string];
    try reflexivity;
    (destruct ch as [cs|]; [|reflexivity]);
    apply first_result_firstText;
    (eapply Forall_impl; [|exact IH]); cbn beta; intros x ->;
    apply firstText_truthy.
Qed.
End TextContent.

(** C5, as the code has it.  The extracted text is the node's own
    [characters] when that is present and not the empty string; otherwise
    the first non-empty [characters] among the descendants, in depth-first
    pre-order; otherwise "Text". *)
Theorem extractText_own_then_descendants (node : Figma.Node) :
  let text := Demo.Style.text (Demo.extractComponentStyle node) in
  (forall s, Figma.characters node = Some s -> s <> "" -> text = s)
  /\ (Figma.characters node = None \/ Figma.characters node = Some "" ->
      text = match Spec.firstText (Spec.descendants node) with
             | Some s => s
             | None => "Text"
             end)
  /\ (forall s, Spec.firstText (Spec.descendants node) = Some s -> s <> "").
Proof.
  cbv zeta. destruct (style_fields node) as (_ & _ & _ & _ & -> & _).
  rewrite extractText_firstText.
  assert (Hcons : Spec.firstText (Figma.preorder node) =
                  match JS.truthy_string
                          (match Figma.characters node with Some s => s | None => "" end)
                  with
                  | true => Figma.characters node
                  | false => Spec.firstText (Spec.descendants node)
                  end).
  { unfold Spec.descendants, Figma.kids.
    destruct node as [i nm ty ch bb cr fl st chs fs fw ta].
    cbn [Figma.preorder Figma.characters Figma.children].
    unfold Spec.firstText at 1. cbn [find]. unfold Spec.hasText at 1.
    cbn [Figma.characters].
    destruct chs as [[|c r]|]; cbn; destruct ch; reflexivity. }
  assert (Hne : forall l s, Spec.firstText l = Some s -> s <> "").
  { intros l s H. rewrite <- firstText_truthy in H.
    destruct (Spec.firstText l) as [[|c r]|]; cbn in H; congruence. }
  conjuncts.
  - intros s Hs Hnz. rewrite Hcons, Hs.
    destruct s as [|c r]; [now elim Hnz | reflexivity].
  - intros Hc. rewrite Hcons.
    assert (Hf : JS.truthy_string
                   (match Figma.characters node with Some s => s | None => "" end)
                 = false) by (destruct Hc as [-> | ->]; reflexivity).
    rewrite Hf. destruct (Spec.firstText (Spec.descendants node)) as [s|] eqn:Hd;
      [|reflexivity].
    specialize (Hne _ _ Hd). now destruct s.
  - apply Hne.
Qed.

(** C5, as stated, fails on an empty text layer: its own [characters] is
    present (the empty string), yet the extracted text is "Text". *)
Lemma extractText_empty_characters :
  exists s, Figma.characters Spec.emptyCaption = Some s
            /\ Demo.Style.text (Demo.extractComponentStyle Spec.emptyCaption) = "Text"
            /\ Demo.Style.text (Demo.extractComponentStyle Spec.emptyCaption) <> s.
Proof. exists "". repeat split. discriminate. Qed.

(** A frame whose own [characters] is empty takes the text of the first
    text layer below it. *)
Example extractText_framedHello :
  Demo.Style.text (Demo.extractComponentStyle Spec.framedHello) = "Hello".
Proof. reflexivity. Qed.

(* ================================================================== *)
(** * Enumeration *)
(* ================================================================== *)

Section Enumeration.
Import JS Figma.

Lemma collected_iff (node : Node) :
  Server.collected node = true <-> Spec.Collectable node.
Proof.
  unfold Server.collected, Spec.Collectable.
  rewrite !orb_true_iff, !String.eqb_eq. tauto.
Qed.

(** Threading the array through the children appends what each child
    contributes, child after child. *)
Lemma fold_left_appends {A B : Type} (f : A -> list B -> list B)
    (g : A -> list B) (l : list A) :
  Forall (fun x => forall acc, f x acc = (acc ++ g x)%list) l ->
  forall acc,
    fold_left (fun acc x => f x acc) l acc = (acc ++ flat_map g l)%list.
Proof.
  induction 1 as [|x l Hx _ IH]; intros acc; cbn [fold_left flat_map].
  - now rewrite app_nil_r.
  - now rewrite Hx, IH, app_assoc.
Qed.

Lemma filter_flat_map {A B : Type} (p : B -> bool) (g : A -> list B) l :
  filter p (flat_map g l) = flat_map (fun x => filter p (g x)) l.
Proof.
  induction l as [|x l IH]; [reflexivity|]. cbn [flat_map].
  now rewrite filter_app, IH.
Qed.

Lemma map_flat_map {A B C : Type} (h : B -> C) (g : A -> list B) l :
  map h (flat_map g l) = flat_map (fun x => map h (g x)) l.
Proof.
  induction l as [|x l IH]; [reflexivity|]. cbn [flat_map].
  now rewrite map_app, IH.
Qed.

Lemma extractComponents_appends (T : Node) :
  forall acc,
    Server.extractComponents T acc =
    (acc ++ map Server.describe (filter Server.collected (preorder T)))%list.
Proof.
  induction T as [T IH] using Node_tree_ind.
  destruct T as [i nm ty ch bb cr fl st chs fs fw ta]; unfold kids in IH.
  intros acc. cbn [Server.extractComponents preorder children filter].
  set (T := mkNode i nm ty ch bb cr fl st chs fs fw ta).
  destruct ch as [cs|].
  - rewrite (fold_left_appends Server.extractComponents
               (fun x => map Server.describe
                           (filter Server.collected (preorder x))) cs IH).
    rewrite <- map_flat_map, <- filter_flat_map.
    destruct (Server.collected T); cbn [map];
      rewrite <- ?app_assoc; reflexivity.
  - destruct (Server.collected T); cbn [map]; now rewrite ?app_nil_r.
Qed.
End Enumeration.

(** C8.  [extractComponents] walks the tree depth-first in pre-order and
    returns one descriptor for each node whose type is COMPONENT, FRAME or
    RECTANGLE, and for no other node, in document order; every node's
    children are visited, collected or not.  A COMPONENT root with a single
    TEXT child below it gives exactly one descriptor, the root's. *)
Theorem extractComponents_document_order (T : Figma.Node) :
  Server.extractComponents T []
  = map Server.describe (filter Server.collected (Figma.preorder T))
  /\ (forall acc, Server.extractComponents T acc
                  = (acc ++ Server.extractComponents T [])%list)
  /\ (forall x, Server.collected x = true <-> Spec.Collectable x)
  /\ (forall x, Figma.type x = "TEXT" -> Server.collected x = false)
  /\ (forall child, Figma.type T = "COMPONENT" ->
        Figma.children T = Some [child] ->
        Figma.type child = "TEXT" -> Figma.kids child = [] ->
        Server.extractComponents T [] = [Server.describe T]).
Proof.
  conjuncts.
  - apply extractComponents_appends.
  - intros acc. now rewrite !extractComponents_appends.
  - apply collected_iff.
  - intros x Hx. unfold Server.collected. now rewrite Hx.
  - intros child HT Hch Hc Hk. rewrite extractComponents_appends.
    destruct T as [i nm ty ch bb cr fl st chs fs fw ta]; cbn in HT, Hch.
    subst ty ch. cbn [Figma.preorder Figma.children flat_map filter app].
    destruct child as [i' nm' ty' ch' bb' cr' fl' st' chs' fs' fw' ta'].
    cbn in Hc, Hk. subst ty'. unfold Figma.kids in Hk.
    cbn [Figma.preorder Figma.children] in *.
    destruct ch' as [cs'|]; [cbn in Hk; subst cs'|]; reflexivity.
Qed.

(** The descriptors come in document order, through nodes that are not
    collected. *)
Example extractComponents_samples :
  map Server.Descriptor.name (Server.extractComponents Spec.nestedPage [])
  = ["Box"; "Panel"]
  /\ List.length (Server.extractComponents Spec.labelledComponent []) = 1%nat.
Proof. split; reflexivity. Qed.

(* ================================================================== *)
(** * Identifiers *)
(* ================================================================== *)

Section Identifiers.
Import JS.

Lemma split_cons (sep : ascii) (s : string) :
  exists w ws, split sep s = w :: ws.
Proof.
  induction s as [|c s (w & ws & IH)]; cbn [split].
  - now exists "", [].
  - destruct (Ascii.eqb c sep); [now exists "", (split sep s)|].
    rewrite IH. now exists (String c w), ws.
Qed.

Lemma join_cons (w : string) (ws : list string) :
  join (w :: ws) = w ++ join ws.
Proof.
  unfold join. destruct ws as [|v ws]; cbn [String.concat].
  - now rewrite append_nil_r.
  - reflexivity.
Qed.

(** The pieces of a name, capitalised and joined, against the one-pass
    reading; inside a word the pending piece is lowercased. *)
Lemma pieces_pascal (s : string) :
  match split " " (Server.replaceNonAlnum s) with
  | w :: ws =>
      Server.capitalize w ++ join (map Server.capitalize ws) = Spec.pascal true s
      /\ toLowerCase w ++ join (map Server.capitalize ws) = Spec.pascal false s
  | [] => False
  end.
Proof.
  induction s as [|c s IH]; [split; reflexivity|].
  cbn [Server.replaceNonAlnum map_string split Spec.pascal].
  fold (Server.replaceNonAlnum s).
  destruct (split_cons " " (Server.replaceNonAlnum s)) as (w & ws & Hs).
  rewrite Hs in IH |- *. destruct IH as [IHt IHf].
  destruct (is_alnum c) eqn:Hc.
  - assert (Hsp : Ascii.eqb c " " = false).
    { destruct (Ascii.eqb_spec c " ") as [->|]; [discriminate | reflexivity]. }
    rewrite Hsp. unfold Server.capitalize.
    cbn [charAt0 slice1 toUpperCase toLowerCase map_string String.append].
    fold Server.capitalize. now rewrite IHf.
  - cbn [Ascii.eqb Bool.eqb map]. rewrite join_cons. split; exact IHt.
Qed.
End Identifiers.

(** C9.  [toPascalCase] replaces every character that is not a letter or a
    digit by a space, splits at the spaces, turns each piece into its first
    character uppercased followed by the rest lowercased, and concatenates
    the pieces.  The outcome is the name read in one pass, dropping the
    other characters, uppercasing the letters that open a run and
    lowercasing the rest; it is the identifier the generated component is
    declared under.  The name "primary-cta!!" gives "PrimaryCta". *)
Theorem toPascalCase_pieces (str : string) :
  Server.toPascalCase str
  = String.concat ""
      (map (fun word => JS.toUpperCase (JS.charAt0 word)
                        ++ JS.toLowerCase (JS.slice1 word))
           (JS.split " " (JS.map_string
                            (fun c => if JS.is_alnum c then c else " "%char) str)))
  /\ Server.toPascalCase str = Spec.pascal true str
  /\ Server.toPascalCase "primary-cta!!" = "PrimaryCta"
  /\ (forall node,
        Figma.name node = str ->
        Spec.Substring ("export function " ++ Server.toPascalCase str ++ "(")
                       (Server.generateReactCode node)).
Proof.
  conjuncts.
  - reflexivity.
  - unfold Server.toPascalCase. pose proof (pieces_pascal str) as H.
    destruct (JS.split " " (Server.replaceNonAlnum str)) as [|w ws]; [easy|].
    cbn [map]. rewrite join_cons. apply H.
  - reflexivity.
  - intros node <-. unfold Server.generateReactCode, Server.reactTemplate.
    do 3 apply Substring_skip. apply Prefix_Substring.
    do 2 apply Prefix_same. now eexists.
Qed.

(* ================================================================== *)
(** * Defaults of the numeric attributes *)
(* ================================================================== *)

Section Defaults.
Import JS Figma.

Lemma or_number_zero (z d : number) :
  Spec.IsZero z -> or_number (Some z) d = d.
Proof. now intros (s & ->). Qed.

(** The line of the template that carries the corner radius. *)
Lemma reactTemplate_borderRadius (ident w h bg cr text : string) :
  Spec.Substring ("borderRadius: '" ++ cr ++ "px'")
                 (Server.reactTemplate ident w h bg cr text).
Proof.
  unfold Server.reactTemplate.
  do 31 apply Substring_skip.
  change "        borderRadius: '" with ("        " ++ "borderRadius: '").
  rewrite append_assoc. apply Substring_skip, Prefix_Substring.
  do 2 apply Prefix_same. now eexists.
Qed.

(** The lines of the template that carry the width and the height. *)
Lemma reactTemplate_width (ident w h bg cr text : string) :
  Spec.Substring ("width: '" ++ w ++ "px'")
                 (Server.reactTemplate ident w h bg cr text).
Proof.
  unfold Server.reactTemplate.
  do 15 apply Substring_skip.
  change "        width: '" with ("        " ++ "width: '").
  rewrite append_assoc. apply Substring_skip, Prefix_Substring.
  do 2 apply Prefix_same. now eexists.
Qed.

Lemma reactTemplate_height (ident w h bg cr text : string) :
  Spec.Substring ("height: '" ++ h ++ "px'")
                 (Server.reactTemplate ident w h bg cr text).
Proof.
  unfold Server.reactTemplate.
  do 19 apply Substring_skip.
  change "        height: '" with ("        " ++ "height: '").
  rewrite append_assoc. apply Substring_skip, Prefix_Substring.
  do 2 apply Prefix_same. now eexists.
Qed.

(** The corner radius of the root is read by no block but the ones that
    default it. *)
Lemma withCornerRadius_blocks (v : option number) (node : Node) :
  let node' := Spec.withCornerRadius v node in
  Demo.background node' = Demo.background node
  /\ Demo.textColor node' = Demo.textColor node
  /\ Demo.extractText node' = Demo.extractText node
  /\ Demo.fontMetrics node' = Demo.fontMetrics node
  /\ Demo.boxWidth node' = Demo.boxWidth node
  /\ Demo.boxHeight node' = Demo.boxHeight node
  /\ (forall cr hb fw,
        Demo.classify node' cr hb fw = Demo.classify node cr hb fw)
  /\ Server.extractText node' = Server.extractText node
  /\ Server.firstFillColor node' = Server.firstFillColor node.
Proof.
  destruct node as [i nm ty ch bb cr fl st chs fs fw ta]. cbv zeta.
  unfold Demo.textColor, Demo.fontMetrics, Spec.withCornerRadius.
  cbn [Demo.findTextNode id name type children absoluteBoundingBox fills
       strokes characters fontSize fontWeight textAlignHorizontal].
  conjuncts; try reflexivity; destruct (String.eqb ty "TEXT"); reflexivity.
Qed.
End Defaults.

(** C10.  A numeric attribute that is present with the value zero is
    defaulted like an absent one.  A bounding box of width 0 or height 0
    still gives width 200 or height 50, in the style record and in the
    generated component; a font size 0 or font weight 0 on
    the text node the font block reads gives 16 or 400; and a corner radius
    0 gives the same style record and the same generated component as no
    corner radius at all: border radius 0 in the record, and
    [borderRadius: '8px'] in the component, whose default is 8. *)
Theorem zero_defaults_like_absent (node : Figma.Node) :
  (forall box z, Figma.absoluteBoundingBox node = Some box -> Spec.IsZero z ->
     (Figma.width box = Some z ->
      Demo.Style.width (Demo.extractComponentStyle node) = JS.lit 200
      /\ Spec.Substring "width: '200px'" (Server.generateReactCode node))
     /\ (Figma.height box = Some z ->
         Demo.Style.height (Demo.extractComponentStyle node) = JS.lit 50
         /\ Spec.Substring "height: '50px'" (Server.generateReactCode node)))
  /\ (forall t z, Spec.resolvedTextNode node = Some t -> Spec.IsZero z ->
     (Figma.fontSize t = Some z ->
      Demo.Style.fontSize (Demo.extractComponentStyle node) = JS.lit 16)
     /\ (Figma.fontWeight t = Some z ->
         Demo.Style.fontWeight (Demo.extractComponentStyle node) = JS.lit 400))
  /\ (forall z, Spec.IsZero z ->
     let zero := Spec.withCornerRadius (Some z) node in
     let absent := Spec.withCornerRadius None node in
     Demo.extractComponentStyle zero = Demo.extractComponentStyle absent
     /\ Demo.Style.borderRadius (Demo.extractComponentStyle zero) = JS.lit 0
     /\ Server.generateReactCode zero = Server.generateReactCode absent
     /\ Spec.Substring "borderRadius: '8px'" (Server.generateReactCode zero)).
Proof.
  conjuncts.
  - intros box z Hbox Hz.
    destruct (style_fields node) as (Hw & Hh & _). cbv zeta in Hw, Hh.
    rewrite Hw, Hh. unfold Server.generateReactCode.
    unfold Demo.boxWidth, Demo.boxHeight, Server.boxWidth, Server.boxHeight.
    rewrite Hbox.
    split; intros ->; rewrite (or_number_zero _ _ Hz); (split; [reflexivity|]).
    + change (JS.numberToString (JS.lit 200)) with "200".
      apply (reactTemplate_width _ "200").
    + change (JS.numberToString (JS.lit 50)) with "50".
      apply (reactTemplate_height _ _ "50").
  - intros t z Ht Hz.
    destruct (style_fields node) as (_ & _ & _ & _ & _ & Hs & Hw).
    cbv zeta in Hs, Hw. rewrite Hs, Hw. unfold Demo.fontMetrics.
    fold (Spec.resolvedTextNode node). rewrite Ht. cbn [fst snd].
    split; intros ->; now apply or_number_zero.
  - intros z Hz zero absent.
    destruct (withCornerRadius_blocks (Some z) node)
      as (Hb & Hc & Ht & Hf & Hw & Hh & Hk & Hst & Hsf).
    destruct (withCornerRadius_blocks None node)
      as (Hb' & Hc' & Ht' & Hf' & Hw' & Hh' & Hk' & Hst' & Hsf').
    cbv zeta in *. fold zero in Hb, Hc, Ht, Hf, Hw, Hh, Hk, Hst, Hsf.
    fold absent in Hb', Hc', Ht', Hf', Hw', Hh', Hk', Hst', Hsf'.
    assert (Hz0 : forall d, JS.or_number (Figma.cornerRadius zero) d = d)
      by (intros d; now apply or_number_zero).
    assert (Ha0 : forall d, JS.or_number (Figma.cornerRadius absent) d = d)
      by reflexivity.
    conjuncts.
    + unfold Demo.extractComponentStyle.
      rewrite Hb, Hc, Ht, Hf, Hw, Hh, Hb', Hc', Ht', Hf', Hw', Hh', Hz0, Ha0.
      destruct (Demo.background node), (Demo.fontMetrics node) as [[? ?] ?].
      now rewrite Hk, Hk'.
    + destruct (style_fields zero) as (_ & _ & -> & _). apply Hz0.
    + unfold Server.generateReactCode.
      change (Server.boxWidth ?n) with (Demo.boxWidth n).
      change (Server.boxHeight ?n) with (Demo.boxHeight n).
      now rewrite Hw, Hh, Hw', Hh', Hst, Hst', Hsf, Hsf', Hz0, Ha0.
    + unfold Server.generateReactCode. rewrite Hz0.
      change (JS.numberToString (JS.lit 8)) with "8".
      apply (reactTemplate_borderRadius _ _ _ _ "8").
Qed.

(** A 0 by 0 frame of corner radius 0 over a label of size 0 and weight 0:
    every default applies. *)
Example zero_defaults_flatButton :
  let s := Demo.extractComponentStyle Spec.flatButton in
  (Demo.Style.width s, Demo.Style.height s, Demo.Style.borderRadius s,
   Demo.Style.fontSize s, Demo.Style.fontWeight s)
  = (JS.lit 200, JS.lit 50, JS.lit 0, JS.lit 16, JS.lit 400)
  /\ Server.generateReactCode Spec.flatButton
     = Server.reactTemplate "Cta" "200" "50" "#007AFF" "8" "Go".
Proof. split; vm_compute; reflexivity. Qed.

(* ================================================================== *)
(** * Outcomes at the boundary *)
(* ================================================================== *)

Section Boundary.
Import JS Figma Process.

Lemma find_existsb {A : Type} (p : A -> bool) (l : list A) :
  existsb p l = match find p l with Some _ => true | None => false end.
Proof.
  induction l as [|a l IH]; [reflexivity|]. cbn. now destruct (p a).
Qed.

(** On the route, the response tells the caller what happened, and no
    request goes out without a credential or the two parameters. *)
Lemma fetchComponent_readable (env : Env) (fileKey componentName : option string) :
  let (calls, response) := Demo.fetchComponent env fileKey componentName in
  Spec.readResponse response
  = Some (Spec.routeSituation env fileKey componentName)
  /\ (Spec.routeSituation env fileKey componentName = Spec.NoCredential
      \/ Spec.routeSituation env fileKey componentName = Spec.InvalidRequest ->
      calls = []).
Proof.
  unfold Demo.fetchComponent, Spec.routeSituation, Spec.credential.
  destruct (FIGMA_TOKEN env) as [[|c r]|]; try (split; reflexivity).
  destruct (Demo.if_truthy fileKey) as [fk|];
    [destruct (Demo.if_truthy componentName) as [cn|]|];
    try (split; reflexivity).
  destruct (upstream env _) as [data|msg err].
  - rewrite find_existsb, <- demo_find_preorder.
    destruct (Demo.findNodeByName (document data) cn); split;
      try reflexivity; intros [H|H]; discriminate.
  - split; [reflexivity | intros [H|H]; discriminate].
Qed.

Lemma eqb_after_prefix (p a b : string) :
  String.eqb (p ++ a) (p ++ b) = String.eqb a b.
Proof.
  induction p as [|c p IH]; [reflexivity|].
  cbn [String.append String.eqb]. now rewrite Ascii.eqb_refl.
Qed.

Lemma prefix_of_append (p a : string) : prefix p (p ++ a) = true.
Proof.
  induction p as [|c p IH]; [now destruct a|].
  cbn [String.append prefix].
  destruct (ascii_dec c c) as [_|H]; [exact IH | now elim H].
Qed.

(** What [generateReactComponent] throws is not the error of the
    credential check. *)
Lemma generate_not_credential (reason : string) :
  String.eqb ("Failed to generate component: " ++ reason)
             "FIGMA_TOKEN environment variable is required" = false.
Proof. reflexivity. Qed.

(** On the tool path, the outcome tells the caller what happened, as long
    as the upstream errors are the HTTP client's. *)
Lemma generate_readable (env : Env) (fileKey nodeName : string) :
  Spec.ClientErrors env ->
  Spec.readOutcome nodeName
    (snd (Server.callTool env
            (Server.generate_react_component fileKey nodeName)))
  = Some (Spec.toolSituation env fileKey nodeName).
Proof.
  intros Hclient.
  unfold Server.callTool, Spec.toolSituation, Spec.credential.
  destruct (FIGMA_TOKEN env) as [[|c r]|]; try reflexivity.
  unfold Server.generateReactComponent. cbn [snd Server.mapOutcome].
  destruct (upstream env _) as [data|message err] eqn:Hup.
  - rewrite find_existsb, <- server_find_preorder.
    destruct (Server.findNodeByName (document data) nodeName);
      [reflexivity|].
    cbn [Server.rethrow Server.mapOutcome]. unfold Spec.readOutcome.
    rewrite generate_not_credential.
    change ("Component " ++ dq ++ nodeName ++ dq ++ " not found in Figma file")
      with (Spec.notFoundMessage nodeName).
    now rewrite String.eqb_refl.
  - cbn [Server.rethrow Server.mapOutcome]. unfold Spec.readOutcome.
    rewrite generate_not_credential, eqb_after_prefix, prefix_of_append.
    destruct (String.eqb_spec message (Spec.notFoundMessage nodeName)) as [E|_];
      [|reflexivity].
    now elim (Hclient _ _ _ nodeName Hup).
Qed.

Lemma clientErrors_envRejects : Spec.ClientErrors (Spec.envRejects Spec.forbidden).
Proof.
  intros call message err nodeName H. cbn in H. injection H as <- _.
  unfold Spec.notFoundMessage. discriminate.
Qed.

Lemma clientErrors_envResolves : Spec.ClientErrors Spec.envResolves.
Proof. intros call message err nodeName H. discriminate. Qed.
End Boundary.

(** C7.  On the route, the caller reads off the response which of no
    credential, invalid request, fetch failure, not found and found
    occurred: the five are told apart by the status and, at 500, the
    [error] entry; and without a credential (or without the two parameters)
    no request goes out.  On the tool path, a missing credential throws its
    own error before any request goes out, whatever the tool; and with
    upstream errors that are the HTTP client's, the caller reads off the
    outcome of [generate_react_component] which of no credential, fetch
    failure, not found and found occurred: code is returned, or an error
    whose message tells the three failures apart. *)
Theorem boundary_outcomes (env : Process.Env) :
  (forall fileKey componentName,
     let (calls, response) := Demo.fetchComponent env fileKey componentName in
     Spec.readResponse response
     = Some (Spec.routeSituation env fileKey componentName)
     /\ (Spec.routeSituation env fileKey componentName = Spec.NoCredential
         \/ Spec.routeSituation env fileKey componentName = Spec.InvalidRequest ->
         calls = []))
  /\ (Spec.credential env = None ->
      forall request,
        Server.callTool env request
        = ([], Server.Thrown "FIGMA_TOKEN environment variable is required"))
  /\ (Spec.ClientErrors env ->
      forall fileKey nodeName,
        let result :=
          Server.callTool env (Server.generate_react_component fileKey nodeName) in
        Spec.readOutcome nodeName (snd result)
        = Some (Spec.toolSituation env fileKey nodeName)
        /\ (Spec.toolSituation env fileKey nodeName = Spec.NoCredential ->
            fst result = [])
        /\ (forall tok,
              Spec.credential env = Some tok ->
              fst result
              = [Process.Get (Figma.mkCall (Figma.filesUrl fileKey) tok)]
              /\ (forall data,
                    Process.upstream env
                      (Figma.mkCall (Figma.filesUrl fileKey) tok)
                    = Figma.Resolved data ->
                    Server.findNodeByName (Figma.document data) nodeName = None ->
                    snd result
                    = Server.Thrown ("Failed to generate component: "
                                     ++ Spec.notFoundMessage nodeName))
              /\ (forall message err,
                    Process.upstream env
                      (Figma.mkCall (Figma.filesUrl fileKey) tok)
                    = Figma.Rejected message err ->
                    snd result
                    = Server.Thrown ("Failed to generate component: " ++ message)
                    /\ snd result
                       <> Server.Thrown ("Failed to generate component: "
                                         ++ Spec.notFoundMessage nodeName)))).
Proof.
  conjuncts.
  - intros fileKey componentName. apply fetchComponent_readable.
  - intros Hc request. unfold Server.callTool. unfold Spec.credential in Hc.
    now destruct (Process.FIGMA_TOKEN env) as [[|c r]|].
  - intros Hclient fileKey nodeName result. conjuncts.
    + now apply generate_readable.
    + unfold result, Server.callTool, Spec.toolSituation, Spec.credential.
      destruct (Process.FIGMA_TOKEN env) as [[|c r]|]; try reflexivity.
      destruct (Process.upstream env _); [|discriminate].
      now destruct (existsb _ _).
    + intros tok Hc.
      assert (Hr : result =
                   (fst (Server.generateReactComponent env tok fileKey nodeName),
                    Server.mapOutcome Server.Code
                      (snd (Server.generateReactComponent env tok fileKey nodeName)))).
      { unfold result, Server.callTool. unfold Spec.credential in Hc.
        destruct (Process.FIGMA_TOKEN env) as [[|c r]|]; try discriminate.
        injection Hc as <-. reflexivity. }
      rewrite Hr. unfold Server.generateReactComponent. cbn [fst snd].
      conjuncts.
      * reflexivity.
      * now intros data -> ->.
      * intros message err Hup. rewrite Hup. cbn. split; [reflexivity|].
        intros H. injection H as H.
        now elim (Hclient _ _ _ nodeName Hup).
Qed.

(** With an upstream that answers 403 the caller reads a failed fetch, and
    with a file that lacks the node it reads not found. *)
Lemma boundary_outcomes_witness :
  Spec.readOutcome "Hero"
    (snd (Server.callTool (Spec.envRejects Spec.forbidden)
            (Server.generate_react_component "abc123" "Hero")))
  = Some Spec.FetchFailed
  /\ Spec.readOutcome "Hero"
       (snd (Server.callTool Spec.envResolves
               (Server.generate_react_component "abc123" "Hero")))
     = Some Spec.NotFound.
Proof.
  split.
  - exact (proj1 (proj2 (proj2 (boundary_outcomes (Spec.envRejects Spec.forbidden)))
                    clientErrors_envRejects "abc123" "Hero")).
  - exact (proj1 (proj2 (proj2 (boundary_outcomes Spec.envResolves))
                    clientErrors_envResolves "abc123" "Hero")).
Defined.

(* ================================================================== *)
(** * Binary64 rounding and colour channels *)
(* ================================================================== *)

Lemma digits2_bounds (p : positive) :
  2 ^ (Zpos (digits2_pos p) - 1) <= Zpos p < 2 ^ Zpos (digits2_pos p).
Proof.
  induction p as [p IH|p IH|]; cbn [digits2_pos].
  - rewrite Pos2Z.inj_succ. replace (Z.succ (Zpos (digits2_pos p)) - 1) with (Zpos (digits2_pos p)) by lia.
    rewrite Z.pow_succ_r by lia.
    replace (Zpos (digits2_pos p)) with (Z.succ (Zpos (digits2_pos p) - 1)) at 1 by lia.
    rewrite Z.pow_succ_r by lia. lia.
  - rewrite Pos2Z.inj_succ. replace (Z.succ (Zpos (digits2_pos p)) - 1) with (Zpos (digits2_pos p)) by lia.
    rewrite Z.pow_succ_r by lia.
    replace (Zpos (digits2_pos p)) with (Z.succ (Zpos (digits2_pos p) - 1)) at 1 by lia.
    rewrite Z.pow_succ_r by lia. lia.
  - cbn. lia.
Qed.

Section IterPos.
Context {A : Type} (f : A -> A) (P : Z -> A -> Prop).
Hypothesis step : forall k x, 0 <= k -> P k x -> P (k + 1) (f x).

Lemma iter_pos_invariant (p : positive) :
  forall k x, 0 <= k -> P k x -> P (k + Zpos p) (SpecFloat.iter_pos f p x).
Proof.
  induction p as [p IH|p IH|]; intros k x Hk Hx; cbn [SpecFloat.iter_pos].
  - replace (k + Zpos p~1) with (k + 1 + Zpos p + Zpos p) by lia.
    apply IH; [lia|]. apply IH; [lia|]. now apply step.
  - replace (k + Zpos p~0) with (k + Zpos p + Zpos p) by lia.
    apply IH; [lia|]. now apply IH.
  - now apply step.
Qed.
End IterPos.

Lemma shr_1_shifted (m0 : Z) (k : Z) (x : shr_record) :
  0 <= m0 -> 0 <= k -> Float.shifted m0 k x -> Float.shifted m0 (k + 1) (shr_1 x).
Proof.
  intros Hm Hk [Hq Hz]. destruct x as [m r s]. cbn [shr_m shr_r shr_s] in *.
  assert (Hp : 0 < 2 ^ k) by (apply Z.pow_pos_nonneg; lia).
  assert (Hp1 : 2 ^ (k + 1) = 2 ^ k * 2) by (rewrite Z.pow_add_r by lia; reflexivity).
  assert (Hm2 : m0 / 2 ^ (k + 1) = m / 2).
  { rewrite Hp1, <- Z.div_div by lia. now rewrite Hq. }
  assert (Hex : m0 mod 2 ^ (k + 1) = 0 -> m0 mod 2 ^ k = 0 /\ m mod 2 = 0).
  { intros H0. rewrite Hp1 in H0. rewrite Z.rem_mul_r in H0 by lia.
    rewrite <- Hq in H0.
    pose proof (Z.mod_pos_bound m0 (2 ^ k) Hp).
    pose proof (Z.mod_pos_bound m 2 ltac:(lia)). nia. }
  assert (Hm0 : 0 <= m) by (rewrite Hq; apply Z.div_pos; lia).
  unfold Float.shifted. rewrite Hm2.
  destruct m as [|[p|p|]|p]; cbn [shr_1 shr_m shr_r shr_s]; try lia.
  - split; [reflexivity|]. intros H0. destruct (Hex H0) as [H1 _].
    destruct (Hz H1) as [-> ->]. now split.
  - split; [rewrite (Pos2Z.inj_xI p); apply Z.div_unique with 1; lia|].
    intros H0. destruct (Hex H0) as [_ H2]. rewrite (Pos2Z.inj_xI p) in H2.
    rewrite Z.add_comm, Z.mul_comm, Z.mod_add in H2 by lia. discriminate.
  - split; [rewrite (Pos2Z.inj_xO p); apply Z.div_unique with 0; lia|].
    intros H0. destruct (Hex H0) as [H1 _]. destruct (Hz H1) as [-> ->]. now split.
  - split; [reflexivity|]. intros H0. destruct (Hex H0) as [_ H2]. discriminate.
Qed.

Lemma shr_shifted (m0 : Z) (e n : Z) :
  0 <= m0 ->
  let '(x, e') := shr (Build_shr_record m0 false false) e n in
  let k := Z.max n 0 in
  e' = e + k /\ Float.shifted m0 k x.
Proof.
  intros Hm. destruct n as [|p|p]; cbn [shr Z.max].
  - split; [lia|]. split; cbn; [now rewrite Z.div_1_r | auto].
  - replace (Z.max (Zpos p) 0) with (Zpos p) by lia. split; [reflexivity|].
    apply (iter_pos_invariant shr_1 (Float.shifted m0)) with (k := 0) (x := Build_shr_record m0 false false).
    + intros k x Hk. now apply shr_1_shifted.
    + lia.
    + split; cbn; [now rewrite Z.div_1_r | auto].
  - split; [cbn; lia|]. split; cbn; [now rewrite Z.div_1_r | auto].
Qed.

Lemma Zdigits2_le (m e : Z) (b : Z) :
  0 <= m -> 0 <= b -> m < 2 ^ (b - e) -> e <= b -> Zdigits2 m + e <= b.
Proof.
  intros Hm Hb Hlt He. destruct m as [|p|p]; cbn [Zdigits2]; [lia| |lia].
  pose proof (digits2_bounds p) as [Hlo _].
  assert (H : 2 ^ (Zpos (digits2_pos p) - 1) < 2 ^ (b - e)) by lia.
  apply Z.pow_lt_mono_r_iff in H; lia.
Qed.

(** One pass of the alignment to the target exponent, on a mantissa whose
    value is at most [B < 2^8]: the exponent stays at most -45, the mantissa
    is the quotient, still at most [B] in value, and reaches [B] only when
    nothing was cut off. *)
Lemma shr_fexp_below (B m e : Z) :
  0 <= m -> 0 < B < 2 ^ 8 -> e <= -45 -> m <= B * 2 ^ (- e) ->
  let '(x, e') := shr_fexp JS.prec JS.emax m e loc_Exact in
  e' <= -45 /\ 0 <= shr_m x <= B * 2 ^ (- e')
  /\ (shr_m x = B * 2 ^ (- e') -> shr_r x = false /\ shr_s x = false).
Proof.
  intros Hm HB He Hle. unfold shr_fexp. cbn [shr_record_of_loc].
  set (n := fexp JS.prec JS.emax (Zdigits2 m + e) - e).
  pose proof (shr_shifted m e n Hm) as Hs.
  destruct (shr (Build_shr_record m false false) e n) as [x e'].
  cbv zeta in Hs. destruct Hs as [-> [Hq Hz]].
  set (k := Z.max n 0) in *.
  assert (Hk : 0 <= k) by lia.
  assert (Hpe : 0 < 2 ^ (- e)) by (apply Z.pow_pos_nonneg; lia).
  assert (Hd : Zdigits2 m + e <= 8).
  { apply Zdigits2_le; try lia. replace (8 - e) with (8 + - e) by lia.
    rewrite Z.pow_add_r by lia. nia. }
  assert (Hfe : e + k <= -45).
  { unfold k, n, fexp, SpecFloat.emin, JS.prec, JS.emax in *. lia. }
  assert (Hpk : 0 < 2 ^ k) by (apply Z.pow_pos_nonneg; lia).
  assert (Hpe' : 0 < 2 ^ (- (e + k))) by (apply Z.pow_pos_nonneg; lia).
  assert (Hsplit : 2 ^ (- e) = 2 ^ (- (e + k)) * 2 ^ k).
  { rewrite <- Z.pow_add_r by lia. f_equal. lia. }
  assert (Hdm := Z.div_mod m (2 ^ k) ltac:(lia)).
  assert (Hmb := Z.mod_pos_bound m (2 ^ k) Hpk).
  rewrite <- Hq in Hdm.
  split; [exact Hfe|]. split; [split|].
  - rewrite Hq. apply Z.div_pos; lia.
  - rewrite Hsplit in Hle. nia.
  - intros Heq. apply Hz. rewrite Hsplit in Hle. nia.
Qed.

Lemma round_nearest_even_cases (m : Z) (x : shr_record) :
  shr_m x = m ->
  let m1 := round_nearest_even m (loc_of_shr_record x) in
  (m1 = m \/ m1 = m + 1)
  /\ (shr_r x = false /\ shr_s x = false -> m1 = m).
Proof.
  intros _. destruct x as [mx [|] [|]]; cbn [loc_of_shr_record round_nearest_even shr_r shr_s].
  - split; [now right | intros [H _]; discriminate].
  - split; [destruct (Z.even m); auto | intros [H _]; discriminate].
  - split; [now left | intros [_ H]; discriminate].
  - split; [now left | reflexivity].
Qed.

(** Rounding to binary64 keeps a value of at most [B < 2^8] at most [B]. *)
Lemma binary_round_aux_below (B : Z) (mx : positive) (ex : Z) :
  0 < B < 2 ^ 8 -> ex <= -45 -> Zpos mx <= B * 2 ^ (- ex) ->
  Float.Below B (binary_round_aux JS.prec JS.emax false (Zpos mx) ex loc_Exact).
Proof.
  intros HB He Hle. unfold binary_round_aux.
  pose proof (shr_fexp_below B (Zpos mx) ex ltac:(lia) HB He Hle) as H1.
  destruct (shr_fexp JS.prec JS.emax (Zpos mx) ex loc_Exact) as [x e'].
  destruct H1 as (He' & [Hlo Hhi] & Hex).
  destruct (round_nearest_even_cases (shr_m x) x eq_refl) as [Hm1 Hm1e].
  cbv zeta in Hm1, Hm1e.
  set (m1 := round_nearest_even (shr_m x) (loc_of_shr_record x)) in *.
  assert (Hm1b : 0 <= m1 <= B * 2 ^ (- e')).
  { destruct (Z.eq_dec (shr_m x) (B * 2 ^ (- e'))) as [Heq|Hne].
    - rewrite (Hm1e (Hex Heq)). lia.
    - lia. }
  pose proof (shr_fexp_below B m1 e' ltac:(lia) HB He' ltac:(lia)) as H2.
  destruct (shr_fexp JS.prec JS.emax m1 e' loc_Exact) as [y e''].
  destruct H2 as (He'' & [Hlo2 Hhi2] & _).
  destruct (shr_m y) as [|m|m] eqn:Hy; cbn [Float.Below]; [exact I| |lia].
  replace (e'' <=? JS.emax - JS.prec) with true
    by (symmetry; apply Z.leb_le; unfold JS.emax, JS.prec; lia).
  cbn [Float.Below]. split; lia.
Qed.

Lemma round_half_up_nearest (m e : Z) :
  let z := JS.round_half_up m e in
  (inject_Z z - (1 # 2) <= JS.dyadic m e)%Q /\ (JS.dyadic m e < inject_Z z + (1 # 2))%Q.
Proof.
  unfold JS.round_half_up, JS.dyadic. destruct (0 <=? e) eqn:He.
  - cbv zeta. unfold Qle, Qlt. cbn. lia.
  - apply Z.leb_gt in He. cbv zeta.
    set (k := - e). assert (Hk : 0 < k) by lia.
    assert (Hp : 0 < 2 ^ k) by (apply Z.pow_pos_nonneg; lia).
    assert (Hp1 : 2 ^ (k + 1) = 2 ^ k * 2) by (rewrite Z.pow_add_r by lia; reflexivity).
    rewrite Hp1.
    pose proof (Z.div_mod (2 * m + 2 ^ k) (2 ^ k * 2) ltac:(lia)) as Hdm.
    pose proof (Z.mod_pos_bound (2 * m + 2 ^ k) (2 ^ k * 2) ltac:(lia)) as Hmb.
    set (z := (2 * m + 2 ^ k) / (2 ^ k * 2)) in *.
    unfold Qle, Qlt. cbn. rewrite Z2Pos.id by lia. nia.
Qed.

Section Channels.
Import JS Figma.

Lemma SFleb_finite (m1 m2 : positive) (e1 e2 : Z) :
  SFleb (S754_finite false m1 e1) (S754_finite false m2 e2) = true ->
  e1 < e2 \/ (e1 = e2 /\ Zpos m1 <= Zpos m2).
Proof.
  unfold SFleb, SFcompare.
  destruct (Z.compare_spec e1 e2) as [->|He|He]; intros H; try discriminate.
  - right. split; [reflexivity|].
    destruct (Pos.compare_cont Eq m1 m2) eqn:Hc; try discriminate.
    + apply (proj1 (Pos.compare_eq_iff m1 m2)) in Hc. subst. lia.
    + apply (proj1 (Pos.compare_lt_iff m1 m2)) in Hc.
      apply Pos2Z.pos_lt_pos in Hc. lia.
  - now left.
Qed.

(** A component in [[0, 1]] is a zero or a positive finite number with
    exponent at most -52 and value at most 1. *)
Lemma InUnit_cases (c : number) :
  Spec.InUnit c ->
  (exists s, c = S754_zero s)
  \/ (exists m e, c = S754_finite false m e /\ e <= -52
                  /\ Zpos m <= 2 ^ (- e)).
Proof.
  intros (Hv & H0 & H1). destruct c as [s|s| |s m e].
  - left. now exists s.
  - destruct s; discriminate.
  - discriminate.
  - right. exists m, e. destruct s; [discriminate|].
    split; [reflexivity|].
    cbn in Hv. unfold bounded, canonical_mantissa, fexp, SpecFloat.emin in Hv.
    apply andb_true_iff in Hv. destruct Hv as [Hc _].
    apply Z.eqb_eq in Hc. unfold prec, emax in Hc.
    pose proof (digits2_bounds m) as [_ Hm].
    assert (Hd : Zpos (digits2_pos m) <= 53) by lia.
    assert (Hm53 : Zpos m < 2 ^ 53).
    { eapply Z.lt_le_trans; [exact Hm|]. apply Z.pow_le_mono_r; lia. }
    change (lit 1) with (S754_finite false 4503599627370496 (-52)) in H1.
    apply SFleb_finite in H1. destruct H1 as [He | [-> Hle]].
    + split; [lia|].
      eapply Z.le_trans; [apply Z.lt_le_incl, Hm53|].
      apply Z.pow_le_mono_r; lia.
    + split; [lia|]. exact Hle.
Qed.

(** The product of a component in [[0, 1]] with 255 is a zero or a
    number of value at most 255. *)
Lemma mul_255_below (c : number) :
  Spec.InUnit c ->
  (exists s, mul c (lit 255) = S754_zero s)
  \/ Float.Below 255 (mul c (lit 255)).
Proof.
  intros Hc. destruct (InUnit_cases c Hc) as [(s & ->) | (m & e & -> & He & Hm)].
  - left. now exists (xorb s false).
  - right. unfold mul.
    change (lit 255) with (S754_finite false 8972014882652160 (-45)).
    cbn [SFmul xorb].
    apply binary_round_aux_below; [lia | lia |].
    rewrite Pos2Z.inj_mul.
    replace (- (e + -45)) with (- e + 45) by lia.
    rewrite Z.pow_add_r by lia.
    change (2 ^ 45) with 35184372088832.
    change (Z.pos 8972014882652160) with (255 * 35184372088832).
    assert (0 < 2 ^ (- e)) by (apply Z.pow_pos_nonneg; lia). nia.
Qed.

(** [Math.round] of a number of value at most [B] is an integer from 0
    to [B]. *)
Lemma round_below (B : Z) (x : number) :
  0 <= B -> Float.Below B x ->
  exists z, round x = RInt z /\ 0 <= z <= B.
Proof.
  intros HB Hx. destruct x as [[|]| | |[|] m e]; try contradiction.
  - exists 0. split; [reflexivity | lia].
  - destruct Hx as [He Hm]. cbn [round andb].
    exists (round_half_up (Zpos m) e). split; [reflexivity|].
    unfold round_half_up. rewrite (proj2 (Z.leb_gt 0 e) He).
    assert (Hp : 0 < 2 ^ (- e)) by (apply Z.pow_pos_nonneg; lia).
    replace (- e + 1) with (Z.succ (- e)) by lia.
    rewrite Z.pow_succ_r by lia. split.
    + apply Z.div_pos; lia.
    + apply Z.lt_succ_r, Z.div_lt_upper_bound; [lia | nia].
Qed.

(** [Math.round] gives the nearest integer of any finite number. *)
Lemma round_nearest (x : number) (z : Z) :
  Spec.intOf (round x) = Some z -> Spec.Nearest x z.
Proof.
  unfold Spec.Nearest. destruct x as [s|s| |s m e]; cbn [round Spec.realValue].
  - intros H. exists 0%Q. assert (z = 0) by (destruct s; cbn in H; congruence).
    subst z. split; [reflexivity|]. split; [unfold Qle | unfold Qlt]; cbn; lia.
  - discriminate.
  - discriminate.
  - intros H. eexists. split; [reflexivity|].
    assert (Hz : z = round_half_up (if s then Z.neg m else Z.pos m) e).
    { destruct (s && _) eqn:Hs; cbn in H; [|congruence].
      apply andb_true_iff in Hs. destruct Hs as [_ Hs].
      apply Z.eqb_eq in Hs. congruence. }
    rewrite Hz. apply round_half_up_nearest.
Qed.

(** The channel of a component in [[0, 1]]. *)
Lemma channel_exists (c : number) :
  Spec.InUnit c -> exists z, Spec.Channel c z.
Proof.
  intros Hc. unfold Spec.Channel.
  assert (H : exists z, Spec.intOf (round (mul c (lit 255))) = Some z
                        /\ 0 <= z <= 255).
  { destruct (mul_255_below c Hc) as [(s & ->) | Hb].
    - exists 0. split; [now destruct s | lia].
    - destruct (round_below 255 _ ltac:(lia) Hb) as (z & -> & Hz).
      exists z. split; [reflexivity | exact Hz]. }
  destruct H as (z & Hz & Hr). exists z.
  split; [exact Hz|]. split; [exact (round_nearest _ _ Hz)|].
  split; [exact Hr | unfold Spec.clamp; lia].
Qed.
(** The two hexadecimal digits of each value from 0 to 255, as the code
    prints them. *)
Lemma byte_format_checked :
  forallb (fun n => String.eqb (padStart 2 "0" (digits 16 (Z.of_nat n)))
                               (Spec.hexByte (Z.of_nat n))
                    && Spec.allHexLower (Spec.hexByte (Z.of_nat n)))
          (seq 0 256) = true.
Proof. vm_compute. reflexivity. Qed.

Lemma byte_format (z : Z) :
  0 <= z <= 255 ->
  padStart 2 "0" (digits 16 z) = Spec.hexByte z
  /\ Spec.allHexLower (Spec.hexByte z) = true.
Proof.
  intros Hz. pose proof byte_format_checked as H.
  rewrite forallb_forall in H. specialize (H (Z.to_nat z)).
  rewrite Z2Nat.id in H by lia.
  assert (Hin : In (Z.to_nat z) (seq 0 256)) by (apply in_seq; lia).
  apply H in Hin. apply andb_true_iff in Hin. destruct Hin as [H1 H2].
  split; [now apply String.eqb_eq | exact H2].
Qed.

(** One channel, printed. *)
Lemma hex2_channel (c : number) (z : Z) :
  Spec.Channel c z -> Demo.hex2 c = Spec.hexByte z.
Proof.
  intros (Hz & _ & Hr & _). unfold Demo.hex2.
  destruct (round (mul c (lit 255))) as [|s| |z']; try discriminate;
    cbn in Hz; injection Hz as <-; cbn [toString16].
  - now apply (byte_format 0).
  - rewrite (proj2 (Z.ltb_ge _ _) (proj1 Hr)). now apply byte_format.
Qed.
End Channels.

(** C6.  For a colour whose three components are binary64 values in
    [[0, 1]], [rgbaToHex] (both copies) gives "#" followed by two lowercase
    hexadecimal digits per channel, seven characters in all; the value of a
    channel is [Math.round(c * 255)], the integer nearest to the binary64
    product, which lies between 0 and 255, so that clamping changes
    nothing, and is printed with a leading zero when below 16.  Red
    (1,0,0) gives "#ff0000", black "#000000" and (0.5,0.5,0.5)
    "#808080". *)
Theorem rgbaToHex_channels (color : Figma.Color)
    (Hr : Spec.InUnit (Figma.r color)) (Hg : Spec.InUnit (Figma.g color))
    (Hb : Spec.InUnit (Figma.b color)) :
  exists R G B : Z,
    Spec.Channel (Figma.r color) R /\ Spec.Channel (Figma.g color) G
    /\ Spec.Channel (Figma.b color) B
    /\ Demo.rgbaToHex color
       = "#" ++ Spec.hexByte R ++ Spec.hexByte G ++ Spec.hexByte B
    /\ Server.rgbaToHex color = Demo.rgbaToHex color
    /\ String.length (Demo.rgbaToHex color) = 7%nat
    /\ Spec.allHexLower (Spec.hexByte R ++ Spec.hexByte G ++ Spec.hexByte B) = true
    /\ Demo.rgbaToHex Spec.red = "#ff0000"
    /\ Demo.rgbaToHex Spec.black = "#000000"
    /\ Demo.rgbaToHex Spec.grey = "#808080".
Proof.
  destruct (channel_exists _ Hr) as (R & HR).
  destruct (channel_exists _ Hg) as (G & HG).
  destruct (channel_exists _ Hb) as (B & HB).
  exists R, G, B.
  assert (Hhex : Demo.rgbaToHex color
                 = "#" ++ Spec.hexByte R ++ Spec.hexByte G ++ Spec.hexByte B).
  { unfold Demo.rgbaToHex.
    now rewrite (hex2_channel _ _ HR), (hex2_channel _ _ HG), (hex2_channel _ _ HB). }
  conjuncts; try assumption; try reflexivity.
  - now rewrite Hhex.
  - destruct HR as (_ & _ & HR3 & _), HG as (_ & _ & HG3 & _),
             HB as (_ & _ & HB3 & _).
    destruct (byte_format R HR3) as [_ H1], (byte_format G HG3) as [_ H2],
             (byte_format B HB3) as [_ H3].
    unfold Spec.allHexLower in *. cbn [Spec.hexByte String.append list_ascii_of_string forallb] in *.
    rewrite !andb_true_r in *.
    apply andb_true_iff in H1, H2, H3.
    destruct H1 as [-> ->], H2 as [-> ->], H3 as [-> ->]. reflexivity.
Qed.

(** The colour with every component at one half. *)
Lemma rgbaToHex_channels_witness :
  Spec.InUnit Spec.half
  /\ exists R G B : Z,
       Spec.Channel Spec.half R /\ Spec.Channel Spec.half G
       /\ Spec.Channel Spec.half B
       /\ Demo.rgbaToHex Spec.grey
          = "#" ++ Spec.hexByte R ++ Spec.hexByte G ++ Spec.hexByte B.
Proof.
  assert (H : Spec.InUnit Spec.half) by (repeat split; reflexivity).
  split; [exact H|].
  destruct (rgbaToHex_channels Spec.grey H H H)
    as (R & G & B & HR & HG & HB & Hhex & _).
  exists R, G, B. auto.
Defined.

(** The product is the binary64 one: for a component just below
    [0.5 / 255] it rounds up to one half, and the channel is 1, although
    the exact product is below one half. *)
Remark rgbaToHex_product_is_rounded :
  Spec.InUnit Spec.underHalf
  /\ Spec.realValue Spec.underHalf = Some (4521260802379792 # 2 ^ 61)%Q
  /\ ((4521260802379792 # 2 ^ 61) * 255 < 1 # 2)%Q
  /\ JS.mul Spec.underHalf (JS.lit 255) = Spec.half
  /\ Demo.hex2 Spec.underHalf = "01".
Proof. repeat split; vm_compute; reflexivity. Qed.

(* ================================================================== *)
(** * Further properties: text nodes and the text style *)
(* ================================================================== *)

Section TextNodes.
Import JS Figma.

Lemma findTextNode_preorder (node : Node) :
  Demo.findTextNode node = Props.firstTextNode node.
Proof.
  unfold Props.firstTextNode.
  induction node as [node IH] using Node_tree_ind.
  destruct node as [i nm ty ch bb cr fl st chs fs fw ta]; unfold kids in IH.
  cbn [Demo.findTextNode preorder find]. unfold Props.isText at 1.
  cbn [type children].
  destruct (String.eqb ty "TEXT"); [reflexivity|].
  destruct ch as [cs|]; [|reflexivity].
  now apply first_result_flat_map.
Qed.

Lemma resolvedTextNode_first (node : Node) :
  Spec.resolvedTextNode node = Props.firstTextNode node.
Proof.
  unfold Spec.resolvedTextNode. rewrite findTextNode_preorder.
  unfold Props.firstTextNode.
  destruct node as [i nm ty ch bb cr fl st chs fs fw ta].
  cbn [preorder find type]. unfold Props.isText. cbn [type].
  now destruct (String.eqb ty "TEXT").
Qed.

Lemma textColor_first (node : Node) :
  Demo.textColor node =
  match Props.fillColorOf (Props.firstTextNode node) with
  | Some c => Demo.rgbaToHex c
  | None => "#000000"
  end.
Proof.
  unfold Demo.textColor. rewrite findTextNode_preorder.
  unfold Props.firstTextNode, Props.fillColorOf.
  destruct node as [i nm ty ch bb cr fl st chs fs fw ta].
  cbn [preorder find type children]. unfold Props.isText.
  cbn [type].
  destruct (String.eqb ty "TEXT") eqn:Hty.
  - unfold Demo.firstFillColor. cbn [fills].
    destruct fl as [[|f r]|]; try destruct (color f); destruct ch; reflexivity.
  - destruct ch as [cs|]; [|reflexivity].
    now destruct (find _ (flat_map preorder cs)).
Qed.
End TextNodes.

(** X1.  [findTextNode] returns the first node of the document order whose
    type is TEXT, the node itself when it is one, and [null] exactly when
    the tree has no TEXT node. *)
Theorem findTextNode_first_in_document_order (node : Figma.Node) :
  Demo.findTextNode node = find Props.isText (Figma.preorder node)
  /\ (Figma.type node = "TEXT" -> Demo.findTextNode node = Some node)
  /\ (forall t, Demo.findTextNode node = Some t <->
                Spec.FirstIn Props.isText (Figma.preorder node) t)
  /\ (forall t, Demo.findTextNode node = Some t -> Figma.type t = "TEXT")
  /\ (Demo.findTextNode node = None <->
      forall x, In x (Figma.preorder node) -> Figma.type x <> "TEXT").
Proof.
  pose proof (findTextNode_preorder node) as H. unfold Props.firstTextNode in H.
  conjuncts.
  - exact H.
  - intros Hty. destruct node; cbn in *. now rewrite Hty.
  - intros t. rewrite H. apply find_first_in.
  - intros t Ht. rewrite H in Ht. apply find_some in Ht.
    now apply String.eqb_eq.
  - rewrite H, find_none_iff. split; intros Hx x Hin.
    + apply String.eqb_neq. now apply Hx.
    + apply String.eqb_neq. now apply Hx.
Qed.

(** X2.  The text colour and the font values of the style record are read
    from one and the same node, the first TEXT node of the document order
    (the node itself when it is a TEXT node).  The text colour is the colour
    of that node's first fill whatever the fill's visibility, type or
    opacity; without a TEXT node, or without such a colour, it is
    "#000000", and without a TEXT node the font values are 16, 400 and
    "left". *)
Theorem text_style_from_first_text_node (node : Figma.Node) :
  let s := Demo.extractComponentStyle node in
  let t := Props.firstTextNode node in
  Demo.Style.color s
  = match Props.fillColorOf t with
    | Some c => Demo.rgbaToHex c
    | None => "#000000"
    end
  /\ (forall x, t = Some x ->
        Demo.Style.fontSize s = JS.or_number (Figma.fontSize x) (JS.lit 16)
        /\ Demo.Style.fontWeight s = JS.or_number (Figma.fontWeight x) (JS.lit 400)
        /\ Demo.Style.textAlign s
           = JS.toLowerCase (JS.or_string (Figma.textAlignHorizontal x) "LEFT"))
  /\ (forall x fill rest c,
        t = Some x -> Figma.fills x = Some (fill :: rest) ->
        Figma.color fill = Some c ->
        Demo.Style.color s = Demo.rgbaToHex c)
  /\ (t = None ->
        Demo.Style.color s = "#000000"
        /\ Demo.Style.fontSize s = JS.lit 16
        /\ Demo.Style.fontWeight s = JS.lit 400
        /\ Demo.Style.textAlign s = "left").
Proof.
  cbv zeta.
  assert (Hcol : Demo.Style.color (Demo.extractComponentStyle node)
                 = Demo.textColor node).
  { unfold Demo.extractComponentStyle.
    destruct (Demo.background node), (Demo.fontMetrics node) as [[? ?] ?].
    reflexivity. }
  assert (Hfont : (Demo.Style.fontSize (Demo.extractComponentStyle node),
                   Demo.Style.fontWeight (Demo.extractComponentStyle node),
                   Demo.Style.textAlign (Demo.extractComponentStyle node))
                  = Demo.fontMetrics node).
  { unfold Demo.extractComponentStyle.
    destruct (Demo.background node), (Demo.fontMetrics node) as [[? ?] ?].
    reflexivity. }
  unfold Demo.fontMetrics in Hfont. fold (Spec.resolvedTextNode node) in Hfont.
  rewrite resolvedTextNode_first in Hfont.
  rewrite Hcol, textColor_first. conjuncts.
  - reflexivity.
  - intros x Hx. rewrite Hx in Hfont. injection Hfont as -> -> ->. auto.
  - intros x fill rest c Hx Hf Hc. rewrite Hx. cbn [Props.fillColorOf].
    unfold Demo.firstFillColor. now rewrite Hf, Hc.
  - intros Hn. rewrite Hn in Hfont |- *. injection Hfont as -> -> ->. auto.
Qed.

(* ================================================================== *)
(** * Further properties: the classifier and the style record *)
(* ================================================================== *)

Section StyleInvariants.
Import JS Figma.

(** A name that contains "textbox" contains "text". *)
Lemma textbox_contains_text (nm : string) :
  Spec.ContainsCI nm "textbox" -> Spec.ContainsCI nm "text".
Proof.
  intros (bf & bl & af & -> & Hbl). unfold toLowerCase in Hbl.
  destruct (map_string_split lower_char bl "text" "box" Hbl)
    as (b1 & b2 & -> & H1 & _).
  exists bf, b1, (b2 ++ af). split; [now rewrite append_assoc | exact H1].
Qed.

Lemma or_number_truthy (v : option number) (d : number) :
  truthy_number d = true -> truthy_number (or_number v d) = true.
Proof.
  intros Hd. destruct v as [x|]; cbn; [|exact Hd].
  destruct (truthy_number x) eqn:Hx; [exact Hx | exact Hd].
Qed.

Lemma or_string_nonempty (v : option string) (d : string) :
  d <> "" -> or_string v d <> "".
Proof.
  intros Hd. destruct v as [[|c r]|]; cbn; try exact Hd. discriminate.
Qed.

Lemma lower_char_not_upper (c : ascii) : is_upper (lower_char c) = false.
Proof.
  destruct c as [[|] [|] [|] [|] [|] [|] [|] [|]]; vm_compute; reflexivity.
Qed.

Lemma toLowerCase_noUpper (s : string) : Props.noUpper (toLowerCase s) = true.
Proof.
  unfold Props.noUpper, toLowerCase.
  induction s as [|c s IH]; [reflexivity|].
  cbn [map_string list_ascii_of_string forallb].
  now rewrite lower_char_not_upper, IH.
Qed.

Lemma rgbaToHex_hash (c : Color) : Props.startsWith "#" (Demo.rgbaToHex c).
Proof. unfold Demo.rgbaToHex. now eexists. Qed.
End StyleInvariants.

(** X3.  The classifier's answer is always one of "button", "text" and
    "input".  It is "input" exactly when the name hits neither the button
    group nor the text group and contains "input" or "field": the test for
    "textbox" never decides, since a name that contains "textbox" contains
    "text" and is classified "button" or "text". *)
Theorem classify_closed_set (node : Figma.Node) :
  let ty := Demo.Style.type (Demo.extractComponentStyle node) in
  let nm := Figma.name node in
  (ty = "button" \/ ty = "text" \/ ty = "input")
  /\ (ty = "input" <->
      ~ Spec.ButtonName nm /\ ~ Spec.TextName nm
      /\ (Spec.ContainsCI nm "input" \/ Spec.ContainsCI nm "field"))
  /\ (Spec.ContainsCI nm "textbox" -> ty = "button" \/ ty = "text").
Proof.
  cbv zeta. rewrite style_type, classify_cascade.
  pose proof (buttonName_iff (Figma.name node)) as Hb.
  pose proof (textName_iff (Figma.name node)) as Ht.
  pose proof (inputName_iff (Figma.name node)) as Hi.
  assert (Htb : Spec.ContainsCI (Figma.name node) "textbox" ->
                Spec.textName (Figma.name node) = true).
  { intros H. apply Ht. left. now apply textbox_contains_text. }
  unfold Spec.InputName in Hi.
  match goal with
  | |- context [if Spec.inputName _ then "input" else ?v] => set (visual := v)
  end.
  assert (Hv : visual = "button" \/ visual = "text").
  { unfold visual.
    repeat match goal with
           | |- context [if ?b then _ else _] => destruct b
           end; auto. }
  clearbody visual.
  destruct (Spec.buttonName (Figma.name node)) eqn:Eb.
  { conjuncts; auto.
    split; [discriminate|]. intros (H & _). exfalso. apply H. now apply Hb. }
  destruct (Spec.textName (Figma.name node)) eqn:Et.
  { conjuncts; auto.
    split; [discriminate|]. intros (_ & H & _). exfalso. apply H. now apply Ht. }
  assert (Hnb : ~ Spec.ButtonName (Figma.name node))
    by (intros H; apply Hb in H; discriminate).
  assert (Hnt : ~ Spec.TextName (Figma.name node))
    by (intros H; apply Ht in H; discriminate).
  destruct (Spec.inputName (Figma.name node)) eqn:Ei.
  - conjuncts; auto.
    + split; [intros _ | reflexivity]. repeat split; auto.
      destruct (proj1 Hi eq_refl) as [H | [H | H]]; auto.
      specialize (Htb H). discriminate.
    + intros H. specialize (Htb H). discriminate.
  - conjuncts.
    + destruct Hv as [-> | ->]; auto.
    + split.
      * intros H. destruct Hv as [Hv | Hv]; rewrite Hv in H; discriminate.
      * intros (_ & _ & H). exfalso.
        assert (Hf : false = true) by (apply Hi; tauto). discriminate.
    + intros H. specialize (Htb H). discriminate.
Qed.

(** X4.  Whatever the node, the style record is renderable: width, height,
    font size and font weight are never zero or NaN; the border radius is
    never NaN (it is a non-zero number or [+0]); the text is never empty; the
    background colour is "transparent" or begins with "#"; the text colour
    begins with "#"; and the text alignment has no uppercase letter. *)
Theorem style_record_invariants (node : Figma.Node) :
  let s := Demo.extractComponentStyle node in
  JS.truthy_number (Demo.Style.width s) = true
  /\ JS.truthy_number (Demo.Style.height s) = true
  /\ JS.truthy_number (Demo.Style.fontSize s) = true
  /\ JS.truthy_number (Demo.Style.fontWeight s) = true
  /\ (JS.truthy_number (Demo.Style.borderRadius s) = true
      \/ Demo.Style.borderRadius s = S754_zero false)
  /\ Demo.Style.text s <> ""
  /\ (Demo.Style.backgroundColor s = "transparent"
      \/ Props.startsWith "#" (Demo.Style.backgroundColor s))
  /\ Props.startsWith "#" (Demo.Style.color s)
  /\ Props.noUpper (Demo.Style.textAlign s) = true.
Proof.
  cbv zeta.
  destruct (style_fields node) as (Hw & Hh & Hr & Hbg & Htx & Hfs & Hfw).
  cbv zeta in *.
  assert (Hal : Demo.Style.textAlign (Demo.extractComponentStyle node)
                = snd (Demo.fontMetrics node)).
  { unfold Demo.extractComponentStyle.
    destruct (Demo.background node), (Demo.fontMetrics node) as [[? ?] ?].
    reflexivity. }
  assert (Hco : Demo.Style.color (Demo.extractComponentStyle node)
                = Demo.textColor node).
  { unfold Demo.extractComponentStyle.
    destruct (Demo.background node), (Demo.fontMetrics node) as [[? ?] ?].
    reflexivity. }
  rewrite Hw, Hh, Hr, Hbg, Htx, Hfs, Hfw, Hal, Hco. conjuncts.
  - now apply or_number_truthy.
  - now apply or_number_truthy.
  - unfold Demo.fontMetrics.
    destruct (if String.eqb _ _ then _ else _); cbn [fst snd];
      [now apply or_number_truthy | reflexivity].
  - unfold Demo.fontMetrics.
    destruct (if String.eqb _ _ then _ else _); cbn [fst snd];
      [now apply or_number_truthy | reflexivity].
  - destruct (Figma.cornerRadius node) as [x|]; cbn; [|now right].
    destruct (JS.truthy_number x) eqn:Hx; [now left | now right].
  - now apply or_string_nonempty.
  - unfold Demo.background.
    destruct (Figma.fills node) as [[|f r]|]; try (now left).
    destruct (Figma.color f); [|now left].
    destruct (_ && _); [right; apply rgbaToHex_hash | now left].
  - rewrite textColor_first.
    destruct (Props.fillColorOf _); [apply rgbaToHex_hash | now eexists].
  - unfold Demo.fontMetrics.
    destruct (if String.eqb _ _ then _ else _); cbn [snd];
      [apply toLowerCase_noUpper | reflexivity].
Qed.

(* ================================================================== *)
(** * Further properties: the two generators side by side *)
(* ================================================================== *)

Section Generators.
Import JS Figma.

Lemma extractText_nonempty (node : Node) (t : string) :
  Demo.extractText node = Some t -> t <> "".
Proof.
  rewrite extractText_firstText. intros H.
  rewrite <- firstText_truthy in H.
  destruct (Spec.firstText (preorder node)) as [[|c r]|]; cbn in H; congruence.
Qed.

(** A background the extractor reports is the colour of the first fill. *)
Lemma background_is_first_fill_colour (node : Node) :
  fst (Demo.background node) <> "transparent" ->
  exists c, Demo.firstFillColor node = Some c
            /\ fst (Demo.background node) = Demo.rgbaToHex c.
Proof.
  unfold Demo.background, Demo.firstFillColor.
  destruct (fills node) as [[|f r]|]; cbn; try congruence.
  destruct (color f) as [c|]; cbn; try congruence.
  destruct (_ && _); cbn; try congruence.
  intros _. now exists c.
Qed.
End Generators.

(** X5.  The generated component against the style record of the same
    node.  The code is the template filled with the identifier and five
    values.  Width and height are those of the record.  The background is
    the colour of the first fill, whatever the fill's visibility and type,
    and "#007AFF" without one: it is the record's background when the first
    fill passes the record's checks, while for a first fill that is hidden
    or not solid, and without a colour, the record has "transparent".  The
    border radius is the record's unless that is zero, where the code has 8.
    The text is the record's when the tree has a non-empty [characters], and
    otherwise "Button" against the record's "Text". *)
Theorem generators_agree (node : Figma.Node) :
  let s := Demo.extractComponentStyle node in
  exists backgroundColor cornerRadius text,
    Server.generateReactCode node
    = Server.reactTemplate (Server.toPascalCase (Figma.name node))
        (JS.numberToString (Demo.Style.width s))
        (JS.numberToString (Demo.Style.height s))
        backgroundColor cornerRadius text
    /\ (forall fill c,
          Spec.firstFill node = Some fill -> Spec.Contributes fill c ->
          backgroundColor = Demo.rgbaToHex c
          /\ Demo.Style.backgroundColor s = Demo.rgbaToHex c)
    /\ (forall fill c,
          Spec.firstFill node = Some fill -> Figma.color fill = Some c ->
          Figma.visible fill = Some false \/ Figma.ptype fill <> "SOLID" ->
          backgroundColor = Demo.rgbaToHex c
          /\ Demo.Style.backgroundColor s = "transparent")
    /\ (Demo.firstFillColor node = None ->
        backgroundColor = "#007AFF"
        /\ Demo.Style.backgroundColor s = "transparent")
    /\ (Demo.Style.backgroundColor s <> "transparent" ->
        backgroundColor = Demo.Style.backgroundColor s)
    /\ (JS.truthy_number (Demo.Style.borderRadius s) = true ->
        cornerRadius = JS.numberToString (Demo.Style.borderRadius s))
    /\ (JS.truthy_number (Demo.Style.borderRadius s) = false ->
        cornerRadius = "8" /\ Demo.Style.borderRadius s = S754_zero false)
    /\ (forall t, Demo.extractText node = Some t ->
          text = t /\ Demo.Style.text s = t)
    /\ (Demo.extractText node = None ->
          text = "Button" /\ Demo.Style.text s = "Text").
Proof.
  cbv zeta.
  destruct (style_fields node) as (Hw & Hh & Hr & Hbg & Htx & _).
  cbv zeta in *. rewrite Hw, Hh, Hr, Hbg, Htx.
  unfold Server.generateReactCode.
  change (Server.boxWidth node) with (Demo.boxWidth node).
  change (Server.boxHeight node) with (Demo.boxHeight node).
  change (Server.extractText node) with (Demo.extractText node).
  change (Server.firstFillColor node) with (Demo.firstFillColor node).
  change (Server.rgbaToHex) with (Demo.rgbaToHex).
  eexists _, _, _. split; [reflexivity|]. conjuncts.
  - intros fill c Hf (Hv & Ht & Hc).
    unfold Spec.firstFill in Hf. unfold Demo.firstFillColor, Demo.background.
    destruct (Figma.fills node) as [[|f rest]|]; try discriminate.
    injection Hf as ->. rewrite Hc, Ht.
    destruct Hv as [-> | ->]; split; reflexivity.
  - intros fill c Hf Hc Hfail.
    unfold Spec.firstFill in Hf. unfold Demo.firstFillColor, Demo.background.
    destruct (Figma.fills node) as [[|f rest]|]; try discriminate.
    injection Hf as ->. rewrite Hc. split; [reflexivity|].
    destruct Hfail as [-> | Hty]; [reflexivity|].
    destruct (String.eqb_spec (Figma.ptype fill) "SOLID") as [E|_];
      [now elim Hty|].
    now rewrite andb_false_r.
  - intros Hnone. rewrite Hnone. split; [reflexivity|].
    unfold Demo.firstFillColor in Hnone. unfold Demo.background.
    destruct (Figma.fills node) as [[|f rest]|]; try reflexivity.
    now rewrite Hnone.
  - intros H. destruct (background_is_first_fill_colour node H) as (c & -> & ->).
    reflexivity.
  - unfold JS.or_number.
    destruct (Figma.cornerRadius node) as [x|]; [|discriminate].
    destruct (JS.truthy_number x) eqn:Hx; [reflexivity | discriminate].
  - assert (H8 : JS.numberToString (JS.lit 8) = "8") by (vm_compute; reflexivity).
    unfold JS.or_number.
    destruct (Figma.cornerRadius node) as [x|];
      [|intros _; split; [exact H8 | reflexivity]].
    destruct (JS.truthy_number x) eqn:Hx;
      [congruence | intros _; split; [exact H8 | reflexivity]].
  - intros t Ht. pose proof (extractText_nonempty node t Ht) as Hne.
    rewrite Ht. destruct t; [now elim Hne | now split].
  - intros ->. now split.
Qed.

(** A hidden red first fill: "transparent" in the record, red in the code. *)
Example generators_hidden_fill :
  Demo.Style.backgroundColor (Demo.extractComponentStyle Props.hiddenRed)
  = "transparent"
  /\ Server.generateReactCode Props.hiddenRed
     = Server.reactTemplate "Panel" "200" "50" "#ff0000" "8" "Button".
Proof. split; vm_compute; reflexivity. Qed.

(* ================================================================== *)
(** * Further properties: the shape of a colour string *)
(* ================================================================== *)

Section ColourShape.
Import JS Figma.

Lemma length_app (a b : string) :
  String.length (a ++ b) = (String.length a + String.length b)%nat.
Proof. induction a as [|c a IH]; cbn; [reflexivity | now rewrite IH]. Qed.

Lemma length_repeat_char (c : ascii) (n : nat) :
  String.length (repeat_char c n) = n.
Proof. induction n as [|n IH]; cbn; [reflexivity | now rewrite IH]. Qed.

Lemma padStart_length (n : nat) (c : ascii) (s : string) :
  String.length (padStart n c s) = Nat.max n (String.length s).
Proof. unfold padStart. rewrite length_app, length_repeat_char. lia. Qed.

Lemma padStart_long (n : nat) (c : ascii) (s : string) :
  (n <= String.length s)%nat -> padStart n c s = s.
Proof.
  intros H. unfold padStart.
  replace (n - String.length s)%nat with 0%nat by lia. reflexivity.
Qed.

Lemma allHexLower_app (a b : string) :
  Spec.allHexLower (a ++ b) = Spec.allHexLower a && Spec.allHexLower b.
Proof.
  unfold Spec.allHexLower. induction a as [|c a IH]; [reflexivity|].
  cbn [String.append list_ascii_of_string forallb]. now rewrite IH, andb_assoc.
Qed.

Lemma digits_fuel_grows (fuel : nat) (radix z : Z) (acc : string) :
  (String.length acc <= String.length (digits_fuel fuel radix z acc))%nat.
Proof.
  revert z acc. induction fuel as [|f IH]; intros z acc; cbn [digits_fuel].
  - lia.
  - destruct (z <? radix); [cbn; lia|].
    eapply Nat.le_trans; [|apply IH]. cbn. lia.
Qed.

Lemma digits_fuel_one (f : nat) (radix z : Z) (acc : string) :
  (S (String.length acc) <= String.length (digits_fuel (S f) radix z acc))%nat.
Proof.
  cbn [digits_fuel]. destruct (z <? radix); [cbn; lia|].
  eapply Nat.le_trans; [|apply digits_fuel_grows]. cbn. lia.
Qed.

Lemma digits_nonempty (radix z : Z) :
  (1 <= String.length (digits radix z))%nat.
Proof. unfold digits. apply (digits_fuel_one _ radix z ""). Qed.

(** A value of 256 or more takes three hexadecimal digits or more. *)
Lemma digits16_three (z : Z) :
  256 <= z -> (3 <= String.length (digits 16 z))%nat.
Proof.
  intros Hz. unfold digits.
  assert (Hl : 8 <= Z.log2 z).
  { change 8 with (Z.log2 256). now apply Z.log2_le_mono. }
  destruct (Z.to_nat (Z.log2 z)) as [|[|f]] eqn:Hf; try lia.
  cbn [digits_fuel].
  rewrite (proj2 (Z.ltb_ge z 16)) by lia.
  assert (H16 : 16 <= z / 16) by (apply Z.div_le_lower_bound; lia).
  rewrite (proj2 (Z.ltb_ge (z / 16) 16)) by lia.
  eapply Nat.le_trans; [|apply digits_fuel_one]. cbn. lia.
Qed.

Lemma hex2_length (c : number) : (2 <= String.length (Demo.hex2 c))%nat.
Proof. unfold Demo.hex2. rewrite padStart_length. lia. Qed.

(** One channel is two lowercase hexadecimal digits exactly when the
    component rounds to an integer from 0 to 255. *)
Lemma hex2_TwoHex_iff (c : number) :
  Props.TwoHex (Demo.hex2 c) <-> Props.ByteChannel c.
Proof.
  unfold Props.TwoHex, Props.ByteChannel, Demo.hex2. split.
  - intros [Hlen Hhex].
    destruct (round (mul c (lit 255))) as [|s| |z]; cbn [toString16] in *.
    + discriminate.
    + destruct s; discriminate.
    + exists 0. split; [reflexivity | lia].
    + exists z. split; [reflexivity|].
      destruct (z <? 0) eqn:Hneg.
      * exfalso. rewrite padStart_long in Hhex.
        -- discriminate.
        -- pose proof (digits_nonempty 16 (- z)).
           rewrite length_app. cbn [String.length]. lia.
      * apply Z.ltb_ge in Hneg. split; [exact Hneg|].
        destruct (Z_le_gt_dec z 255) as [Hle|Hgt]; [exact Hle|].
        exfalso. rewrite padStart_length in Hlen.
        pose proof (digits16_three z ltac:(lia)). lia.
  - intros (z & Hz & Hr).
    destruct (byte_format z Hr) as [Hfmt Hhex].
    assert (Heq : padStart 2 "0" (toString16 (round (mul c (lit 255))))
                  = Spec.hexByte z).
    { destruct (round (mul c (lit 255))) as [|s| |z']; try discriminate;
        cbn in Hz; injection Hz as <-; cbn [toString16].
      - exact Hfmt.
      - now rewrite (proj2 (Z.ltb_ge _ _) (proj1 Hr)). }
    rewrite Heq. split; [reflexivity | exact Hhex].
Qed.
End ColourShape.

(** X6.  [rgbaToHex] never clamps or checks its input.  Its result always
    begins with "#" and has at least seven characters; it is a colour of the
    form [#rrggbb] with lowercase digits exactly when every component times
    255 rounds to an integer from 0 to 255.  A component that is NaN,
    infinite, or rounds to a negative integer or to more than 255 gives a
    string that is not such a colour. *)
Theorem rgbaToHex_wellformed_iff (color : Figma.Color) :
  Props.startsWith "#" (Demo.rgbaToHex color)
  /\ (7 <= String.length (Demo.rgbaToHex color))%nat
  /\ (Props.SixHex (Demo.rgbaToHex color) <->
      Props.ByteChannel (Figma.r color) /\ Props.ByteChannel (Figma.g color)
      /\ Props.ByteChannel (Figma.b color)).
Proof.
  pose proof (hex2_length (Figma.r color)) as Lr.
  pose proof (hex2_length (Figma.g color)) as Lg.
  pose proof (hex2_length (Figma.b color)) as Lb.
  conjuncts.
  - apply rgbaToHex_hash.
  - unfold Demo.rgbaToHex. cbn [String.append String.length].
    rewrite !length_app. lia.
  - rewrite <- !hex2_TwoHex_iff. unfold Props.SixHex, Props.TwoHex, Demo.rgbaToHex.
    split.
    + intros (ds & Heq & Hlen & Hhex). cbn [String.append] in Heq.
      injection Heq as <-. rewrite !length_app in Hlen.
      rewrite !allHexLower_app in Hhex.
      apply andb_true_iff in Hhex. destruct Hhex as [H1 Hhex].
      apply andb_true_iff in Hhex. destruct Hhex as [H2 H3].
      repeat split; try assumption; lia.
    + intros ((L1 & H1) & (L2 & H2) & (L3 & H3)).
      eexists. split; [reflexivity|]. rewrite !length_app, !allHexLower_app.
      rewrite L1, L2, L3, H1, H2, H3. split; reflexivity.
Qed.

(** With a red component of 2 the result has eight characters. *)
Example rgbaToHex_overRed :
  Demo.rgbaToHex Props.overRed = "#1fe0000"
  /\ ~ Props.SixHex (Demo.rgbaToHex Props.overRed).
Proof.
  split; [vm_compute; reflexivity|].
  intros (ds & Heq & Hlen & _).
  change (Demo.rgbaToHex Props.overRed) with "#1fe0000" in Heq.
  injection Heq as <-. discriminate.
Qed.

(* ================================================================== *)
(** * Further properties: [hexToRgba] and [rgbaToHex] *)
(* ================================================================== *)

Section HexRoundTrip.
Import JS Figma.

Lemma same_number_eq (x y : number) : Props.same_number x y = true -> x = y.
Proof.
  destruct x as [s|s| |s m e], y as [s'|s'| |s' m' e']; cbn;
    try discriminate; try reflexivity.
  - intros H. apply Bool.eqb_prop in H. now subst.
  - intros H. apply Bool.eqb_prop in H. now subst.
  - intros H. apply andb_true_iff in H. destruct H as [H He].
    apply andb_true_iff in H. destruct H as [Hs Hm].
    apply Bool.eqb_prop in Hs. apply Pos.eqb_eq in Hm. apply Z.eqb_eq in He.
    now subst.
Qed.

(** Every byte, written in either case, is read back, and its quotient by
    255 is printed as the byte again. *)
Lemma byte_round_trip_checked :
  forallb (fun n =>
             let z := Z.of_nat n in
             Props.same_number (Hex.parseInt16 (Spec.hexByte z)) (lit z)
             && Props.same_number
                  (Hex.parseInt16 (toUpperCase (Spec.hexByte z))) (lit z)
             && String.eqb (Demo.hex2 (Hex.div (lit z) (lit 255)))
                           (Spec.hexByte z))
          (seq 0 256) = true.
Proof. vm_compute. reflexivity. Qed.

Lemma byte_round_trip (z : Z) :
  0 <= z <= 255 ->
  Hex.parseInt16 (Spec.hexByte z) = lit z
  /\ Hex.parseInt16 (toUpperCase (Spec.hexByte z)) = lit z
  /\ Demo.hex2 (Hex.div (lit z) (lit 255)) = Spec.hexByte z.
Proof.
  intros Hz. pose proof byte_round_trip_checked as H.
  rewrite forallb_forall in H. specialize (H (Z.to_nat z)).
  cbv zeta in H. rewrite Z2Nat.id in H by lia.
  assert (Hin : In (Z.to_nat z) (seq 0 256)) by (apply in_seq; lia).
  apply H in Hin. apply andb_true_iff in Hin. destruct Hin as [Hin H3].
  apply andb_true_iff in Hin. destruct Hin as [H1 H2].
  repeat split; [now apply same_number_eq | now apply same_number_eq |].
  now apply String.eqb_eq.
Qed.

(** The three slices of a six-digit colour are its three bytes. *)
Lemma hexToRgba_bytes (R G B : Z) :
  0 <= R <= 255 -> 0 <= G <= 255 -> 0 <= B <= 255 ->
  Hex.hexToRgba (Props.hexColour R G B)
  = Hex.mkRgba (Hex.div (lit R) (lit 255)) (Hex.div (lit G) (lit 255))
      (Hex.div (lit B) (lit 255)) (lit 1)
  /\ Hex.hexToRgba (toUpperCase (Props.hexColour R G B))
     = Hex.hexToRgba (Props.hexColour R G B).
Proof.
  intros HR HG HB.
  destruct (byte_round_trip R HR) as (R1 & R2 & _).
  destruct (byte_round_trip G HG) as (G1 & G2 & _).
  destruct (byte_round_trip B HB) as (B1 & B2 & _).
  unfold Hex.hexToRgba, Hex.slice2, Props.hexColour, Spec.hexByte in *.
  cbn [String.append substring toUpperCase map_string] in *.
  now rewrite R1, R2, G1, G2, B1, B2.
Qed.

(** A channel that rounds to a byte is printed as that byte. *)
Lemma hex2_byte (c : number) (z : Z) :
  Spec.intOf (round (mul c (lit 255))) = Some z -> 0 <= z <= 255 ->
  Demo.hex2 c = Spec.hexByte z.
Proof.
  intros Hz Hr. unfold Demo.hex2. destruct (byte_format z Hr) as [Hfmt _].
  destruct (round (mul c (lit 255))) as [|s| |z']; try discriminate;
    cbn in Hz; injection Hz as <-; cbn [toString16].
  - exact Hfmt.
  - now rewrite (proj2 (Z.ltb_ge _ _) (proj1 Hr)).
Qed.
End HexRoundTrip.

(** X7.  [hexToRgba] followed by [rgbaToHex] gives back every six-digit
    colour, in lowercase whatever the case of the digits read: for bytes
    R, G and B, [hexToRgba] of "#RRGGBB" has the components R/255, G/255 and
    B/255 and alpha 1, and [rgbaToHex] prints it as "#rrggbb". *)
Theorem hexToRgba_round_trip (R G B : Z)
    (HR : 0 <= R <= 255) (HG : 0 <= G <= 255) (HB : 0 <= B <= 255) :
  let hex := Props.hexColour R G B in
  Hex.hexToRgba hex
  = Hex.mkRgba (Hex.div (JS.lit R) (JS.lit 255)) (Hex.div (JS.lit G) (JS.lit 255))
      (Hex.div (JS.lit B) (JS.lit 255)) (JS.lit 1)
  /\ Hex.hexToRgba (JS.toUpperCase hex) = Hex.hexToRgba hex
  /\ Server.rgbaToHex (Hex.asColor (Hex.hexToRgba hex)) = hex
  /\ Server.rgbaToHex (Hex.asColor (Hex.hexToRgba (JS.toUpperCase hex))) = hex.
Proof.
  cbv zeta. destruct (hexToRgba_bytes R G B HR HG HB) as [H1 H2].
  destruct (byte_round_trip R HR) as (_ & _ & R3).
  destruct (byte_round_trip G HG) as (_ & _ & G3).
  destruct (byte_round_trip B HB) as (_ & _ & B3).
  assert (H3 : Server.rgbaToHex
                 (Hex.asColor (Hex.hexToRgba (Props.hexColour R G B)))
               = Props.hexColour R G B).
  { rewrite H1. unfold Server.rgbaToHex, Hex.asColor, Props.hexColour.
    cbn [Figma.r Figma.g Figma.b Hex.r Hex.g Hex.b].
    change Server.hex2 with Demo.hex2. now rewrite R3, G3, B3. }
  conjuncts; try assumption. now rewrite H2.
Qed.

(** The default colour of [createButton], "#007AFF", comes back as
    "#007aff". *)
Lemma hexToRgba_round_trip_witness :
  JS.toUpperCase (Props.hexColour 0 122 255) = Props.defaultBlue
  /\ Server.rgbaToHex (Hex.asColor (Hex.hexToRgba Props.defaultBlue))
     = "#007aff".
Proof.
  split; [reflexivity|].
  destruct (hexToRgba_round_trip 0 122 255 ltac:(lia) ltac:(lia) ltac:(lia))
    as (_ & _ & _ & H).
  exact H.
Defined.

(** X8.  Printing a colour, reading the string back and printing again
    changes nothing, for every colour whose components round to bytes:
    [rgbaToHex] after [hexToRgba] after [rgbaToHex] is [rgbaToHex]. *)
Theorem rgbaToHex_hexToRgba_stable (color : Figma.Color)
    (Hr : Props.ByteChannel (Figma.r color))
    (Hg : Props.ByteChannel (Figma.g color))
    (Hb : Props.ByteChannel (Figma.b color)) :
  Server.rgbaToHex (Hex.asColor (Hex.hexToRgba (Server.rgbaToHex color)))
  = Server.rgbaToHex color.
Proof.
  destruct Hr as (R & HR & HR'), Hg as (G & HG & HG'), Hb as (B & HB & HB').
  assert (Hhex : Server.rgbaToHex color = Props.hexColour R G B).
  { unfold Server.rgbaToHex, Props.hexColour. change Server.hex2 with Demo.hex2.
    now rewrite (hex2_byte _ _ HR HR'), (hex2_byte _ _ HG HG'),
      (hex2_byte _ _ HB HB'). }
  rewrite Hhex.
  destruct (hexToRgba_bytes R G B HR' HG' HB') as [H1 _].
  destruct (byte_round_trip R HR') as (_ & _ & R3).
  destruct (byte_round_trip G HG') as (_ & _ & G3).
  destruct (byte_round_trip B HB') as (_ & _ & B3).
  rewrite H1. unfold Server.rgbaToHex, Hex.asColor, Props.hexColour.
  cbn [Figma.r Figma.g Figma.b Hex.r Hex.g Hex.b].
  change Server.hex2 with Demo.hex2. now rewrite R3, G3, B3.
Qed.

(** The colour with every component at one half. *)
Lemma rgbaToHex_hexToRgba_stable_witness :
  Props.ByteChannel Spec.half
  /\ Server.rgbaToHex (Hex.asColor (Hex.hexToRgba (Server.rgbaToHex Spec.grey)))
     = "#808080".
Proof.
  assert (H : Props.ByteChannel Spec.half).
  { exists 128. split; [reflexivity | lia]. }
  split; [exact H|].
  exact (rgbaToHex_hexToRgba_stable Spec.grey H H H).
Defined.

(* ================================================================== *)
(** * Further properties: the identifier of the generated component *)
(* ================================================================== *)

Section IdentifierShape.
Import JS.

Lemma toPascalCase_pascal (s : string) :
  Server.toPascalCase s = Spec.pascal true s.
Proof.
  unfold Server.toPascalCase. pose proof (pieces_pascal s) as H.
  destruct (split " " (Server.replaceNonAlnum s)) as [|w ws]; [easy|].
  cbn [map]. rewrite join_cons. apply H.
Qed.

(** Case mapping on the 256 characters. *)
Lemma case_mapping_facts (c : ascii) :
  is_alnum (upper_char c) = is_alnum c
  /\ is_alnum (lower_char c) = is_alnum c
  /\ is_lower (upper_char c) = false
  /\ upper_char (upper_char c) = upper_char c
  /\ lower_char (upper_char c) = lower_char c
  /\ upper_char (lower_char c) = upper_char c
  /\ lower_char (lower_char c) = lower_char c.
Proof.
  destruct c as [[|] [|] [|] [|] [|] [|] [|] [|]]; vm_compute;
    repeat split; reflexivity.
Qed.

Lemma pascal_allAlnum (o : bool) (s : string) :
  Props.allAlnum (Spec.pascal o s) = true.
Proof.
  unfold Props.allAlnum. revert o. induction s as [|c s IH]; intros o;
    [reflexivity|].
  cbn [Spec.pascal]. destruct (is_alnum c) eqn:Hc; [|apply IH].
  cbn [list_ascii_of_string forallb]. rewrite IH, andb_true_r.
  destruct (case_mapping_facts c) as (H1 & H2 & _).
  destruct o; congruence.
Qed.

Lemma pascal_length (o : bool) (s : string) :
  String.length (Spec.pascal o s) = Props.countAlnum s.
Proof.
  unfold Props.countAlnum. revert o. induction s as [|c s IH]; intros o;
    [reflexivity|].
  cbn [Spec.pascal list_ascii_of_string filter].
  destruct (is_alnum c); cbn [String.length List.length]; now rewrite IH.
Qed.

Lemma pascal_first (s : string) (c : ascii) (rest : string) :
  Spec.pascal true s = String c rest -> is_lower c = false.
Proof.
  induction s as [|x s IH]; [discriminate|]. cbn [Spec.pascal].
  destruct (is_alnum x); [|exact IH].
  intros H. injection H as <- _. apply case_mapping_facts.
Qed.

Lemma pascal_case_blind (f : ascii -> ascii) (o : bool) (s : string) :
  (forall c, is_alnum (f c) = is_alnum c
             /\ upper_char (f c) = upper_char c
             /\ lower_char (f c) = lower_char c) ->
  Spec.pascal o (map_string f s) = Spec.pascal o s.
Proof.
  intros Hf. revert o. induction s as [|c s IH]; intros o; [reflexivity|].
  cbn [map_string Spec.pascal]. destruct (Hf c) as (-> & -> & ->).
  destruct (is_alnum c); now rewrite IH.
Qed.

Lemma pascal_separator_blind (o : bool) (s : string) :
  Spec.pascal o (Server.replaceNonAlnum s) = Spec.pascal o s.
Proof.
  unfold Server.replaceNonAlnum. revert o.
  induction s as [|c s IH]; intros o; [reflexivity|].
  cbn [map_string Spec.pascal].
  destruct (is_alnum c) eqn:Hc.
  - rewrite Hc. now rewrite IH.
  - cbn. apply IH.
Qed.
End IdentifierShape.

(** X9.  The identifier [toPascalCase] gives keeps the letters and digits
    of the name and nothing else: it has one character per letter or digit
    of the name, all of them letters or digits; it is empty exactly when
    the name has no letter or digit; and it never begins with a lowercase
    letter (it begins with an uppercase letter or a digit). *)
Theorem toPascalCase_identifier_shape (str : string) :
  Props.allAlnum (Server.toPascalCase str) = true
  /\ String.length (Server.toPascalCase str) = Props.countAlnum str
  /\ (Server.toPascalCase str = "" <-> Props.countAlnum str = 0%nat)
  /\ (forall c rest, Server.toPascalCase str = String c rest ->
        JS.is_lower c = false /\ JS.is_alnum c = true).
Proof.
  rewrite toPascalCase_pascal. conjuncts.
  - apply pascal_allAlnum.
  - apply pascal_length.
  - rewrite <- (pascal_length true str).
    destruct (Spec.pascal true str); cbn; split; congruence.
  - intros c rest H. split; [eapply pascal_first; eassumption|].
    pose proof (pascal_allAlnum true str) as Ha. rewrite H in Ha.
    unfold Props.allAlnum in Ha. cbn in Ha.
    now apply andb_true_iff in Ha.
Qed.

(** X10.  The identifier does not depend on the case of the letters [a] to
    [z] of the name, nor on which characters separate its words: replacing
    the letters [a] to [z] by [A] to [Z], or [A] to [Z] by [a] to [z], or
    every character that is not a letter or digit by a space, gives the same
    identifier.  Names that differ only in these respects share one
    identifier. *)
Theorem toPascalCase_case_and_separator_blind (str : string) :
  Server.toPascalCase (Props.upperAZ str) = Server.toPascalCase str
  /\ Server.toPascalCase (Props.lowerAZ str) = Server.toPascalCase str
  /\ Server.toPascalCase (Server.replaceNonAlnum str) = Server.toPascalCase str
  /\ (forall other,
        Server.replaceNonAlnum (Props.lowerAZ other)
        = Server.replaceNonAlnum (Props.lowerAZ str) ->
        Server.toPascalCase other = Server.toPascalCase str).
Proof.
  assert (Hup : forall s, Server.toPascalCase (Props.upperAZ s)
                          = Server.toPascalCase s).
  { intros s. rewrite !toPascalCase_pascal. apply pascal_case_blind.
    intros c. destruct (case_mapping_facts c) as (H1 & H2 & H3 & H4 & H5 & _).
    auto. }
  assert (Hlo : forall s, Server.toPascalCase (Props.lowerAZ s)
                          = Server.toPascalCase s).
  { intros s. rewrite !toPascalCase_pascal. apply pascal_case_blind.
    intros c. destruct (case_mapping_facts c) as (H1 & H2 & H3 & H4 & H5 & H6 & H7).
    auto. }
  assert (Hsp : forall s, Server.toPascalCase (Server.replaceNonAlnum s)
                          = Server.toPascalCase s).
  { intros s. rewrite !toPascalCase_pascal. apply pascal_separator_blind. }
  conjuncts; auto.
  intros other H. rewrite <- (Hlo other), <- (Hsp (Props.lowerAZ other)), H.
  now rewrite Hsp, Hlo.
Qed.

Example toPascalCase_collisions :
  map Server.toPascalCase ["my-button"; "My Button"; "MY_BUTTON"; "my  button!"]
  = ["MyButton"; "MyButton"; "MyButton"; "MyButton"]
  /\ map Server.toPascalCase [""; "--"; "2nd choice"; "PrimaryCta"]
     = [""; ""; "2ndChoice"; "Primarycta"].
Proof. split; reflexivity. Qed.

(* ================================================================== *)
(** * Further properties: listing, search and the upstream requests *)
(* ================================================================== *)

Section ListedAndFound.
Import JS Figma.

Lemma listed_is_described (T : Node) (d : Server.Descriptor.t) :
  In d (Server.extractComponents T []) ->
  exists x, In x (preorder T) /\ Server.collected x = true
            /\ d = Server.describe x.
Proof.
  rewrite extractComponents_appends. cbn [app]. rewrite in_map_iff.
  intros (x & <- & Hx). apply filter_In in Hx. now exists x.
Qed.

Lemma find_named_member (T x : Node) :
  In x (preorder T) ->
  exists found, find (Spec.named (name x)) (preorder T) = Some found
                /\ name found = name x.
Proof.
  intros Hx. destruct (find (Spec.named (name x)) (preorder T)) as [found|] eqn:Hf.
  - exists found. split; [reflexivity|].
    apply find_some in Hf. now apply String.eqb_eq.
  - apply (find_none _ _ Hf) in Hx. unfold Spec.named in Hx.
    now rewrite String.eqb_refl in Hx.
Qed.

Lemma levels_preorder (T : Node) :
  forall d, map fst (Props.levels T d) = preorder T.
Proof.
  induction T as [T IH] using Node_tree_ind.
  destruct T as [i nm ty ch bb cr fl st chs fs fw ta]; unfold kids in IH.
  intros d. cbn [Props.levels preorder children map fst]. f_equal.
  destruct ch as [cs|]; [|reflexivity].
  rewrite map_flat_map. cbn [children] in IH.
  induction IH as [|x l Hx _ IHl]; [reflexivity|].
  cbn [flat_map]. now rewrite Hx, IHl.
Qed.

Lemma traverse_appends (T : Node) :
  forall d console,
    Lister.traverse T d console =
    (console ++ map Props.lineOf (filter Props.logged (Props.levels T d)))%list.
Proof.
  induction T as [T IH] using Node_tree_ind.
  destruct T as [i nm ty ch bb cr fl st chs fs fw ta]; unfold kids in IH.
  intros d console. cbn [Lister.traverse Props.levels children filter].
  set (T := mkNode i nm ty ch bb cr fl st chs fs fw ta).
  change (truthy_string (name T) && truthy_string (type T))
    with (Props.logged (T, d)).
  destruct ch as [cs|].
  - rewrite (fold_left_appends (fun x acc => Lister.traverse x (S d) acc)
               (fun x => map Props.lineOf
                           (filter Props.logged (Props.levels x (S d)))) cs).
    + rewrite <- map_flat_map, <- filter_flat_map.
      destruct (Props.logged (T, d)); cbn [map];
        rewrite <- ?app_assoc; reflexivity.
    + eapply Forall_impl; [|exact IH]. intros x Hx acc. apply Hx.
  - destruct (Props.logged (T, d)); cbn [map]; now rewrite ?app_nil_r.
Qed.

Lemma levels_depth (T : Node) :
  forall d x k, In (x, k) (Props.levels T d) -> (d <= k)%nat.
Proof.
  induction T as [T IH] using Node_tree_ind.
  destruct T as [i nm ty ch bb cr fl st chs fs fw ta]; unfold kids in IH.
  intros d x k. cbn [Props.levels children]. intros [H|H].
  - injection H as _ <-. lia.
  - destruct ch as [cs|]; [|easy]. apply in_flat_map in H as (c & Hc & H).
    rewrite Forall_forall in IH. specialize (IH c Hc (S d) x k H). lia.
Qed.
End ListedAndFound.

(** X11.  What the tool [get_figma_file] lists, the tool
    [generate_react_component] finds, as long as the file has not changed in
    between: when the listing of a file is returned, and a later request
    fetches the same document, then for the name of any listed component the
    later request returns code, never the answer "not found", and the code
    is that of a node of that name. *)
Theorem listed_components_are_found
    (env later : Process.Env) (fileKey : string)
    (calls : list Process.Request)
    (l : Server.FileListing) (d : Server.Descriptor.t)
    (Hlisted : Server.callTool env (Server.get_figma_file fileKey)
               = (calls, Server.Returned (Server.Listing l)))
    (Hd : In d (Server.components l))
    (Hsame : Props.SameDocument env later fileKey) :
  exists found,
    Props.ReturnsCodeOf later fileKey (Server.Descriptor.name d) found
    /\ Figma.name found = Server.Descriptor.name d
    /\ fst (Server.callTool later
              (Server.generate_react_component fileKey
                 (Server.Descriptor.name d))) = calls.
Proof.
  unfold Props.ReturnsCodeOf. destruct Hsame as [Htok Hsame].
  revert Hlisted. unfold Server.callTool. rewrite Htok.
  destruct (Process.FIGMA_TOKEN env) as [[|c tok]|]; try discriminate.
  unfold Server.getFigmaFile, Server.generateReactComponent.
  destruct (Process.upstream env _) as [data|message err] eqn:Hup;
    [|cbn; discriminate].
  destruct (Hsame _ _ Hup) as (data' & -> & Hdoc). rewrite Hdoc. cbn.
  intros H. injection H as <- <-. cbn in Hd.
  apply listed_is_described in Hd as (x & Hx & _ & ->).
  destruct (find_named_member _ _ Hx) as (found & Hf & Hn).
  cbn [Server.describe Server.Descriptor.name].
  rewrite server_find_preorder, Hf. cbn. now exists found.
Qed.

Lemma listed_components_are_found_witness :
  exists found,
    Props.ReturnsCodeOf Props.smallEnv "abc" "Hero" found
    /\ Figma.name found = "Hero".
Proof.
  assert (Hsame : Props.SameDocument Props.smallEnv Props.smallEnv "abc").
  { split; [reflexivity|]. intros tok data H. now exists data. }
  destruct (listed_components_are_found Props.smallEnv Props.smallEnv "abc" _ _
              (Server.describe Props.hero) eq_refl (or_introl eq_refl) Hsame)
    as (found & H1 & H2 & _).
  exists found. split; [exact H1 | exact H2].
Defined.


(** A button posted to the first page of the small document: the two
    requests, and the refusal of the upstream API thrown behind the prefix. *)
Example createButton_smallDocument :
  Server.callTool Props.smallEnv (Server.create_button Props.goButton)
  = ([ Props.getFile "abc" "figd_secret";
       Props.postNodes "abc" "figd_secret"
         (Process.mkPayload "" "Go" (JS.lit 200) (JS.lit 50)
            (Hex.hexToRgba Props.defaultBlue)) ],
     Server.failed "Request failed with status code 404")
  /\ Server.callTool Spec.envResolves (Server.create_button Props.goButton)
     = ([ Props.getFile "abc" "figd_secret" ],
        Server.failed Spec.v8TypeError).
Proof. split; reflexivity. Qed.

(** X13.  The listing script logs one line for every node of the tree whose
    name and type are not empty, in document order, after what was logged
    before; the line of a node is indented by two spaces for each level
    below the node the listing started from.  A node that is not logged is
    still descended into, and its children are indented as if it had been. *)
Theorem traverse_lists_document_order
    (node : Figma.Node) (depth : nat) (console : list string) :
  Lister.traverse node depth console
  = (console
     ++ map Props.lineOf (filter Props.logged (Props.levels node depth)))%list
  /\ map fst (Props.levels node depth) = Figma.preorder node
  /\ (forall x k, In (x, k) (Props.levels node depth) -> (depth <= k)%nat)
  /\ (List.length (Lister.traverse node depth console)
      <= List.length console + List.length (Figma.preorder node))%nat.
Proof.
  conjuncts.
  - apply traverse_appends.
  - apply levels_preorder.
  - apply levels_depth.
  - rewrite traverse_appends, List.length_app, List.length_map,
      <- (levels_preorder node depth), List.length_map.
    pose proof (filter_length_le Props.logged (Props.levels node depth)). lia.
Qed.

Example traverse_smallDocument :
  Lister.traverse Props.smallDocument 0 []
  = [ "- Document (DOCUMENT)";
      "  - Page 1 (CANVAS)";
      "    - Hero (FRAME)";
      "      - Title (TEXT)" ]
  /\ Lister.traverse
       (Spec.bare "" "CANVAS" (Some [ Spec.bare "Hero" "FRAME" None ])) 0 []
     = [ "  - Hero (FRAME)" ].
Proof. split; reflexivity. Qed.

(** X14.  The route of the demonstration server and the tool
    [generate_react_component] of the MCP server agree on a request with a
    file key and a name that are not empty, when both servers have a
    credential and their fetches of the file are answered alike (both
    resolved, with the same document, or both rejected): both fetch the same
    URL; the route answers 200 exactly when the tool returns code, and then
    the style and the code are those of one and the same node; and when the
    route answers 404 the tool throws the "not found" message behind its
    prefix. *)
Theorem route_and_tool_agree
    (demo server : Process.Env) (fileKey nodeName tokD tokS : string)
    (Hkey : fileKey <> "") (Hname : nodeName <> "")
    (HtokD : Spec.credential demo = Some tokD)
    (HtokS : Spec.credential server = Some tokS)
    (Halike : Props.AnsweredAlike
                (Process.upstream demo
                   (Figma.mkCall (Figma.filesUrl fileKey) tokD))
                (Process.upstream server
                   (Figma.mkCall (Figma.filesUrl fileKey) tokS))) :
  let route := Demo.fetchComponent demo (Some fileKey) (Some nodeName) in
  let tool :=
    Server.callTool server (Server.generate_react_component fileKey nodeName) in
  fst route = [Figma.mkCall (Figma.filesUrl fileKey) tokD]
  /\ fst tool = [Process.Get (Figma.mkCall (Figma.filesUrl fileKey) tokS)]
  /\ (Demo.status (snd route) = 200
      <-> exists code, snd tool = Server.Returned (Server.Code code))
  /\ (Demo.status (snd route) = 200 ->
      exists component,
        Props.AnswersStyleOf demo fileKey nodeName component
        /\ Props.ReturnsCodeOf server fileKey nodeName component
        /\ Figma.name component = nodeName)
  /\ (Demo.status (snd route) = 404 ->
      snd tool
      = Server.Thrown ("Failed to generate component: Component " ++ Figma.dq
                       ++ nodeName ++ Figma.dq ++ " not found in Figma file")).
Proof.
  cbv zeta. unfold Props.AnswersStyleOf, Props.ReturnsCodeOf.
  unfold Demo.fetchComponent, Server.callTool, Server.generateReactComponent.
  destruct fileKey as [|k key]; [easy|]. destruct nodeName as [|n nm]; [easy|].
  cbn [Demo.if_truthy JS.truthy_string].
  unfold Spec.credential in HtokD, HtokS.
  destruct (Process.FIGMA_TOKEN demo) as [[|c tok]|]; try discriminate.
  destruct (Process.FIGMA_TOKEN server) as [[|c' tok']|]; try discriminate.
  injection HtokD as <-. injection HtokS as <-.
  unfold Props.AnsweredAlike in Halike.
  destruct (Process.upstream demo _) as [data|message err];
    destruct (Process.upstream server _) as [data'|message' err'];
    try contradiction.
  - rewrite demo_find_preorder, server_find_preorder, <- Halike.
    destruct (find _ _) as [component|] eqn:Hf; cbn; conjuncts;
      try reflexivity; try discriminate.
    + split; [intros _; now eexists | reflexivity].
    + intros _. exists component. conjuncts; [now eexists | reflexivity|].
      apply find_some in Hf. now apply String.eqb_eq.
    + split; [discriminate | intros [? H]; discriminate].
  - cbn. conjuncts; try reflexivity; try discriminate.
    split; [discriminate | intros [? H]; discriminate].
Qed.

Lemma route_and_tool_agree_witness :
  Demo.status (snd (Demo.fetchComponent Props.smallEnv (Some "abc") (Some "Hero")))
  = 200
  /\ exists code,
       snd (Server.callTool Props.smallEnv
              (Server.generate_react_component "abc" "Hero"))
       = Server.Returned (Server.Code code).
Proof.
  split; [reflexivity|].
  apply (route_and_tool_agree Props.smallEnv Props.smallEnv "abc" "Hero"
           "figd_secret" "figd_secret");
    [discriminate | discriminate | reflexivity | reflexivity | reflexivity
    | reflexivity].
Defined.

(* ================================================================== *)
(** * Further properties: [hexToRgba] on any string *)
(* ================================================================== *)

Section HexAnyInput.
Import JS Figma.

Lemma substring_short (n : nat) (s : string) :
  forall i, (String.length (substring i n s) <= n)%nat.
Proof.
  revert n. induction s as [|c s IH]; intros n i.
  - destruct i, n; cbn; lia.
  - destruct i as [|i].
    + destruct n as [|n]; cbn; [lia|]. specialize (IH n 0%nat). lia.
    + cbn. apply IH.
Qed.

Lemma substring_past (n : nat) (s : string) :
  forall i, (String.length s <= i)%nat -> substring i n s = "".
Proof.
  induction s as [|c s IH]; intros i Hi.
  - destruct i, n; reflexivity.
  - destruct i as [|i]; cbn in Hi; [lia|]. cbn. apply IH. lia.
Qed.

(** [parseInt(s, 16)] on every string of one or two characters. *)
Lemma parseInt16_two_checked :
  forallb (fun a =>
             Props.parsedByte
               (Hex.parseInt16 (String (ascii_of_nat a) ""))
             && forallb (fun b =>
                           Props.parsedByte
                             (Hex.parseInt16
                                (String (ascii_of_nat a)
                                   (String (ascii_of_nat b) ""))))
                        (seq 0 256))
          (seq 0 256) = true.
Proof. vm_compute. reflexivity. Qed.

Lemma ascii_in_range (c : ascii) : In (nat_of_ascii c) (seq 0 256).
Proof. apply in_seq. pose proof (nat_ascii_bounded c). lia. Qed.

Lemma parsedByte_short (s : string) :
  (String.length s <= 2)%nat -> Props.parsedByte (Hex.parseInt16 s) = true.
Proof.
  intros Hs. pose proof parseInt16_two_checked as H.
  rewrite forallb_forall in H.
  destruct s as [|a [|b [|c s]]]; [reflexivity| | |cbn in Hs; lia].
  - specialize (H _ (ascii_in_range a)). rewrite ascii_nat_embedding in H.
    now apply andb_true_iff in H.
  - specialize (H _ (ascii_in_range a)). rewrite ascii_nat_embedding in H.
    apply andb_true_iff in H. destruct H as [_ H].
    rewrite forallb_forall in H. specialize (H _ (ascii_in_range b)).
    now rewrite ascii_nat_embedding in H.
Qed.

Lemma parsedByte_ParsedByte (x : number) :
  Props.parsedByte x = true -> Props.ParsedByte x.
Proof.
  unfold Props.ParsedByte. destruct x as [s|s| |s m e]; intros H.
  - right; left. now exists s.
  - discriminate.
  - now left.
  - right; right. unfold Props.parsedByte in H. cbv zeta in H.
    apply andb_true_iff in H. destruct H as [H Hk].
    apply andb_true_iff in H. destruct H as [Hlo Hhi].
    apply Z.leb_le in Hlo, Hhi. apply same_number_eq in Hk.
    eexists. split; [split; eassumption | exact Hk].
Qed.

Lemma slice2_channel (i : nat) (hex : string) :
  Props.ParsedChannel (Hex.div (Hex.parseInt16 (Hex.slice2 i hex)) (lit 255)).
Proof.
  eexists. split; [|reflexivity]. apply parsedByte_ParsedByte, parsedByte_short.
  apply substring_short.
Qed.
End HexAnyInput.

(** X15.  [hexToRgba] checks nothing and never fails: for every string the
    alpha is 1 and each of the three components is what [parseInt] read
    from two characters at most (NaN, a zero, or an integer from -15 to
    255), divided by 255.  A string of five characters or fewer, such as the
    shorthand "#fff", gives NaN for blue, and [rgbaToHex] then prints no
    six-digit colour for it. *)
Theorem hexToRgba_any_string (hex : string) :
  Hex.a (Hex.hexToRgba hex) = JS.lit 1
  /\ Props.ParsedChannel (Hex.r (Hex.hexToRgba hex))
  /\ Props.ParsedChannel (Hex.g (Hex.hexToRgba hex))
  /\ Props.ParsedChannel (Hex.b (Hex.hexToRgba hex))
  /\ ((String.length hex <= 5)%nat ->
      Hex.b (Hex.hexToRgba hex) = S754_nan
      /\ ~ Props.SixHex (Server.rgbaToHex (Hex.asColor (Hex.hexToRgba hex)))).
Proof.
  unfold Hex.hexToRgba. cbn [Hex.a Hex.r Hex.g Hex.b]. conjuncts;
    try apply slice2_channel; [reflexivity|].
  intros Hlen. unfold Server.rgbaToHex, Hex.asColor.
  cbn [Figma.r Figma.g Figma.b Hex.r Hex.g Hex.b].
  unfold Hex.slice2. rewrite (substring_past 2 hex 5 Hlen).
  split; [reflexivity|].
  change (Server.hex2 (Hex.div (Hex.parseInt16 "") (JS.lit 255))) with "NaN".
  cbn [String.append]. intros (ds & Heq & _ & Hall).
  injection Heq as Heq. subst ds.
  rewrite !allHexLower_app in Hall.
  apply andb_true_iff in Hall. destruct Hall as [_ Hall].
  apply andb_true_iff in Hall. destruct Hall as [_ Hall]. discriminate.
Qed.

Example hexToRgba_shorthand :
  Server.rgbaToHex (Hex.asColor (Hex.hexToRgba "#fff")) = "#ff0fNaN"
  /\ Server.rgbaToHex (Hex.asColor (Hex.hexToRgba "007AFF")) = "#07af0f".
Proof. split; vm_compute; reflexivity. Qed.
